(** * weather_forecast: a shallow embedding of [streamlit_app.py]

    The program is a Streamlit page that calls two OpenWeather endpoints,
    reshapes the forecast with pandas and renders the result.  This file
    embeds the four functions that carry logic

      - [fetch_current_weather]        (source lines 11-25)
      - [fetch_forecast]               (source lines 28-75)
      - [get_api_key_from_env_or_ui]   (source lines 77-94)
      - [format_location_block]        (source lines 97-101)

    together with the parts of Python, requests, pandas and Streamlit
    they rely on, and proves their properties.

    Conventions.  Python values are the inductive [pyval]; a Python call
    that may raise has type [outcome A]; the network, the secrets store,
    the process environment and the sidebar widget are explicit
    arguments; the memoisation of [st.cache_data] is an explicit session
    state. *)

From Stdlib Require Import ZArith Ascii String List Bool Lia DecimalString.
From stdpp Require Import base option list strings gmap.

(* ===================================================================== *)
(** * Python values *)
(* ===================================================================== *)

Module Py.

(** What [json.loads] can build.  A float is kept as the text Python's
    [repr] prints for it ("21.5", "nan", "1e+16"): the program never
    computes with floats, it only tests them for truth and prints them.
    A [dict] is an association list in insertion order. *)
#[local] Unset Elimination Schemes.
Inductive pyval : Type :=
| PNone
| PBool (b : bool)
| PInt (z : Z)
| PFloat (repr : string)
| PStr (s : string)
| PList (items : list pyval)
| PDict (items : list (string * pyval)).
#[local] Set Elimination Schemes.

Abbreviation pydict := (list (string * pyval)).

(** Induction on Python values, through lists and dicts. *)
Section PyvalInd.
Variable P : pyval → Prop.
Hypothesis HNone : P PNone.
Hypothesis HBool : ∀ b, P (PBool b).
Hypothesis HInt : ∀ z, P (PInt z).
Hypothesis HFloat : ∀ r, P (PFloat r).
Hypothesis HStr : ∀ s, P (PStr s).
Hypothesis HList : ∀ l, Forall P l → P (PList l).
Hypothesis HDict : ∀ d, Forall (fun kv => P kv.2) d → P (PDict d).

Fixpoint pyval_ind (v : pyval) : P v :=
  match v with
  | PNone => HNone
  | PBool b => HBool b
  | PInt z => HInt z
  | PFloat r => HFloat r
  | PStr s => HStr s
  | PList l =>
      HList l ((fix all (l : list pyval) : Forall P l :=
                  match l with
                  | [] => @List.Forall_nil _ P
                  | x :: l' => @List.Forall_cons _ P x l' (pyval_ind x) (all l')
                  end) l)
  | PDict d =>
      HDict d ((fix all (d : pydict) : Forall (fun kv => P kv.2) d :=
                  match d with
                  | [] => @List.Forall_nil _ _
                  | kv :: d' => @List.Forall_cons _ _ kv d' (pyval_ind kv.2) (all d')
                  end) d)
  end.
End PyvalInd.

(** Exceptions, by the classes the program's handlers tell apart.
    [RequestException] stands for the class and all its subclasses
    (ConnectionError, Timeout, and in requests >= 2.27 the JSONDecodeError
    raised by [Response.json]); its argument is [str(exc)]. *)
Inductive exn : Type :=
| RequestException (detail : string)
| AttributeError (detail : string)
| KeyError (key : string)
| ValueError (detail : string)
| TypeError (detail : string).

(** The result of running a piece of Python.  [Unmodelled] marks the
    pandas calls on data outside the fragment this development describes,
    or on which released versions of pandas differ (see
    [Pandas.DataFrame_ctor], [Pandas.json_normalize] and
    [Pandas.to_datetime_cell]); nothing is claimed about them. *)
Inductive outcome (A : Type) : Type :=
| Returned (a : A)
| Raised (e : exn)
| Unmodelled.
Arguments Returned {A} a.
Arguments Raised {A} e.
Arguments Unmodelled {A}.

#[global] Instance outcome_ret : MRet outcome := fun A a => Returned a.
#[global] Instance outcome_bind : MBind outcome := fun A B k m =>
  match m with
  | Returned a => k a
  | Raised e => Raised e
  | Unmodelled => Unmodelled
  end.

(** [try: body / except requests.RequestException as exc: handler] *)
Definition except_RequestException {A} (body : outcome A)
    (handler : string → outcome A) : outcome A :=
  match body with
  | Raised (RequestException detail) => handler detail
  | other => other
  end.

(** [try: body / except Exception: handler] *)
Definition except_Exception {A} (body : outcome A) (handler : outcome A) : outcome A :=
  match body with
  | Raised _ => handler
  | other => other
  end.

(** ** Dictionaries *)

Fixpoint dict_get (d : pydict) (k : string) : option pyval :=
  match d with
  | [] => None
  | (k', v) :: d' => if String.eqb k' k then Some v else dict_get d' k
  end.

(** [d[k] = v]: an existing key keeps its position, a new one goes last. *)
Fixpoint dict_set (d : pydict) (k : string) (v : pyval) : pydict :=
  match d with
  | [] => [(k, v)]
  | (k', v') :: d' =>
      if String.eqb k' k then (k', v) :: d' else (k', v') :: dict_set d' k v
  end.

Definition dict_keys (d : pydict) : list string := map fst d.

(** [{**a, **b}] *)
Definition dict_merge (a b : pydict) : pydict :=
  fold_left (fun acc kv => dict_set acc (fst kv) (snd kv)) b a.

(** [obj.get(key, default)]: only a dict has the method. *)
Definition py_get (obj : pyval) (key : string) (default : pyval) : outcome pyval :=
  match obj with
  | PDict d => Returned (match dict_get d key with Some v => v | None => default end)
  | _ => Raised (AttributeError "object has no attribute 'get'")
  end.

(** ** Truth value, [or], [isinstance(x, list)] *)

Definition py_truthy (v : pyval) : bool :=
  match v with
  | PNone => false
  | PBool b => b
  | PInt z => negb (z =? 0)%Z
  | PFloat r => negb (String.eqb r "0.0" || String.eqb r "-0.0")
  | PStr s => negb (String.eqb s "")
  | PList l => match l with [] => false | _ => true end
  | PDict d => match d with [] => false | _ => true end
  end.

Definition py_or (a b : pyval) : pyval := if py_truthy a then a else b.

Definition is_list (v : pyval) : bool :=
  match v with PList _ => true | _ => false end.

Definition is_dict (v : pyval) : bool :=
  match v with PDict _ => true | _ => false end.

(** ** [str] and [repr] *)

Definition string_of_Z (z : Z) : string := NilZero.string_of_int (Z.to_int z).

Definition squote : ascii := "'"%char.
Definition dquote : ascii := ascii_of_nat 34.
Definition backslash : ascii := ascii_of_nat 92.

Fixpoint contains_char (c : ascii) (s : string) : bool :=
  match s with
  | EmptyString => false
  | String c' s' => Ascii.eqb c c' || contains_char c s'
  end.

Definition hex_digit (n : nat) : ascii :=
  if Nat.ltb n 10 then ascii_of_nat (48 + n) else ascii_of_nat (87 + n).

(** One character inside a string literal delimited by [q].  Bytes from
    128 up are the UTF-8 encoding of non-ASCII characters and are copied,
    as Python does for printable characters. *)
Definition repr_char (q c : ascii) : string :=
  let n := nat_of_ascii c in
  let esc (x : ascii) := String backslash (String x EmptyString) in
  if Ascii.eqb c backslash then esc backslash
  else if Ascii.eqb c q then esc q
  else if Nat.eqb n 10 then esc "n"%char
  else if Nat.eqb n 13 then esc "r"%char
  else if Nat.eqb n 9 then esc "t"%char
  else if Nat.ltb n 32 || Nat.eqb n 127 then
    String backslash
      (String "x"%char
         (String (hex_digit (n / 16)) (String (hex_digit (n mod 16)) EmptyString)))
  else String c EmptyString.

Fixpoint repr_chars (q : ascii) (s : string) : string :=
  match s with
  | EmptyString => EmptyString
  | String c s' => repr_char q c +:+ repr_chars q s'
  end.

(** [repr] of a [str]: single quotes, unless the text has a single quote
    and no double quote. *)
Definition repr_str (s : string) : string :=
  let q := if contains_char squote s && negb (contains_char dquote s)
           then dquote else squote in
  String q (repr_chars q s +:+ String q EmptyString).

Fixpoint join (sep : string) (l : list string) : string :=
  match l with
  | [] => ""
  | [x] => x
  | x :: l' => x +:+ sep +:+ join sep l'
  end.

Fixpoint py_repr (v : pyval) : string :=
  match v with
  | PNone => "None"
  | PBool true => "True"
  | PBool false => "False"
  | PInt z => string_of_Z z
  | PFloat r => r
  | PStr s => repr_str s
  | PList l => "[" +:+ join ", " (map py_repr l) +:+ "]"
  | PDict d =>
      "{" +:+ join ", " (map (fun kv => repr_str (fst kv) +:+ ": " +:+ py_repr (snd kv)) d)
          +:+ "}"
  end.

(** [str(v)], which is also what an f-string field prints. *)
Definition py_str (v : pyval) : string :=
  match v with
  | PStr s => s
  | _ => py_repr v
  end.

End Py.
Export Py.

(* ===================================================================== *)
(** * requests *)
(* ===================================================================== *)

Module Requests.

Record request : Type := {
  req_url : string;
  req_params : list (string * string);
  req_timeout : Z
}.

(** A response: the status line, the raw body, and what [response.json()]
    does on that body (the parsed value, or the exception it raises). *)
Record response : Type := {
  status_code : Z;
  text : string;
  json : exn + pyval
}.

(** The network answers a request with a response or with an exception
    raised inside [requests.get]. *)
Definition network : Type := request → exn + response.

Definition of_sum {A} (r : exn + A) : outcome A :=
  match r with
  | inl e => Raised e
  | inr a => Returned a
  end.

Definition requests_get (net : network) (url : string)
    (params : list (string * string)) (timeout : Z) : outcome response :=
  of_sum (net {| req_url := url; req_params := params; req_timeout := timeout |}).

Definition response_json (r : response) : outcome pyval := of_sum (json r).

End Requests.
Export Requests.

(* ===================================================================== *)
(** * The fetchers' common part and [fetch_current_weather] *)
(* ===================================================================== *)

Definition OPENWEATHER_BASE_URL : string := "https://api.openweathermap.org/data/2.5".

Definition query_params (city api_key units lang : string) : list (string * string) :=
  [("q", city); ("appid", api_key); ("units", units); ("lang", lang)].

(** Lines 18-22 and 34-38:
<<
    try:
        err_json = response.json()
        message = err_json.get("message") or str(err_json)
    except Exception:
        message = response.text
>> *)
Definition error_message (response : response) : outcome pyval :=
  except_Exception
    (err_json ← response_json response;
     m ← py_get err_json "message" PNone;
     mret (py_or m (PStr (py_str err_json))))
    (mret (PStr (text response))).

(** [f"HTTP {response.status_code}: {message}"] *)
Definition http_error (response : response) (message : pyval) : string :=
  "HTTP " +:+ string_of_Z (status_code response) +:+ ": " +:+ py_str message.

Definition network_error (exc : string) : string := "Network error: " +:+ exc.

(** The returned pair is [(payload, error)]; [PNone] in the first place
    and [None] in the second are Python's [None]. *)
Definition fetch_current_weather (net : network) (city api_key units lang : string)
    : outcome (pyval * option string) :=
  let params := query_params city api_key units lang in
  except_RequestException
    (response ← requests_get net (OPENWEATHER_BASE_URL +:+ "/weather") params 15;
     if decide (status_code response = 200%Z) then
       body ← response_json response;
       mret (body, None)
     else
       message ← error_message response;
       mret (PNone, Some (http_error response message)))
    (fun exc => mret (PNone, Some (network_error exc))).

(* ===================================================================== *)
(** * [format_location_block] *)
(* ===================================================================== *)

Definition EM_DASH : string := "—".

Definition format_location_block (current : pyval) : outcome string :=
  name ← py_get current "name" PNone;
  sys_info ← py_get current "sys" (PDict []);
  country ← py_get sys_info "country" (PStr "");
  mret (if py_truthy name then py_str name +:+ ", " +:+ py_str country else EM_DASH).

(* ===================================================================== *)
(** * [get_api_key_from_env_or_ui] *)
(* ===================================================================== *)

Module Credentials.

Inductive source : Type := Secrets | Environment | Sidebar.

(** What the three sources hold when the resolver runs: the result of
    [st.secrets.get("OPENWEATHER_API_KEY")] (an exception when no secrets
    file can be read, [PNone] when the key is not in it), the result of
    [os.getenv] ([None] when unset), and the text typed in the sidebar
    field (empty when nothing was typed). *)
Record sources : Type := {
  secrets_get : exn + pyval;
  getenv : option string;
  text_input : string
}.

Definition of_getenv (o : option string) : pyval :=
  match o with
  | Some s => PStr s
  | None => PNone
  end.

(** The resolver, together with the list of sources it consulted, in the
    order it consulted them. *)
Definition get_api_key_from_env_or_ui (env : sources) : (pyval * bool) * list source :=
  let '(api_key, from_secrets) :=
    match secrets_get env with
    | inr v => (v, py_truthy v)
    | inl _ => (PNone, false)
    end in
  let log := [Secrets] in
  let '(api_key, log) :=
    if negb (py_truthy api_key)
    then (of_getenv (getenv env), log ++ [Environment])
    else (api_key, log) in
  let '(api_key, log) :=
    if negb (py_truthy api_key)
    then (PStr (text_input env), log ++ [Sidebar])
    else (api_key, log) in
  ((api_key, from_secrets), log).

(** The value each source offers, a source that raises offering [None]. *)
Definition offered (env : sources) (s : source) : pyval :=
  match s with
  | Secrets => match secrets_get env with inr v => v | inl _ => PNone end
  | Environment => of_getenv (getenv env)
  | Sidebar => PStr (text_input env)
  end.

Definition precedence : list source := [Secrets; Environment; Sidebar].

(** The sources up to and including the first that offers a non-empty
    value (all of them when none does). *)
Fixpoint up_to_first_nonempty (env : sources) (l : list source) : list source :=
  match l with
  | [] => []
  | s :: l' => if py_truthy (offered env s) then [s] else s :: up_to_first_nonempty env l'
  end.

Definition first_nonempty (env : sources) (l : list source) : option pyval :=
  match List.find (fun s => py_truthy (offered env s)) l with
  | Some s => Some (offered env s)
  | None => None
  end.

End Credentials.

(* ===================================================================== *)
(** * pandas *)
(* ===================================================================== *)

Module Pandas.

(** A cell of a frame: a value, the missing-value marker pandas fills in
    ([NaN]), or what [to_datetime] produces.  [CCoerced v] is the scalar
    [v] in a column whose dtype this development does not determine (see
    [unify]): the cell holds what numpy made of [v], and nothing more is
    said about it. *)
Inductive cell : Type :=
| CVal (v : pyval)
| CNaN
| CTimestamp (seconds : Z)
| CNaT
| CCoerced (v : pyval).

(** A frame with a [RangeIndex]: [nrows] rows and labelled columns, every
    column holding [nrows] cells. *)
Record DataFrame : Type := {
  nrows : nat;
  columns : list (string * list cell)
}.

Definition column_names (df : DataFrame) : list string := map fst (columns df).

Fixpoint lookup_column (cols : list (string * list cell)) (name : string)
    : option (list cell) :=
  match cols with
  | [] => None
  | (n, c) :: cols' => if String.eqb n name then Some c else lookup_column cols' name
  end.

(** [name in df.columns] *)
Definition has_column (df : DataFrame) (name : string) : bool :=
  existsb (String.eqb name) (column_names df).

(** [df[name]] *)
Definition getitem (df : DataFrame) (name : string) : outcome (list cell) :=
  match lookup_column (columns df) name with
  | Some c => Returned c
  | None => Raised (KeyError name)
  end.

(** [df[name] = value] with a scalar [value]. *)
Fixpoint set_column (cols : list (string * list cell)) (name : string) (c : list cell)
    : list (string * list cell) :=
  match cols with
  | [] => [(name, c)]
  | (n, c') :: cols' =>
      if String.eqb n name then (n, c) :: cols' else (n, c') :: set_column cols' name c
  end.

Definition setitem (df : DataFrame) (name : string) (value : pyval) : DataFrame :=
  {| nrows := nrows df;
     columns := set_column (columns df) name (replicate (nrows df) (CVal value)) |}.

(** [df.add_prefix(p)] *)
Definition add_prefix (p : string) (df : DataFrame) : DataFrame :=
  {| nrows := nrows df;
     columns := map (fun nc => (p +:+ fst nc, snd nc)) (columns df) |}.

(** A named Series, as the one-column frame [concat] makes of it. *)
Definition series (name : string) (cells : list cell) : DataFrame :=
  {| nrows := length cells; columns := [(name, cells)] |}.

(** ** The constructor on row-oriented data *)

(** Column labels of a list of records: every key, in the order of its
    first appearance. *)
Fixpoint add_keys (seen : list string) (ks : list string) : list string :=
  match ks with
  | [] => seen
  | k :: ks' =>
      if existsb (String.eqb k) seen then add_keys seen ks' else add_keys (seen ++ [k]) ks'
  end.

Definition record_keys (rs : list pydict) : list string :=
  fold_left (fun seen r => add_keys seen (dict_keys r)) rs [].

Definition record_cell (k : string) (r : pydict) : cell :=
  match dict_get r k with
  | Some v => CVal v
  | None => CNaN
  end.

(** ** The dtype of a column

    The constructor gives every column one dtype, and the values follow:

      - a column with a list or a dict in it is an object column, and
        every value stays the Python object it was;
      - strings, with or without missing values, stay as they are;
      - booleans alone and 64-bit integers alone stay as they are;
      - numbers next to a float, a [None] or a missing value make a
        float64 column: an integer becomes the float of the same value
        (exactly, up to 2^53), [None] becomes [NaN];
      - for any other mixture the values are [CCoerced]. *)

Definition is_container (c : cell) : bool :=
  match c with
  | CVal (PList _) | CVal (PDict _) => true
  | _ => false
  end.

Definition is_text_or_missing (c : cell) : bool :=
  match c with
  | CVal (PStr _) | CNaN => true
  | _ => false
  end.

Definition is_bool (c : cell) : bool :=
  match c with
  | CVal (PBool _) => true
  | _ => false
  end.

Definition is_int64 (c : cell) : bool :=
  match c with
  | CVal (PInt z) => ((- 2 ^ 63 <=? z) && (z <? 2 ^ 63))%Z
  | _ => false
  end.

Definition is_number (c : cell) : bool :=
  match c with
  | CVal (PInt z) => ((- 2 ^ 53 <=? z) && (z <=? 2 ^ 53))%Z
  | CVal (PFloat _) => true
  | _ => false
  end.

Definition is_number_or_missing (c : cell) : bool :=
  is_number c
  || match c with
     | CVal PNone | CNaN => true
     | _ => false
     end.

(** [repr(float(z))] for an integer of at most 16 digits. *)
Definition float_of_int (z : Z) : string := string_of_Z z +:+ ".0".

Definition to_float64 (c : cell) : cell :=
  match c with
  | CVal (PInt z) => CVal (PFloat (float_of_int z))
  | CVal PNone => CNaN
  | _ => c
  end.

Definition coerced (c : cell) : cell :=
  match c with
  | CVal v => CCoerced v
  | _ => c
  end.

Definition unify (col : list cell) : list cell :=
  if existsb is_container col then col
  else if forallb is_text_or_missing col then col
  else if forallb is_bool col then col
  else if forallb is_int64 col then col
  else if forallb is_number_or_missing col && existsb is_number col then map to_float64 col
  else map coerced col.

Definition frame_of_records (rs : list pydict) : DataFrame :=
  {| nrows := length rs;
     columns := map (fun k => (k, unify (map (record_cell k) rs))) (record_keys rs) |}.

Fixpoint as_records (data : list pyval) : option (list pydict) :=
  match data with
  | [] => Some []
  | PDict d :: data' => option_map (cons d) (as_records data')
  | _ :: _ => None
  end.

(** [DataFrame(data)] for a list.  pandas looks at the first element: a
    dict makes the list a list of records, and then every element must
    have [keys()].  Lists that start with anything else give frames with
    integer labels and are outside this model. *)
Definition DataFrame_of_list (data : list pyval) : outcome DataFrame :=
  match data with
  | [] => Returned {| nrows := 0; columns := [] |}
  | PDict _ :: _ =>
      match as_records data with
      | Some rs => Returned (frame_of_records rs)
      | None => Raised (AttributeError "object has no attribute 'keys'")
      end
  | _ :: _ => Unmodelled
  end.

(** [DataFrame(data)].  A scalar is refused by pandas.  Column-oriented
    data (a dict) is outside this model: pandas makes a frame of a dict of
    equal-length lists, one column per key, with no rows when the lists
    are empty.  Nothing below is stated about such data. *)
Definition DataFrame_ctor (data : pyval) : outcome DataFrame :=
  match data with
  | PNone => Returned {| nrows := 0; columns := [] |}
  | PList l => DataFrame_of_list l
  | PDict _ => Unmodelled
  | _ => Raised (ValueError "DataFrame constructor not properly called!")
  end.

(** ** [json_normalize] (no [record_path], [sep="."]) *)

Fixpoint removeprefix (p s : string) : option string :=
  match p, s with
  | EmptyString, _ => Some s
  | String a p', String b s' => if Ascii.eqb a b then removeprefix p' s' else None
  | String _ _, EmptyString => None
  end.

(** The key under which a nested value is stored:
<<
    new_key = f"{key_string}{separator}{key}"
    if not key_string:
        new_key = new_key.removeprefix(separator)
>> *)
Definition new_key (key_string key : string) : string :=
  let new_key := key_string +:+ "." +:+ key in
  if String.eqb key_string "" then
    match removeprefix "." new_key with Some s => s | None => new_key end
  else new_key.

(** [_normalise_json(data, key_string, normalized_dict, separator=".")] *)
Fixpoint normalise_json (data : pyval) (key_string : string) (normalized_dict : pydict)
    : pydict :=
  match data with
  | PDict d =>
      (fix items (l : pydict) (acc : pydict) {struct l} : pydict :=
         match l with
         | [] => acc
         | kv :: l' => items l' (normalise_json (snd kv) (new_key key_string (fst kv)) acc)
         end) d normalized_dict
  | _ => dict_set normalized_dict key_string data
  end.

(** [_normalise_json_ordered(data, separator=".")]:
<<
    top_dict_ = {k: v for k, v in data.items() if not isinstance(v, dict)}
    nested_dict_ = _normalise_json(
        data={k: v for k, v in data.items() if isinstance(v, dict)},
        key_string="", normalized_dict={}, separator=separator)
    return {**top_dict_, **nested_dict_}
>> *)
Definition normalise_json_ordered (data : pydict) : pydict :=
  let top_dict_ := List.filter (fun kv => negb (is_dict (snd kv))) data in
  let nested_dict_ :=
    normalise_json (PDict (List.filter (fun kv => is_dict (snd kv)) data)) "" [] in
  dict_merge top_dict_ nested_dict_.

(** [_simple_json_normalize(ds, sep=".")] *)
Fixpoint simple_json_normalize (ds : pyval) : pyval :=
  match ds with
  | PDict d => PDict (normalise_json_ordered d)
  | PList l => PList (map simple_json_normalize l)
  | _ => PDict []
  end.

(** [None] and the float [nan]: what pandas takes for a missing item. *)
Definition na_like (v : pyval) : bool :=
  match v with
  | PNone => true
  | PFloat r => String.eqb r "nan"
  | _ => false
  end.

Definition item_ok (v : pyval) : bool := is_dict v || na_like v.

Definition NOT_A_DICT : string := "All items in data must be of type dict or NA-like".

(** [json_normalize(data)] for the items of a Series or list:
    [DataFrame(_simple_json_normalize(data))], the items being normalised
    one by one.  Every item has to be a dict or missing: on any other
    scalar pandas 3 raises TypeError (earlier versions put an empty record
    in its place; this development follows pandas 3).  Items that are
    lists are outside this model. *)
Definition json_normalize (data : list pyval) : outcome DataFrame :=
  if existsb is_list data then Unmodelled
  else if forallb item_ok data then DataFrame_of_list (map simple_json_normalize data)
  else Raised (TypeError NOT_A_DICT).

(** The items of a Series: a missing value is an item like [None]. *)
Definition cell_is_list (c : cell) : bool :=
  match c with
  | CVal v => is_list v
  | _ => false
  end.

Definition cell_item_ok (c : cell) : bool :=
  match c with
  | CVal v | CCoerced v => item_ok v
  | CNaN | CNaT => true
  | CTimestamp _ => false
  end.

(** What [_simple_json_normalize] makes of a cell: [NaN] and timestamps
    are scalars, neither dict nor list. *)
Definition simple_json_normalize_cell (c : cell) : pyval :=
  match c with
  | CVal v | CCoerced v => simple_json_normalize v
  | CNaN | CTimestamp _ | CNaT => PDict []
  end.

(** [json_normalize(series)] *)
Definition json_normalize_series (cells : list cell) : outcome DataFrame :=
  if existsb cell_is_list cells then Unmodelled
  else if forallb cell_item_ok cells
  then DataFrame_of_list (map simple_json_normalize_cell cells)
  else Raised (TypeError NOT_A_DICT).

(** ** [to_datetime(series, unit="s")] *)

Definition MAX_SECONDS : Z := 9223372036.

(** One cell.  Integer seconds that fit the nanosecond range give the
    timestamp of these seconds; missing values give [NaT].  Beyond that
    range pandas < 3 raises OutOfBoundsDatetime and pandas 3 keeps a
    coarser resolution: such seconds, and floats, strings and booleans,
    are outside this model. *)
Definition to_datetime_cell (c : cell) : outcome cell :=
  match c with
  | CVal (PInt z) =>
      if ((- MAX_SECONDS <=? z) && (z <=? MAX_SECONDS))%Z then Returned (CTimestamp z)
      else Unmodelled
  | CVal PNone | CCoerced PNone | CNaN | CNaT => Returned CNaT
  | CTimestamp z => Returned (CTimestamp z)
  | CVal _ | CCoerced _ => Unmodelled
  end.

Fixpoint to_datetime (cells : list cell) : outcome (list cell) :=
  match cells with
  | [] => Returned []
  | c :: cells' =>
      t ← to_datetime_cell c;
      ts ← to_datetime cells';
      mret (t :: ts)
  end.

(** ** [concat(frames, axis=1)] on range-indexed frames *)

Definition pad (n : nat) (c : list cell) : list cell :=
  c ++ replicate (n - length c) CNaN.

Definition concat_columns (frames : list DataFrame) : DataFrame :=
  let n := fold_right Nat.max 0 (map nrows frames) in
  {| nrows := n;
     columns := flat_map (fun f => map (fun nc => (fst nc, pad n (snd nc))) (columns f)) frames |}.

End Pandas.
Export Pandas.

(* ===================================================================== *)
(** * [fetch_forecast] *)
(* ===================================================================== *)

(** The lambda of line 48: [x[0] if isinstance(x, list) and x else {}].
    A coerced cell holds a scalar, never a list. *)
Definition first_or_empty (x : cell) : pyval :=
  match x with
  | CVal v =>
      if is_list v && py_truthy v then
        match v with
        | PList (x0 :: _) => x0
        | _ => PDict []
        end
      else PDict []
  | CNaN | CTimestamp _ | CNaT | CCoerced _ => PDict []
  end.

(** Lines 45-62: from the [list] field to the concatenated frame. *)
Definition forecast_frame (list_items : pyval) : outcome DataFrame :=
  df ← DataFrame_ctor list_items;
  main_col ← getitem df "main";
  main_df ← json_normalize_series main_col;
  let main_df := add_prefix "main." main_df in
  wind_col ← getitem df "wind";
  wind_df ← json_normalize_series wind_col;
  let wind_df := add_prefix "wind." wind_df in
  weather_col ← getitem df "weather";
  let weather_main := map first_or_empty weather_col in
  weather_df ← json_normalize weather_main;
  let weather_df := add_prefix "weather." weather_df in
  clouds_df ←
    match lookup_column (columns df) "clouds" with
    | Some clouds_col => json_normalize_series clouds_col
    | None => json_normalize [PDict []]
    end;
  let clouds_df := add_prefix "clouds." clouds_df in
  dt_col ← getitem df "dt";
  dt ← to_datetime dt_col;
  dt_txt ← getitem df "dt_txt";
  mret (concat_columns
          [series "dt" dt; series "dt_txt" dt_txt; main_df; wind_df; weather_df; clouds_df]).

Definition DEFAULT_COLUMNS : list (string * pyval) :=
  [("main.temp", PNone);
   ("main.feels_like", PNone);
   ("main.humidity", PNone);
   ("wind.speed", PNone);
   ("weather.description", PStr "")].

(** Lines 63-71. *)
Definition fill_defaults (result : DataFrame) : DataFrame :=
  fold_left
    (fun result cd =>
       if negb (has_column result (fst cd)) then setitem result (fst cd) (snd cd)
       else result)
    DEFAULT_COLUMNS result.

Definition EMPTY_FORECAST : string := "Empty forecast list from API".

Definition fetch_forecast (net : network) (city api_key units lang : string)
    : outcome (option DataFrame * option string) :=
  let params := query_params city api_key units lang in
  except_RequestException
    (response ← requests_get net (OPENWEATHER_BASE_URL +:+ "/forecast") params 15;
     if decide (status_code response ≠ 200%Z) then
       message ← error_message response;
       mret (None, Some (http_error response message))
     else
       data ← response_json response;
       list_items ← py_get data "list" (PList []);
       if negb (py_truthy list_items) then mret (None, Some EMPTY_FORECAST)
       else
         result ← forecast_frame list_items;
         mret (Some (fill_defaults result), None))
    (fun exc => mret (None, Some (network_error exc))).

(** The one request each fetcher sends: the endpoint, the query and the
    15 second timeout of lines 15 and 32. *)
Definition weather_request (city api_key units lang : string) : request :=
  {| req_url := OPENWEATHER_BASE_URL +:+ "/weather";
     req_params := query_params city api_key units lang;
     req_timeout := 15 |}.

Definition forecast_request (city api_key units lang : string) : request :=
  {| req_url := OPENWEATHER_BASE_URL +:+ "/forecast";
     req_params := query_params city api_key units lang;
     req_timeout := 15 |}.

(* ===================================================================== *)
(** * [st.cache_data]: the memoised fetchers within a session *)
(* ===================================================================== *)

Module Session.

(** The arguments [(city, api_key, units, lang)] of a fetcher. *)
Abbreviation key := (string * string * string * string)%type.

(** The request each fetcher sends for given arguments. *)
Definition key_weather_request (k : key) : request :=
  let '(city, api_key, units, lang) := k in weather_request city api_key units lang.

Definition key_forecast_request (k : key) : request :=
  let '(city, api_key, units, lang) := k in forecast_request city api_key units lang.

(** One cache per decorated function, and the requests sent so far. *)
Record session : Type := {
  weather_cache : gmap key (pyval * option string);
  forecast_cache : gmap key (option DataFrame * option string);
  sent : list request
}.

Definition fresh : session :=
  {| weather_cache := ∅; forecast_cache := ∅; sent := [] |}.

(** The outside world may answer the same request differently each time:
    it gives the network as it is when the [n]-th request is sent. *)
Definition world : Type := nat → network.

(** The decorator: a hit returns the stored value and runs nothing; a miss
    runs the function, which sends its request, and stores what it
    returns.  A call that raises stores nothing. *)
Definition cache_data {V} (cache : gmap key V) (sent : list request) (w : world)
    (f : network → outcome V) (req : request) (k : key)
    : outcome V * gmap key V * list request :=
  match cache !! k with
  | Some v => (Returned v, cache, sent)
  | None =>
      let r := f (w (length sent)) in
      let cache' := match r with Returned v => <[k := v]> cache | _ => cache end in
      (r, cache', sent ++ [req])
  end.

Definition cached_fetch_current_weather (w : world) (k : key) (s : session)
    : outcome (pyval * option string) * session :=
  let '(city, api_key, units, lang) := k in
  let '(r, c, l) :=
    cache_data (weather_cache s) (sent s) w
      (fun net => fetch_current_weather net city api_key units lang)
      (key_weather_request k) k in
  (r, {| weather_cache := c; forecast_cache := forecast_cache s; sent := l |}).

Definition cached_fetch_forecast (w : world) (k : key) (s : session)
    : outcome (option DataFrame * option string) * session :=
  let '(city, api_key, units, lang) := k in
  let '(r, c, l) :=
    cache_data (forecast_cache s) (sent s) w
      (fun net => fetch_forecast net city api_key units lang)
      (key_forecast_request k) k in
  (r, {| weather_cache := weather_cache s; forecast_cache := c; sent := l |}).

(** Any other calls made in between. *)
Inductive call : Type :=
| CallWeather (k : key)
| CallForecast (k : key).

Definition run_call (w : world) (c : call) (s : session) : session :=
  match c with
  | CallWeather k => snd (cached_fetch_current_weather w k s)
  | CallForecast k => snd (cached_fetch_forecast w k s)
  end.

Definition run_calls (w : world) (cs : list call) (s : session) : session :=
  fold_left (fun s c => run_call w c s) cs s.

End Session.

(* ===================================================================== *)
(** * [main]: the page *)
(* ===================================================================== *)

Module App.

(** What stops the script: a Python exception of the kinds above, the
    TypeError and IndexError of a subscript, or the StopException that
    [st.stop()] raises. *)
Inductive failure : Type :=
| Exn (e : exn)
| TypeError (detail : string)
| IndexError (detail : string)
| StopException.

Inductive result (A : Type) : Type :=
| Done (a : A)
| Failed (f : failure)
| NotModelled.
Arguments Done {A} a.
Arguments Failed {A} f.
Arguments NotModelled {A}.

(** Where an element is drawn: the [with] block the call stands in. *)
Inductive place : Type :=
| InPage | InSidebar | InCol1 | InCol1Left | InCol1Right | InCol2 | InExpander.

(** The text of a caption: as given, or the [capitalize()] of a string
    (kept symbolic: capitalisation is by Unicode character). *)
Inductive caption_text : Type :=
| Plain (s : string)
| Capitalized (s : string).

(** A plotly express line figure: the columns it plots, its texts, the
    mode set by [update_traces], and the points. *)
Record figure : Type := {
  fig_x : string;
  fig_y : string;
  fig_title : string;
  fig_labels : list (string * string);
  fig_markers : bool;
  fig_mode : option string;
  fig_points : list (cell * cell)
}.

(** The Streamlit calls of [main], with the arguments that matter. *)
Inductive element : Type :=
| SetPageConfig (page_title page_icon layout : string)
| Title (s : string)
| Header (s : string)
| TextInput (label : string) (password : bool)
| Radio (label : string) (options : list string)
| Selectbox (label : string) (options : list string)
| Warning (s : string)
| Columns (weights : list Z)
| Subheader (s : string)
| Error (s : string)
| Code (s : string)
| Metric (label value : string) (delta : option string)
| Write (s : string)
| Image (url : string) (width : Z)
| Caption (t : caption_text)
| PlotlyChart (fig : figure)
| Expander (label : string)
| Dataframe (df : DataFrame).

(** What the three sidebar widgets return. *)
Record inputs : Type := {
  city : string;
  units_label : string;
  lang : string
}.

(** The script runs over the page drawn so far and the session of the
    cached fetchers. *)
Record state : Type := {
  page : list (place * element);
  session : Session.session
}.

Definition app (A : Type) : Type := state → result A * state.

#[global] Instance app_ret : MRet app := fun A a st => (Done a, st).
#[global] Instance app_bind : MBind app := fun A B k m st =>
  match m st with
  | (Done a, st') => k a st'
  | (Failed f, st') => (Failed f, st')
  | (NotModelled, st') => (NotModelled, st')
  end.

Definition emit (p : place) (e : element) : app unit :=
  fun st => (Done tt, {| page := page st ++ [(p, e)]; session := session st |}).

Definition fail {A} (f : failure) : app A := fun st => (Failed f, st).

Definition not_modelled {A} : app A := fun st => (NotModelled, st).

Definition of_outcome {A} (o : outcome A) : result A :=
  match o with
  | Returned a => Done a
  | Raised e => Failed (Exn e)
  | Unmodelled => NotModelled
  end.

Definition lift {A} (o : outcome A) : app A := fun st => (of_outcome o, st).

Definition lift_result {A} (r : result A) : app A := fun st => (r, st).

Definition call_weather (w : Session.world) (k : Session.key)
    : app (pyval * option string) :=
  fun st =>
    let '(o, s) := Session.cached_fetch_current_weather w k (session st) in
    (of_outcome o, {| page := page st; session := s |}).

Definition call_forecast (w : Session.world) (k : Session.key)
    : app (option DataFrame * option string) :=
  fun st =>
    let '(o, s) := Session.cached_fetch_forecast w k (session st) in
    (of_outcome o, {| page := page st; session := s |}).

(** ** Python and pandas operations used by the page *)

Definition is_continuation (c : ascii) : bool :=
  let n := nat_of_ascii c in Nat.leb 128 n && Nat.ltb n 192.

Fixpoint take_continuation (s : string) : string :=
  match s with
  | EmptyString => EmptyString
  | String c s' => if is_continuation c then String c (take_continuation s') else EmptyString
  end.

(** The first character of a UTF-8 encoded text. *)
Definition first_char (s : string) : option string :=
  match s with
  | EmptyString => None
  | String c s' => Some (String c (take_continuation s'))
  end.

(** [v[0]] *)
Definition subscript0 (v : pyval) : result pyval :=
  match v with
  | PList (x :: _) => Done x
  | PList [] => Failed (IndexError "list index out of range")
  | PStr s =>
      match first_char s with
      | Some c => Done (PStr c)
      | None => Failed (IndexError "string index out of range")
      end
  | PDict _ => Failed (Exn (KeyError "0"))
  | _ => Failed (TypeError "object is not subscriptable")
  end.

(** [v.capitalize()] *)
Definition capitalize (v : pyval) : result caption_text :=
  match v with
  | PStr s => Done (Capitalized s)
  | _ => Failed (Exn (AttributeError "object has no attribute 'capitalize'"))
  end.

(** [v is None] *)
Definition is_none (v : pyval) : bool :=
  match v with PNone => true | _ => false end.

(** The truth value of an [Optional[str]]. *)
Definition err_truthy (e : option string) : bool :=
  match e with
  | Some s => negb (String.eqb s "")
  | None => false
  end.

(** [df.empty]: some axis has length zero. *)
Definition df_empty (df : DataFrame) : bool :=
  Nat.eqb (nrows df) 0 || match columns df with [] => true | _ => false end.

(** [df[names]] with a list of labels: every label must be a column. *)
Fixpoint select_columns (cols : list (string * list cell)) (names : list string)
    : outcome (list (string * list cell)) :=
  match names with
  | [] => Returned []
  | n :: names' =>
      match lookup_column cols n with
      | Some c => rest ← select_columns cols names'; mret ((n, c) :: rest)
      | None => Raised (KeyError n)
      end
  end.

Definition getitem_list (df : DataFrame) (names : list string) : outcome DataFrame :=
  cols ← select_columns (columns df) names;
  mret {| nrows := nrows df; columns := cols |}.

(** [df.rename(columns=mapping)] *)
Definition rename_label (mapping : list (string * string)) (n : string) : string :=
  match List.find (fun kv => String.eqb kv.1 n) mapping with
  | Some kv => kv.2
  | None => n
  end.

Definition rename_columns (mapping : list (string * string)) (df : DataFrame) : DataFrame :=
  {| nrows := nrows df;
     columns := map (fun nc => (rename_label mapping nc.1, nc.2)) (columns df) |}.

Fixpoint zip_cells (xs ys : list cell) : list (cell * cell) :=
  match xs, ys with
  | x :: xs', y :: ys' => (x, y) :: zip_cells xs' ys'
  | _, _ => []
  end.

(** [px.line(df, x=, y=, title=, markers=True, labels=)]: both names must
    be columns of the frame. *)
Definition px_line (df : DataFrame) (x y title : string) (labels : list (string * string))
    : outcome figure :=
  match lookup_column (columns df) x, lookup_column (columns df) y with
  | Some xs, Some ys =>
      Returned {| fig_x := x; fig_y := y; fig_title := title; fig_labels := labels;
                  fig_markers := true; fig_mode := None; fig_points := zip_cells xs ys |}
  | None, _ =>
      Raised (ValueError "Value of 'x' is not the name of a column in 'data_frame'")
  | _, None =>
      Raised (ValueError "Value of 'y' is not the name of a column in 'data_frame'")
  end.

(** [fig.update_traces(mode=m)] *)
Definition update_traces (m : string) (fig : figure) : figure :=
  {| fig_x := fig_x fig; fig_y := fig_y fig; fig_title := fig_title fig;
     fig_labels := fig_labels fig; fig_markers := fig_markers fig;
     fig_mode := Some m; fig_points := fig_points fig |}.

(** ** The two panels *)

Definition units_temp (units_label : string) : string :=
  if String.eqb units_label "metric" then "°C" else "°F".

Definition units_wind (units_label : string) : string :=
  if String.eqb units_label "metric" then "м/с" else "mph".

Definition CURRENT_FAILED : string :=
  "Не удалось получить текущую погоду. Проверьте название города и ключ API.".

Definition FORECAST_FAILED : string :=
  "Не удалось получить прогноз. Проверьте название города и ключ API.".

(** Lines 125-152. *)
Definition render_current (units_label : string) (r : pyval * option string) : app unit :=
  let '(current, current_err) := r in
  if negb (py_truthy current) then
    emit InCol1 (Error CURRENT_FAILED);;
    match current_err with
    | Some err => if err_truthy current_err then emit InCol1 (Code err) else mret tt
    | None => mret tt
    end
  else
    location_str ← lift (format_location_block current);
    conditions ← lift (py_get current "weather" PNone);
    weather ← lift_result (subscript0 (py_or conditions (PList [PDict []])));
    main ← lift (py_get current "main" (PDict []));
    wind ← lift (py_get current "wind" (PDict []));
    icon ← lift (py_get weather "icon" PNone);
    description ← lift (py_get weather "description" (PStr "—"));
    temp ← lift (py_get main "temp" PNone);
    feels ← lift (py_get main "feels_like" PNone);
    humidity ← lift (py_get main "humidity" PNone);
    wind_speed ← lift (py_get wind "speed" PNone);
    emit InCol1
      (Metric location_str
         (if is_none temp then "—" else py_str temp +:+ " " +:+ units_temp units_label)
         (if is_none feels then None
          else Some ("Ощущается как " +:+ py_str feels +:+ " " +:+ units_temp units_label)));;
    emit InCol1 (Columns [1; 1]%Z);;
    emit InCol1Left
      (Write (if is_none humidity then "Влажность: —"
              else "Влажность: " +:+ py_str humidity +:+ "%"));;
    emit InCol1Left
      (Write (if is_none wind_speed then "Ветер: —"
              else "Ветер: " +:+ py_str wind_speed +:+ " " +:+ units_wind units_label));;
    (if py_truthy icon then
       emit InCol1Right
         (Image ("https://openweathermap.org/img/wn/" +:+ py_str icon +:+ "@2x.png") 90)
     else mret tt);;
    text ← lift_result (capitalize description);
    emit InCol1Right (Caption text).

Definition display_cols : list string :=
  ["dt_txt"; "main.temp"; "main.feels_like"; "main.humidity"; "wind.speed";
   "weather.description"].

Definition display_names (units_label : string) : list (string * string) :=
  [("dt_txt", "Время");
   ("main.temp", "Температура, " +:+ units_temp units_label);
   ("main.feels_like", "Ощущается, " +:+ units_temp units_label);
   ("main.humidity", "Влажность, %");
   ("wind.speed", "Ветер, " +:+ units_wind units_label);
   ("weather.description", "Описание")].

(** Lines 157-207. *)
Definition render_forecast (units_label : string) (r : option DataFrame * option string)
    : app unit :=
  let '(forecast_df, forecast_err) := r in
  match forecast_df with
  | None =>
      emit InCol2 (Error FORECAST_FAILED);;
      match forecast_err with
      | Some err => if err_truthy forecast_err then emit InCol2 (Code err) else mret tt
      | None => mret tt
      end
  | Some df =>
      if df_empty df then
        emit InCol2 (Error FORECAST_FAILED);;
        match forecast_err with
        | Some err => if err_truthy forecast_err then emit InCol2 (Code err) else mret tt
        | None => mret tt
        end
      else
        fig_temp ← lift (px_line df "dt" "main.temp"
                           ("Температура по времени (" +:+ units_temp units_label +:+ ")")
                           [("dt", "Время");
                            ("main.temp", "Температура, " +:+ units_temp units_label)]);
        emit InCol2 (PlotlyChart (update_traces "lines+markers" fig_temp));;
        fig_hum ← lift (px_line df "dt" "main.humidity" "Влажность по времени (%)"
                          [("dt", "Время"); ("main.humidity", "Влажность, %")]);
        emit InCol2 (PlotlyChart fig_hum);;
        fig_wind ← lift (px_line df "dt" "wind.speed"
                           ("Скорость ветра по времени (" +:+ units_wind units_label +:+ ")")
                           [("dt", "Время");
                            ("wind.speed", "Ветер, " +:+ units_wind units_label)]);
        emit InCol2 (PlotlyChart fig_wind);;
        emit InCol2 (Expander "Таблица прогноза");;
        shown ← lift (getitem_list df display_cols);
        emit InExpander (Dataframe (rename_columns (display_names units_label) shown))
  end.

(** ** [main] *)

(** The resolver inside the sidebar: the masked field is drawn only when
    the resolver gets as far as asking for it. *)
Definition resolve (env : Credentials.sources) : app (pyval * bool) :=
  let '(r, consulted) := Credentials.get_api_key_from_env_or_ui env in
  (if existsb (fun s => match s with Credentials.Sidebar => true | _ => false end) consulted
   then emit InSidebar (TextInput "API ключ OpenWeather" true)
   else mret tt);;
  mret r.

(** The key as the fetchers receive it.  A key that is not a string (a
    number or a table in the secrets file) is outside this model. *)
Definition api_key_text (api_key : pyval) : app string :=
  match api_key with
  | PStr s => mret s
  | _ => not_modelled
  end.

Definition NO_KEY : string :=
  "Укажите API ключ OpenWeather в боковой панели или через secrets.".

Definition main (w : Session.world) (inp : inputs) (env : Credentials.sources) : app unit :=
  emit InPage (SetPageConfig "Прогноз погоды" "☀️" "wide");;
  emit InPage (Title "Прогноз погоды с визуализацией");;
  emit InSidebar (Header "Настройки");;
  emit InSidebar (TextInput "Город" false);;
  emit InSidebar (Radio "Единицы измерения" ["metric"; "imperial"]);;
  emit InSidebar (Selectbox "Язык" ["ru"; "en"]);;
  '(api_key, from_secrets) ← resolve env;
  if negb (py_truthy api_key) then
    emit InPage (Warning NO_KEY);;
    fail StopException
  else
    emit InPage (Columns [1; 2]%Z);;
    emit InCol1 (Subheader "Текущая погода");;
    key ← api_key_text api_key;
    current ← call_weather w (city inp, key, units_label inp, lang inp);
    render_current (units_label inp) current;;
    emit InCol2 (Subheader "Прогноз (5 дней / 3 часа)");;
    forecast ← call_forecast w (city inp, key, units_label inp, lang inp);
    render_forecast (units_label inp) forecast;;
    emit InPage (Caption (Plain "Источник данных: OpenWeather. Приложение: Streamlit + Plotly.")).

(** A fresh page over a session. *)
Definition start (s : Session.session) : state := {| page := []; session := s |}.

End App.

(* ===================================================================== *)
(** * Vocabulary of the statements, and concrete inputs *)
(* ===================================================================== *)

(** [d.get(k, default)] on a dict. *)
Definition field (d : pydict) (k : string) (default : pyval) : pyval :=
  match dict_get d k with
  | Some v => v
  | None => default
  end.

(** A well-formed fetcher result: a payload with no error, or no payload
    with a non-empty error. *)
Definition payload_xor_error (r : pyval * option string) : Prop :=
  (r.1 ≠ PNone ∧ r.2 = None) ∨ (r.1 = PNone ∧ ∃ e, r.2 = Some e ∧ e ≠ "").

(** The message of an HTTP error read as a chain on parsing alone: the
    message field of a parsed body that has a non-empty one, else the
    string form of the parsed body, else (nothing parsed) the raw text. *)
Definition message_by_parsing (r : response) : string :=
  match json r with
  | inr body =>
      match body with
      | PDict d =>
          if py_truthy (field d "message" PNone) then py_str (field d "message" PNone)
          else py_str body
      | _ => py_str body
      end
  | inl _ => text r
  end.

(** The location block as the specification describes it, for a payload
    [d]: the placeholder when there is no name, a text that starts with
    the name otherwise. *)
Definition location_block_as_specified (d : pydict) : Prop :=
  (py_truthy (field d "name" PNone) = false →
   format_location_block (PDict d) = Returned EM_DASH) ∧
  (py_truthy (field d "name" PNone) = true →
   ∃ country, format_location_block (PDict d)
              = Returned (py_str (field d "name" PNone) +:+ ", " +:+ country)).

(** The flattened sub-objects of a forecast entry, as lines 46-49 feed
    them to the frame. *)
Definition flattened_main (e : pydict) : pyval :=
  simple_json_normalize_cell (record_cell "main" e).

Definition flattened_wind (e : pydict) : pyval :=
  simple_json_normalize_cell (record_cell "wind" e).

Definition flattened_weather (e : pydict) : pyval :=
  simple_json_normalize (first_or_empty (record_cell "weather" e)).

(** The flattened record [v] has no field [k]. *)
Definition lacks (k : string) (v : pyval) : Prop :=
  ∀ r, v = PDict r → dict_get r k = None.

(** A flat record: no value is itself a dict. *)
Definition flat (d : pydict) : Prop := Forall (fun kv => is_dict kv.2 = false) d.

Definition always (r : response) : network := fun _ => inr r.

Definition failing (e : exn) : network := fun _ => inl e.

Definition quoted (s : string) : string :=
  String dquote (s +:+ String dquote EmptyString).

(** HTTP 200 with the body [null]. *)
Definition null_200 : response :=
  {| status_code := 200; text := "null"; json := inr PNone |}.

(** HTTP 500 with the body [null]. *)
Definition null_500 : response :=
  {| status_code := 500; text := "null"; json := inr PNone |}.

(** HTTP 404 with the body [{"message":"city not found"}]. *)
Definition not_found_404 : response :=
  {| status_code := 404;
     text := "{" +:+ quoted "message" +:+ ":" +:+ quoted "city not found" +:+ "}";
     json := inr (PDict [("message", PStr "city not found")]) |}.

Definition read_timeout : exn :=
  RequestException "HTTPSConnectionPool(host='api.openweathermap.org', port=443): Read timed out. (read timeout=15)".

(** HTTP 200 with the current conditions of the specification's
    scenario. *)
Definition almaty_payload : pyval :=
  PDict [("name", PStr "Almaty");
         ("sys", PDict [("country", PStr "KZ")]);
         ("main", PDict [("temp", PFloat "21.5"); ("humidity", PInt 40)]);
         ("wind", PDict [("speed", PFloat "3.2")]);
         ("weather", PList [PDict [("description", PStr "clear sky"); ("icon", PStr "01d")]])].

Definition almaty_200 : response :=
  {| status_code := 200; text := ""; json := inr almaty_payload |}.

Definition almaty : Session.key := ("Almaty", "k", "metric", "ru").

(** A world that answers the first request with the current conditions,
    the second with a 404, and then stops answering. *)
Definition fading_world : Session.world :=
  fun n =>
    match n with
    | 0 => always almaty_200
    | 1 => always not_found_404
    | _ => failing read_timeout
    end.

(** Forecast entries: one as the API sends them, one with empty
    sub-objects and an empty conditions list. *)
Definition clear_sky_entry : pydict :=
  [("dt", PInt 1700000000);
   ("main", PDict [("temp", PFloat "21.5"); ("feels_like", PFloat "20.9"); ("humidity", PInt 40)]);
   ("weather", PList [PDict [("description", PStr "clear sky"); ("icon", PStr "01d")]]);
   ("clouds", PDict [("all", PInt 3)]);
   ("wind", PDict [("speed", PFloat "3.2")]);
   ("dt_txt", PStr "2023-11-14 22:13:20")].

Definition bare_entry : pydict :=
  [("dt", PInt 1700010800);
   ("main", PDict []);
   ("weather", PList []);
   ("wind", PDict []);
   ("dt_txt", PStr "2023-11-15 01:13:20")].

(** A second entry as the API sends them. *)
Definition rainy_entry : pydict :=
  [("dt", PInt 1700010800);
   ("main", PDict [("temp", PFloat "18.0"); ("feels_like", PFloat "17.4"); ("humidity", PInt 87)]);
   ("weather", PList [PDict [("description", PStr "light rain"); ("icon", PStr "10n")]]);
   ("clouds", PDict [("all", PInt 92)]);
   ("wind", PDict [("speed", PFloat "5.1")]);
   ("dt_txt", PStr "2023-11-15 01:13:20")].

(** HTTP 200 from the forecast endpoint with the given [list] field. *)
Definition forecast_200 (list_items : pyval) : response :=
  {| status_code := 200; text := "";
     json := inr (PDict [("cod", PStr "200"); ("list", list_items)]) |}.

(** An entry with the times and no sub-object, and the HTTP 200 that
    carries it alone. *)
Definition times_only_entry : pydict :=
  [("dt", PInt 1700000000); ("dt_txt", PStr "2023-11-14 22:13:20")].

Definition times_only_200 : response :=
  forecast_200 (PList [PDict times_only_entry]).

(** HTTP 200 with the body [{"cod": "200"}], which has no [list]. *)
Definition no_list_200 : response :=
  {| status_code := 200; text := ""; json := inr (PDict [("cod", PStr "200")]) |}.

(** The table [fetch_forecast] makes of the bare entry alone. *)
Definition bare_table : DataFrame :=
  {| nrows := 1;
     columns :=
       [("dt", [CTimestamp 1700010800]);
        ("dt_txt", [CVal (PStr "2023-11-15 01:13:20")]);
        ("main.temp", [CVal PNone]);
        ("main.feels_like", [CVal PNone]);
        ("main.humidity", [CVal PNone]);
        ("wind.speed", [CVal PNone]);
        ("weather.description", [CVal (PStr "")])] |}.

(** Entries on which every pandas call of [forecast_frame] returns: there
    is at least one entry; each of the keys read with [df[...]] occurs in
    some entry; every [main], [wind] and [clouds] value is an object or
    absent; the first weather condition, where the [weather] value is a
    non-empty list, is an object; every [dt] is an integer number of
    seconds in the range of a nanosecond timestamp.  Nothing else is
    asked of the [weather] value: it may be an empty list, absent, or no
    list at all. *)
Definition object_or_missing (c : cell) : bool :=
  match c with
  | CVal (PDict _) | CNaN => true
  | _ => false
  end.

Definition seconds_in_range (c : cell) : bool :=
  match c with
  | CVal (PInt z) => ((- MAX_SECONDS <=? z) && (z <=? MAX_SECONDS))%Z
  | _ => false
  end.

Definition entry_well_formed (e : pydict) : bool :=
  object_or_missing (record_cell "main" e)
  && object_or_missing (record_cell "wind" e)
  && object_or_missing (record_cell "clouds" e)
  && object_or_missing (CVal (first_or_empty (record_cell "weather" e)))
  && seconds_in_range (record_cell "dt" e).

Definition entries_well_formed (es : list pydict) : bool :=
  match es with [] => false | _ => true end
  && forallb (fun k => existsb (String.eqb k) (record_keys es))
       ["main"; "wind"; "weather"; "dt"; "dt_txt"]
  && forallb entry_well_formed es.

(** ** Vocabulary of the further properties *)

(** The five keys [forecast_frame] reads with [df[...]]. *)
Definition REQUIRED_KEYS : list string := ["main"; "wind"; "weather"; "dt"; "dt_txt"].

(** Whatever a pandas or Python step raises is not a RequestException. *)
Definition not_request_exception {A} (o : outcome A) : Prop :=
  match o with
  | Raised (RequestException _) => False
  | _ => True
  end.

(** Every column of the frame has as many cells as the frame has rows. *)
Definition rectangular (df : DataFrame) : Prop :=
  Forall (fun nc => length nc.2 = nrows df) (columns df).

(** The flattened [clouds] value of an entry. *)
Definition flattened_clouds (e : pydict) : pyval :=
  simple_json_normalize_cell (record_cell "clouds" e).

(** Every cached value is what the fetcher returned on the network as it
    was when an earlier request of the session was sent. *)
Definition cache_sound (w : Session.world) (s : Session.session) : Prop :=
  (∀ city api_key units lang v,
     Session.weather_cache s !! (city, api_key, units, lang) = Some v →
     ∃ n, n < length (Session.sent s)
          ∧ Session.sent s !! n = Some (weather_request city api_key units lang)
          ∧ fetch_current_weather (w n) city api_key units lang = Returned v)
  ∧ (∀ city api_key units lang v,
       Session.forecast_cache s !! (city, api_key, units, lang) = Some v →
       ∃ n, n < length (Session.sent s)
            ∧ Session.sent s !! n = Some (forecast_request city api_key units lang)
            ∧ fetch_forecast (w n) city api_key units lang = Returned v).

(** HTTP 200 whose body cannot be decoded, with requests >= 2.27. *)
Definition undecodable_200 : response :=
  {| status_code := 200; text := "<html>";
     json := inl (RequestException "Expecting value: line 1 column 1 (char 0)") |}.

(** An entry without the [main] sub-object. *)
Definition no_main_entry : pydict :=
  [("dt", PInt 1700000000);
   ("weather", PList []);
   ("wind", PDict []);
   ("dt_txt", PStr "2023-11-14 22:13:20")].

Definition no_key_sources : Credentials.sources :=
  {| Credentials.secrets_get := inl (ValueError "No secrets found");
     Credentials.getenv := None;
     Credentials.text_input := "" |}.

Definition env_key_sources : Credentials.sources :=
  {| Credentials.secrets_get := inl (ValueError "No secrets found");
     Credentials.getenv := Some "0123456789abcdef";
     Credentials.text_input := "" |}.

Definition secret_key_sources : Credentials.sources :=
  {| Credentials.secrets_get := inr (PStr "0123456789abcdef");
     Credentials.getenv := Some "other";
     Credentials.text_input := "typed" |}.

Definition almaty_inputs : App.inputs :=
  {| App.city := "Almaty"; App.units_label := "metric"; App.lang := "ru" |}.

(** HTTP 200 whose body is the JSON array [[1]]. *)
Definition array_200 : response :=
  {| status_code := 200; text := "[1]"; json := inr (PList [PInt 1]) |}.

(** What [main] draws before it looks at the key: the page head, the
    three sidebar widgets, and the masked key field when the resolver
    asked for it. *)
Definition page_head (env : Credentials.sources) : list (App.place * App.element) :=
  [(App.InPage, App.SetPageConfig "Прогноз погоды" "☀️" "wide");
   (App.InPage, App.Title "Прогноз погоды с визуализацией");
   (App.InSidebar, App.Header "Настройки");
   (App.InSidebar, App.TextInput "Город" false);
   (App.InSidebar, App.Radio "Единицы измерения" ["metric"; "imperial"]);
   (App.InSidebar, App.Selectbox "Язык" ["ru"; "en"])]
  ++ (if existsb (fun s => match s with Credentials.Sidebar => true | _ => false end)
           (Credentials.get_api_key_from_env_or_ui env).2
      then [(App.InSidebar, App.TextInput "API ключ OpenWeather" true)]
      else []).

Definition FOOTER : App.place * App.element :=
  (App.InPage,
   App.Caption (App.Plain "Источник данных: OpenWeather. Приложение: Streamlit + Plotly.")).

(** The arguments [main] passes to both fetchers. *)
Definition fetch_key (inp : App.inputs) (key : string) : Session.key :=
  (App.city inp, key, App.units_label inp, App.lang inp).

(** A world that answers the first request with a 404 and every later
    one with a forecast of the bare entry. *)
Definition error_then_forecast_world : Session.world :=
  fun n =>
    match n with
    | 0 => always not_found_404
    | _ => always (forecast_200 (PList [PDict bare_entry]))
    end.

(** The shape of payload the current panel can draw: [sys], [main] and
    [wind] are objects where present, and [weather] is absent, empty, or a
    list whose first item is an object with a string description or none. *)
Definition object_or_absent (d : pydict) (key : string) : bool :=
  match dict_get d key with Some v => is_dict v | None => true end.

Definition string_or_absent (d : pydict) (key : string) : bool :=
  match dict_get d key with Some (PStr _) | None => true | Some _ => false end.

Definition conditions_readable (d : pydict) : bool :=
  match dict_get d "weather" with
  | None => true
  | Some v =>
      negb (py_truthy v)
      || match v with
         | PList (PDict first :: _) => string_or_absent first "description"
         | _ => false
         end
  end.

Definition well_shaped (d : pydict) : bool :=
  object_or_absent d "sys" && conditions_readable d
  && object_or_absent d "main" && object_or_absent d "wind".

(** A payload with nothing the panel reads. *)
Definition bare_payload : pydict := [("cod", PInt 200)].

(** Follows the specification's words ("flattening the same entry a second
    time"): an entry whose sub-objects have been flattened once already,
    the objects under [main], [wind] and [clouds] and the first weather
    condition each replaced by its flattened record. *)
Definition flatten_value (v : pyval) : pyval :=
  match v with
  | PDict d => PDict (normalise_json_ordered d)
  | _ => v
  end.

Definition flatten_first (v : pyval) : pyval :=
  match v with
  | PList (first :: rest) => PList (flatten_value first :: rest)
  | _ => v
  end.

Definition flatten_field (k : string) (v : pyval) : pyval :=
  if String.eqb k "weather" then flatten_first v
  else if existsb (String.eqb k) ["main"; "wind"; "clouds"] then flatten_value v
  else v.

Definition flatten_entry (e : pydict) : pydict :=
  map (fun kv => (kv.1, flatten_field kv.1 kv.2)) e.

(** A function on values, applied to the value a cell holds. *)
Definition on_value (f : pyval → pyval) (c : cell) : cell :=
  match c with
  | CVal v => CVal (f v)
  | _ => c
  end.

(** A function that keeps lists lists and dicts dicts, and leaves every
    other value alone. *)
Definition shape_preserving (f : pyval → pyval) : Prop :=
  ∀ v, match v with
       | PDict _ => is_dict (f v) = true
       | PList _ => is_list (f v) = true
       | _ => f v = v
       end.

(** An entry with nested sub-objects. *)
Definition nested_entry : pydict :=
  [("dt", PInt 1700000000);
   ("main", PDict [("temp", PFloat "21.5"); ("sea", PDict [("level", PInt 1012)])]);
   ("weather",
    PList [PDict [("description", PStr "clear sky"); ("sys", PDict [("pod", PStr "d")])]]);
   ("wind", PDict [("speed", PFloat "3.2")]);
   ("dt_txt", PStr "2023-11-14 22:13:20")].

(* ===================================================================== *)
(** * Properties *)
(* ===================================================================== *)

Ltac run := unfold mbind, outcome_bind, mret, outcome_ret in *.

(** ** Strings *)

Lemma eqb_append_l (p a b : string) : String.eqb (p +:+ a) (p +:+ b) = String.eqb a b.
Proof.
  induction p as [|c p IH]; simpl; [reflexivity|].
  rewrite Ascii.eqb_refl. exact IH.
Qed.

Lemma http_error_nonempty (r : response) (m : pyval) : http_error r m ≠ "".
Proof. unfold http_error. simpl. discriminate. Qed.

Lemma network_error_nonempty (exc : string) : network_error exc ≠ "".
Proof. unfold network_error. simpl. discriminate. Qed.

(** ** The error branch shared by both fetchers *)

Section ErrorMessage.
Variable r : response.

(** The handler catches every exception, so the message always exists. *)
Lemma error_message_returns : ∃ m, error_message r = Returned m.
Proof.
  unfold error_message, response_json, of_sum, except_Exception. run.
  destruct (json r) as [e|v]; [eauto|].
  destruct v; simpl; eauto.
Qed.

Lemma error_message_with_message (d : pydict) (msg : pyval) :
  json r = inr (PDict d) → dict_get d "message" = Some msg → py_truthy msg = true →
  error_message r = Returned msg.
Proof.
  intros Hj Hm Ht. unfold error_message, response_json, of_sum, except_Exception. run.
  rewrite Hj. simpl. rewrite Hm. unfold py_or. rewrite Ht. reflexivity.
Qed.

Lemma error_message_without_message (d : pydict) :
  json r = inr (PDict d) →
  match dict_get d "message" with Some msg => py_truthy msg = false | None => True end →
  error_message r = Returned (PStr (py_str (PDict d))).
Proof.
  intros Hj Hm. unfold error_message, response_json, of_sum, except_Exception. run.
  rewrite Hj. simpl. unfold py_or.
  destruct (dict_get d "message") as [msg|]; [rewrite Hm|]; reflexivity.
Qed.

Lemma error_message_not_object (v : pyval) :
  json r = inr v → is_dict v = false → error_message r = Returned (PStr (text r)).
Proof.
  intros Hj Hd. unfold error_message, response_json, of_sum, except_Exception. run.
  rewrite Hj. destruct v; simpl in *; try reflexivity. discriminate.
Qed.

Lemma error_message_unparsed (e : exn) :
  json r = inl e → error_message r = Returned (PStr (text r)).
Proof.
  intros Hj. unfold error_message, response_json, of_sum, except_Exception. run.
  rewrite Hj. reflexivity.
Qed.
End ErrorMessage.

(** ** What each fetcher does with the network's answer *)

Section Fetchers.
Variable net : network.
Variables city api_key units lang : string.

Let wreq := weather_request city api_key units lang.
Let freq := forecast_request city api_key units lang.

Lemma fetch_current_weather_network_error (detail : string) :
  net wreq = inl (RequestException detail) →
  fetch_current_weather net city api_key units lang
  = Returned (PNone, Some (network_error detail)).
Proof.
  intros H. unfold fetch_current_weather, requests_get. fold wreq.
  unfold weather_request in wreq. subst wreq. rewrite H. reflexivity.
Qed.

Lemma fetch_forecast_network_error (detail : string) :
  net freq = inl (RequestException detail) →
  fetch_forecast net city api_key units lang
  = Returned (None, Some (network_error detail)).
Proof.
  intros H. unfold fetch_forecast, requests_get.
  unfold forecast_request in freq. subst freq. rewrite H. reflexivity.
Qed.

Lemma fetch_current_weather_http_error (resp : response) :
  net wreq = inr resp → status_code resp ≠ 200%Z →
  ∃ m, error_message resp = Returned m ∧
       fetch_current_weather net city api_key units lang
       = Returned (PNone, Some (http_error resp m)).
Proof.
  intros H Hs. destruct (error_message_returns resp) as [m Hm]. exists m. split; [exact Hm|].
  unfold fetch_current_weather, requests_get.
  unfold weather_request in wreq. subst wreq. rewrite H. simpl. run.
  destruct (decide (status_code resp = 200%Z)); [contradiction|].
  rewrite Hm. reflexivity.
Qed.

Lemma fetch_forecast_http_error (resp : response) :
  net freq = inr resp → status_code resp ≠ 200%Z →
  ∃ m, error_message resp = Returned m ∧
       fetch_forecast net city api_key units lang
       = Returned (None, Some (http_error resp m)).
Proof.
  intros H Hs. destruct (error_message_returns resp) as [m Hm]. exists m. split; [exact Hm|].
  unfold fetch_forecast, requests_get.
  unfold forecast_request in freq. subst freq. rewrite H. simpl. run.
  destruct (decide (status_code resp ≠ 200%Z)); [|contradiction].
  rewrite Hm. reflexivity.
Qed.

Lemma fetch_current_weather_ok (resp : response) :
  net wreq = inr resp → status_code resp = 200%Z →
  fetch_current_weather net city api_key units lang
  = except_RequestException
      (body ← response_json resp; mret (body, None))
      (fun exc => mret (PNone, Some (network_error exc))).
Proof.
  intros H Hs. unfold fetch_current_weather, requests_get.
  unfold weather_request in wreq. subst wreq. rewrite H. simpl. run.
  destruct (decide (status_code resp = 200%Z)); [reflexivity|contradiction].
Qed.

Lemma fetch_forecast_ok (resp : response) :
  net freq = inr resp → status_code resp = 200%Z →
  fetch_forecast net city api_key units lang
  = except_RequestException
      (data ← response_json resp;
       list_items ← py_get data "list" (PList []);
       if negb (py_truthy list_items) then mret (None, Some EMPTY_FORECAST)
       else result ← forecast_frame list_items;
            mret (Some (fill_defaults result), None))
      (fun exc => mret (None, Some (network_error exc))).
Proof.
  intros H Hs. unfold fetch_forecast, requests_get.
  unfold forecast_request in freq. subst freq. rewrite H. simpl. run.
  destruct (decide (status_code resp ≠ 200%Z)); [contradiction|reflexivity].
Qed.
End Fetchers.

(* --------------------------------------------------------------------- *)
(** ** The current-conditions fetcher's result *)
(* --------------------------------------------------------------------- *)

(** C1, as the specification states it, fails.  It says every call
    returns a pair that is a payload without error or an error without
    payload.  On an
    HTTP 200 whose body is the JSON literal [null], [response.json()] is
    [None] and line 17 returns it as it is: the pair is [(None, None)]. *)
Lemma fetch_current_weather_null_body :
  fetch_current_weather (always null_200) "Almaty" "k" "metric" "ru" = Returned (PNone, None)
  ∧ ¬ (∃ r, fetch_current_weather (always null_200) "Almaty" "k" "metric" "ru" = Returned r
            ∧ payload_xor_error r).
Proof.
  split; [reflexivity|].
  intros [r [H [[Hp _]|[_ [e [He _]]]]]]; vm_compute in H; inversion H; subst; simpl in *.
  - apply Hp. reflexivity.
  - discriminate.
Qed.

(** C1, amended.  What [fetch_current_weather] does on every input:
    - it returns [(payload, None)] only on an HTTP 200 whose body parses,
      and the payload is the parsed body, [None] exactly when that body
      is [null];
    - whenever it returns an error the payload is [None] and the error is
      a non-empty string, so the two components are never both set;
    - it raises only what [requests.get], or [response.json()] on a 200,
      raised, and only when that is not a [RequestException]. *)
Theorem fetch_current_weather_result (net : network) (city api_key units lang : string) :
  match fetch_current_weather net city api_key units lang with
  | Returned (payload, None) =>
      ∃ resp, net (weather_request city api_key units lang) = inr resp
              ∧ status_code resp = 200%Z ∧ json resp = inr payload
  | Returned (payload, Some err) => payload = PNone ∧ err ≠ ""
  | Raised e =>
      (∀ detail, e ≠ RequestException detail)
      ∧ (net (weather_request city api_key units lang) = inl e
         ∨ ∃ resp, net (weather_request city api_key units lang) = inr resp
                   ∧ status_code resp = 200%Z ∧ json resp = inl e)
  | Unmodelled => False
  end.
Proof.
  destruct (net (weather_request city api_key units lang)) as [e|resp] eqn:Hnet.
  - destruct e as [detail| | | |].
    1: { rewrite (fetch_current_weather_network_error _ _ _ _ _ _ Hnet).
         split; [reflexivity|apply network_error_nonempty]. }
    all: unfold fetch_current_weather, requests_get;
      unfold weather_request in Hnet; rewrite Hnet; simpl;
      (split; [intros ?; discriminate | left; reflexivity]).
  - destruct (decide (status_code resp = 200%Z)) as [Hs|Hs].
    + rewrite (fetch_current_weather_ok _ _ _ _ _ _ Hnet Hs).
      unfold response_json, of_sum. run.
      destruct (json resp) as [e|body] eqn:Hj; simpl.
      * destruct e as [detail| | | |]; simpl.
        1: { split; [reflexivity|apply network_error_nonempty]. }
        all: split; [intros ?; discriminate | right; exists resp; auto].
      * exists resp. auto.
    + destruct (fetch_current_weather_http_error _ _ _ _ _ _ Hnet Hs) as [m [_ ->]].
      split; [reflexivity|apply http_error_nonempty].
Qed.

(* --------------------------------------------------------------------- *)
(** ** HTTP errors *)
(* --------------------------------------------------------------------- *)

(** C5, as the specification states it, fails.  Read as a chain on
    parsing, it makes the message of an HTTP 500 with body [null] the string form of the
    parsed body, "None".  The parsed body has no [get], the handler of
    lines 37-38 catches the AttributeError, and the message is the raw
    text, "null". *)
Lemma fetch_forecast_null_error_body :
  fetch_forecast (always null_500) "Almaty" "k" "metric" "ru"
  = Returned (None, Some "HTTP 500: null")
  ∧ fetch_forecast (always null_500) "Almaty" "k" "metric" "ru"
    ≠ Returned (None, Some ("HTTP " +:+ string_of_Z (status_code null_500) +:+ ": "
                            +:+ message_by_parsing null_500)).
Proof. split; [reflexivity|]. vm_compute. discriminate. Qed.

(** C5, amended.  For every non-200 response both fetchers return
    [(None, "HTTP {status}: {message}")], where [message] is
    - the body's [message] field, when the body parses to a JSON object
      whose [message] is non-empty (truthy);
    - the string form of the parsed body, when it parses to a JSON object
      without such a field;
    - the raw response text, when the body does not parse or parses to
      something that is not an object. *)
Theorem fetchers_http_error (net : network) (city api_key units lang : string) :
  let message (r : response) : string :=
    match json r with
    | inr (PDict d) =>
        if py_truthy (field d "message" PNone) then py_str (field d "message" PNone)
        else py_str (PDict d)
    | inr _ | inl _ => text r
    end in
  (∀ resp,
     net (weather_request city api_key units lang) = inr resp →
     status_code resp ≠ 200%Z →
     fetch_current_weather net city api_key units lang
     = Returned (PNone, Some ("HTTP " +:+ string_of_Z (status_code resp) +:+ ": "
                              +:+ message resp)))
  ∧ (∀ resp,
       net (forecast_request city api_key units lang) = inr resp →
       status_code resp ≠ 200%Z →
       fetch_forecast net city api_key units lang
       = Returned (None, Some ("HTTP " +:+ string_of_Z (status_code resp) +:+ ": "
                               +:+ message resp))).
Proof.
  intros message.
  assert (Hmsg : ∀ r, error_message r = Returned (PStr (message r))
                      ∨ ∃ d, json r = inr (PDict d)
                             ∧ py_truthy (field d "message" PNone) = true
                             ∧ error_message r = Returned (field d "message" PNone)
                             ∧ message r = py_str (field d "message" PNone)).
  { intros r. subst message. simpl.
    destruct (json r) as [e|v] eqn:Hj.
    - left. apply (error_message_unparsed r e Hj).
    - destruct v as [| | | | | |d];
        try (left; apply (error_message_not_object r _ Hj); reflexivity).
      unfold field. destruct (dict_get d "message") as [msg|] eqn:Hm.
      + destruct (py_truthy msg) eqn:Ht.
        * right. exists d. rewrite Hm, Ht.
          repeat split; try reflexivity. apply (error_message_with_message r d msg Hj Hm Ht).
        * left. apply (error_message_without_message r d Hj). rewrite Hm. exact Ht.
      + left. simpl. apply (error_message_without_message r d Hj). rewrite Hm. exact I. }
  split; intros resp Hnet Hs.
  - destruct (fetch_current_weather_http_error _ _ _ _ _ _ Hnet Hs) as [m [Hm ->]].
    unfold http_error.
    destruct (Hmsg resp) as [H|[d [_ [_ [H Heq]]]]]; rewrite H in Hm; inversion Hm; subst m.
    + reflexivity.
    + rewrite Heq. reflexivity.
  - destruct (fetch_forecast_http_error _ _ _ _ _ _ Hnet Hs) as [m [Hm ->]].
    unfold http_error.
    destruct (Hmsg resp) as [H|[d [_ [_ [H Heq]]]]]; rewrite H in Hm; inversion Hm; subst m.
    + reflexivity.
    + rewrite Heq. reflexivity.
Qed.

(** The scenario of the specification: HTTP 404 with body
    [{"message":"city not found"}]. *)
Lemma fetchers_http_error_witness :
  fetch_current_weather (always not_found_404) "Atlantis" "k" "metric" "ru"
  = Returned (PNone, Some "HTTP 404: city not found")
  ∧ fetch_forecast (always not_found_404) "Atlantis" "k" "metric" "ru"
    = Returned (None, Some "HTTP 404: city not found").
Proof.
  split.
  - apply (proj1 (fetchers_http_error (always not_found_404) "Atlantis" "k" "metric" "ru")
             not_found_404); [reflexivity|simpl; lia].
  - apply (proj2 (fetchers_http_error (always not_found_404) "Atlantis" "k" "metric" "ru")
             not_found_404); [reflexivity|simpl; lia].
Defined.

(* --------------------------------------------------------------------- *)
(** ** Network failures *)
(* --------------------------------------------------------------------- *)

(** C7.  When the request of either fetcher, sent with its 15 second
    timeout, fails inside [requests.get] with a [RequestException] (the
    class of DNS failures, refused connections and timeouts), the fetcher
    returns [(None, "Network error: " + details)]: the exception does not
    propagate. *)
Theorem fetchers_network_error (net : network) (city api_key units lang : string) :
  (∀ detail,
     net (weather_request city api_key units lang) = inl (RequestException detail) →
     fetch_current_weather net city api_key units lang
     = Returned (PNone, Some ("Network error: " +:+ detail)))
  ∧ (∀ detail,
       net (forecast_request city api_key units lang) = inl (RequestException detail) →
       fetch_forecast net city api_key units lang
       = Returned (None, Some ("Network error: " +:+ detail)))
  ∧ req_timeout (weather_request city api_key units lang) = 15%Z
  ∧ req_timeout (forecast_request city api_key units lang) = 15%Z.
Proof.
  repeat split.
  - intros detail H. apply (fetch_current_weather_network_error _ _ _ _ _ _ H).
  - intros detail H. apply (fetch_forecast_network_error _ _ _ _ _ _ H).
Qed.

Lemma fetchers_network_error_witness :
  fetch_current_weather (failing read_timeout) "Almaty" "k" "metric" "ru"
  = Returned (PNone, Some ("Network error: HTTPSConnectionPool(host='api.openweathermap.org', port=443): Read timed out. (read timeout=15)"))
  ∧ fetch_forecast (failing read_timeout) "Almaty" "k" "metric" "ru"
    = Returned (None, Some ("Network error: HTTPSConnectionPool(host='api.openweathermap.org', port=443): Read timed out. (read timeout=15)")).
Proof.
  destruct (fetchers_network_error (failing read_timeout) "Almaty" "k" "metric" "ru")
    as (Hw & Hf & _).
  split; [apply Hw|apply Hf]; reflexivity.
Defined.

(* --------------------------------------------------------------------- *)
(** ** The location block *)
(* --------------------------------------------------------------------- *)

(** Line 100 runs before the test of line 101: a [sys] entry that is not
    an object makes the function raise, whatever the name. *)
Lemma format_location_block_bad_sys (d : pydict) (v : pyval) :
  dict_get d "sys" = Some v → is_dict v = false →
  format_location_block (PDict d) = Raised (AttributeError "object has no attribute 'get'").
Proof.
  intros Hs Hv. unfold format_location_block. simpl. run. rewrite Hs.
  destruct v; simpl in *; try reflexivity. discriminate.
Qed.

(** C10, as the specification states it, fails.  The payload [{"sys": null}] has no name,
    yet the function does not return the placeholder: [None.get] raises
    AttributeError on line 100. *)
Lemma format_location_block_null_sys :
  format_location_block (PDict [("sys", PNone)])
  = Raised (AttributeError "object has no attribute 'get'")
  ∧ ¬ location_block_as_specified [("sys", PNone)].
Proof.
  split; [reflexivity|]. intros [H _].
  specialize (H eq_refl). vm_compute in H. discriminate.
Qed.

(** C10, amended.  For a payload whose [sys] entry is absent or an
    object, [format_location_block] returns the em-dash placeholder when
    the name is absent, [None] or empty (falsy), and otherwise
    "{name}, {country}" with the country read from [sys], the empty
    string when [sys] has none. *)
Theorem format_location_block_spec (d sys : pydict) :
  field d "sys" (PDict []) = PDict sys →
  format_location_block (PDict d)
  = Returned (if py_truthy (field d "name" PNone)
              then py_str (field d "name" PNone) +:+ ", "
                   +:+ py_str (field sys "country" (PStr ""))
              else "—").
Proof.
  intros Hs. unfold format_location_block. simpl. run.
  unfold field in *. rewrite Hs. reflexivity.
Qed.

Lemma format_location_block_spec_witness :
  format_location_block (PDict [("name", PStr "Almaty"); ("sys", PDict [("country", PStr "KZ")])])
  = Returned "Almaty, KZ"
  ∧ format_location_block (PDict [("name", PStr "")]) = Returned "—".
Proof.
  split.
  - apply (format_location_block_spec
             [("name", PStr "Almaty"); ("sys", PDict [("country", PStr "KZ")])]
             [("country", PStr "KZ")]). reflexivity.
  - apply (format_location_block_spec [("name", PStr "")] []). reflexivity.
Defined.

(* --------------------------------------------------------------------- *)
(** ** The credential resolver *)
(* --------------------------------------------------------------------- *)

Section Resolver.
Import Credentials.
Variable env : sources.

Ltac resolver_cases :=
  unfold get_api_key_from_env_or_ui, up_to_first_nonempty, first_nonempty, precedence,
    offered, of_getenv; simpl;
  destruct (secrets_get env) as [?|secret]; [|destruct (py_truthy secret) eqn:?];
  destruct (getenv env) as [s|]; simpl;
  repeat match goal with H : py_truthy _ = _ |- _ => rewrite H; clear H end; simpl;
  try destruct (String.eqb s ""); simpl;
  try destruct (String.eqb (text_input env) ""); simpl.

Lemma resolver_log : (get_api_key_from_env_or_ui env).2 = up_to_first_nonempty env precedence.
Proof. resolver_cases; reflexivity. Qed.

Lemma resolver_value (v : pyval) :
  first_nonempty env precedence = Some v → (get_api_key_from_env_or_ui env).1.1 = v.
Proof. resolver_cases; intros H; inversion H; reflexivity. Qed.

(** Nothing after the first non-empty source of a list is consulted. *)
Lemma up_to_first_nonempty_stops (before after : list source) (s : source) :
  Forall (fun s' => py_truthy (offered env s') = false) before →
  py_truthy (offered env s) = true →
  up_to_first_nonempty env (before ++ s :: after) = before ++ [s].
Proof.
  intros Hb Hs. induction Hb as [|s' before Hs' _ IH]; simpl.
  - rewrite Hs. reflexivity.
  - rewrite Hs', IH. reflexivity.
Qed.
End Resolver.

(** C4.  The resolver consults its sources in the order secrets store,
    environment variable, sidebar field; it stops at the first source that
    offers a non-empty value, so no later source is consulted, and it
    returns that value. *)
Theorem resolver_first_nonempty_wins (env : Credentials.sources) :
  let '((api_key, _), consulted) := Credentials.get_api_key_from_env_or_ui env in
  consulted = Credentials.up_to_first_nonempty env Credentials.precedence
  ∧ (∀ v, Credentials.first_nonempty env Credentials.precedence = Some v → api_key = v)
  ∧ (∀ before s after,
       Credentials.precedence = before ++ s :: after →
       Forall (fun s' => py_truthy (Credentials.offered env s') = false) before →
       py_truthy (Credentials.offered env s) = true →
       consulted = before ++ [s] ∧ api_key = Credentials.offered env s
       ∧ ∀ s', s' ∈ after → s' ∉ consulted).
Proof.
  pose proof (resolver_log env) as Hlog.
  pose proof (resolver_value env) as Hval.
  destruct (Credentials.get_api_key_from_env_or_ui env) as [[api_key from_secrets] consulted].
  cbn [fst snd] in *. split; [exact Hlog|]. split; [exact Hval|].
  intros before s after Hp Hb Hs.
  assert (Hc : consulted = before ++ [s]).
  { rewrite Hlog, Hp. apply up_to_first_nonempty_stops; assumption. }
  split; [exact Hc|]. split.
  - apply Hval. unfold Credentials.first_nonempty. rewrite Hp.
    assert (Hfind : List.find (fun s0 => py_truthy (Credentials.offered env s0))
                      (before ++ s :: after) = Some s).
    { clear -Hb Hs. induction Hb as [|x l Hx _ IH]; simpl.
      - rewrite Hs. reflexivity.
      - rewrite Hx. exact IH. }
    rewrite Hfind. reflexivity.
  - intros s' Hin Hin'. rewrite Hc in Hin'.
    assert (Hnd : NoDup Credentials.precedence).
    { unfold Credentials.precedence.
      repeat (apply NoDup_cons; split; [intros H; repeat (apply elem_of_cons in H as [H|H]; [discriminate|]); inversion H|]).
      apply NoDup_nil. exact I. }
    rewrite Hp in Hnd. apply NoDup_app in Hnd as [_ [Hdisj Hnd]].
    apply NoDup_cons in Hnd as [Hs' _].
    apply elem_of_app in Hin' as [Hin'|Hin'].
    + apply (Hdisj s' Hin'). right. exact Hin.
    + apply list_elem_of_singleton in Hin'. subst s'. contradiction.
Qed.

Lemma resolver_first_nonempty_wins_witness :
  Credentials.get_api_key_from_env_or_ui
    {| Credentials.secrets_get := inl (ValueError "No secrets found");
       Credentials.getenv := Some "0123456789abcdef";
       Credentials.text_input := "typed" |}
  = ((PStr "0123456789abcdef", false), [Credentials.Secrets; Credentials.Environment]).
Proof.
  pose proof (resolver_first_nonempty_wins
    {| Credentials.secrets_get := inl (ValueError "No secrets found");
       Credentials.getenv := Some "0123456789abcdef";
       Credentials.text_input := "typed" |}) as H.
  destruct (Credentials.get_api_key_from_env_or_ui _) as [[api_key from_secrets] consulted] eqn:E.
  destruct H as [_ [_ H]].
  destruct (H [Credentials.Secrets] Credentials.Environment [Credentials.Sidebar]
              eq_refl ltac:(repeat constructor) eq_refl) as [Hc [Hk _]].
  vm_compute in E. inversion E. reflexivity.
Defined.

(* --------------------------------------------------------------------- *)
(** ** Memoisation *)
(* --------------------------------------------------------------------- *)

Section Memo.
Import Session.
Variable w : world.

Lemma cache_data_hit {V} (cache : gmap key V) (l : list request)
    (f : network → outcome V) (req : request) (k : key) (v : V) :
  cache !! k = Some v → cache_data cache l w f req k = (Returned v, cache, l).
Proof. intros H. unfold cache_data. rewrite H. reflexivity. Qed.

(** A call that returns leaves its result in the cache. *)
Lemma cache_data_stores {V} (cache cache' : gmap key V) (l l' : list request)
    (f : network → outcome V) (req : request) (k : key) (v : V) :
  cache_data cache l w f req k = (Returned v, cache', l') → cache' !! k = Some v.
Proof.
  unfold cache_data. destruct (cache !! k) as [v0|] eqn:Hk.
  - intros H. inversion H; subst. exact Hk.
  - destruct (f (w (length l))) as [v0| |]; intros H; inversion H; subst.
    apply lookup_insert_eq.
Qed.

(** No call evicts or overwrites an entry. *)
Lemma cache_data_keeps {V} (cache : gmap key V) (l : list request)
    (f : network → outcome V) (req : request) (k k0 : key) (v : V) :
  cache !! k0 = Some v → (cache_data cache l w f req k).1.2 !! k0 = Some v.
Proof.
  intros H0. unfold cache_data. destruct (cache !! k) as [v1|] eqn:Hk; [exact H0|].
  simpl. destruct (f (w (length l))); try exact H0.
  rewrite lookup_insert_ne; [exact H0|]. intros ->. congruence.
Qed.

Lemma weather_cache_stores (k : key) (s s1 : session) (r : pyval * option string) :
  cached_fetch_current_weather w k s = (Returned r, s1) → weather_cache s1 !! k = Some r.
Proof.
  unfold cached_fetch_current_weather. destruct k as [[[city api_key] units] lang].
  destruct (cache_data _ _ _ _ _ _) as [[r' c] l] eqn:E.
  intros H. inversion H; subst. simpl. apply (cache_data_stores _ _ _ _ _ _ _ _ E).
Qed.

Lemma forecast_cache_stores (k : key) (s s1 : session)
    (r : option DataFrame * option string) :
  cached_fetch_forecast w k s = (Returned r, s1) → forecast_cache s1 !! k = Some r.
Proof.
  unfold cached_fetch_forecast. destruct k as [[[city api_key] units] lang].
  destruct (cache_data _ _ _ _ _ _) as [[r' c] l] eqn:E.
  intros H. inversion H; subst. simpl. apply (cache_data_stores _ _ _ _ _ _ _ _ E).
Qed.

Lemma run_call_keeps (c : call) (s : session) :
  (∀ k v, weather_cache s !! k = Some v → weather_cache (run_call w c s) !! k = Some v)
  ∧ (∀ k v, forecast_cache s !! k = Some v → forecast_cache (run_call w c s) !! k = Some v).
Proof.
  destruct c as [k0|k0]; destruct k0 as [[[city api_key] units] lang]; simpl.
  - unfold cached_fetch_current_weather.
    split; intros k v H.
    + pose proof (cache_data_keeps (weather_cache s) (sent s)
                    (fun net => fetch_current_weather net city api_key units lang)
                    (key_weather_request (city, api_key, units, lang))
                    (city, api_key, units, lang) k v H) as Hk.
      destruct (cache_data _ _ _ _ _ _) as [[r' c] l]. exact Hk.
    + destruct (cache_data _ _ _ _ _ _) as [[r' c] l]. exact H.
  - unfold cached_fetch_forecast.
    split; intros k v H.
    + destruct (cache_data _ _ _ _ _ _) as [[r' c] l]. exact H.
    + pose proof (cache_data_keeps (forecast_cache s) (sent s)
                    (fun net => fetch_forecast net city api_key units lang)
                    (key_forecast_request (city, api_key, units, lang))
                    (city, api_key, units, lang) k v H) as Hk.
      destruct (cache_data _ _ _ _ _ _) as [[r' c] l]. exact Hk.
Qed.

Lemma run_calls_keep (cs : list call) (s : session) :
  (∀ k v, weather_cache s !! k = Some v → weather_cache (run_calls w cs s) !! k = Some v)
  ∧ (∀ k v, forecast_cache s !! k = Some v → forecast_cache (run_calls w cs s) !! k = Some v).
Proof.
  revert s. induction cs as [|c cs IH]; intros s; [split; auto|].
  unfold run_calls in *. simpl.
  destruct (run_call_keeps c s) as [Hw Hf].
  destruct (IH (run_call w c s)) as [Hw' Hf']. split; auto.
Qed.

(** A call that raises sends its request and stores nothing. *)
Lemma cache_data_raises {V} (cache cache' : gmap key V) (l l' : list request)
    (f : network → outcome V) (req : request) (k : key) (e : exn) :
  cache_data cache l w f req k = (Raised e, cache', l') →
  cache' = cache ∧ l' = l ++ [req].
Proof.
  unfold cache_data. destruct (cache !! k) as [v0|]; [discriminate|].
  destruct (f (w (length l))) as [v0| |]; intros H; inversion H; subst. split; reflexivity.
Qed.

Lemma weather_hit (k : key) (s : session) (r : pyval * option string) :
  weather_cache s !! k = Some r → cached_fetch_current_weather w k s = (Returned r, s).
Proof.
  intros H. unfold cached_fetch_current_weather. destruct k as [[[city api_key] units] lang].
  rewrite (cache_data_hit _ _ _ _ _ _ H). destruct s; reflexivity.
Qed.

Lemma forecast_hit (k : key) (s : session) (r : option DataFrame * option string) :
  forecast_cache s !! k = Some r → cached_fetch_forecast w k s = (Returned r, s).
Proof.
  intros H. unfold cached_fetch_forecast. destruct k as [[[city api_key] units] lang].
  rewrite (cache_data_hit _ _ _ _ _ _ H). destruct s; reflexivity.
Qed.
End Memo.

(** C9.  Within a session, once a call of a fetcher has returned [r], a
    later call of the same fetcher with the same [(city, api_key, units,
    lang)], after any other calls, returns the same [r] and leaves the
    session as it was: in particular the list of requests sent does not
    grow, no second request is made. *)
Theorem cached_fetchers_repeat (w : Session.world) (k : Session.key)
    (s : Session.session) (cs : list Session.call) :
  (∀ r s1, Session.cached_fetch_current_weather w k s = (Returned r, s1) →
     Session.cached_fetch_current_weather w k (Session.run_calls w cs s1)
     = (Returned r, Session.run_calls w cs s1))
  ∧ (∀ r s1, Session.cached_fetch_forecast w k s = (Returned r, s1) →
       Session.cached_fetch_forecast w k (Session.run_calls w cs s1)
       = (Returned r, Session.run_calls w cs s1)).
Proof.
  split; intros r s1 H.
  - apply weather_hit. apply run_calls_keep. apply (weather_cache_stores _ _ _ _ _ H).
  - apply forecast_hit. apply run_calls_keep. apply (forecast_cache_stores _ _ _ _ _ H).
Qed.

(** A session in a world that changes under it: the weather is fetched,
    then the forecast (a 404, which is cached as well); both repeated
    calls are served from the cache although the network is gone, and two
    requests were sent in all. *)
Lemma cached_fetchers_repeat_witness :
  let c1 := Session.cached_fetch_current_weather fading_world almaty Session.fresh in
  let c2 := Session.cached_fetch_forecast fading_world almaty c1.2 in
  c1.1 = Returned (almaty_payload, None)
  ∧ c2.1 = Returned (None, Some "HTTP 404: city not found")
  ∧ Session.cached_fetch_current_weather fading_world almaty c2.2 = (c1.1, c2.2)
  ∧ Session.cached_fetch_forecast fading_world almaty c2.2 = (c2.1, c2.2)
  ∧ length (Session.sent c2.2) = 2.
Proof.
  intros c1 c2.
  assert (H1 : c1.1 = Returned (almaty_payload, None)) by (vm_compute; reflexivity).
  assert (H2 : c2.1 = Returned (None, Some "HTTP 404: city not found"))
    by (vm_compute; reflexivity).
  split; [exact H1|]. split; [exact H2|]. split; [|split].
  - rewrite H1.
    apply (proj1 (cached_fetchers_repeat fading_world almaty Session.fresh
                    [Session.CallForecast almaty]) _ c1.2).
    fold c1. rewrite <- H1. destruct c1; reflexivity.
  - rewrite H2.
    apply (proj2 (cached_fetchers_repeat fading_world almaty c1.2 []) _ c2.2).
    fold c2. rewrite <- H2. destruct c2; reflexivity.
  - vm_compute. reflexivity.
Defined.

(* --------------------------------------------------------------------- *)
(** ** Flattening *)
(* --------------------------------------------------------------------- *)

Lemma dict_set_flat (d : pydict) (k : string) (v : pyval) :
  flat d → is_dict v = false → flat (dict_set d k v).
Proof.
  intros Hd Hv. induction Hd as [|[k' v'] d Hkv Hd IH]; simpl.
  - constructor; [exact Hv|constructor].
  - destruct (String.eqb k' k); constructor; auto.
Qed.

Lemma dict_merge_flat (a b : pydict) : flat a → flat b → flat (dict_merge a b).
Proof.
  intros Ha Hb. revert a Ha. unfold dict_merge.
  induction Hb as [|[k v] b Hkv Hb IH]; intros a Ha; simpl; [exact Ha|].
  apply IH. apply dict_set_flat; assumption.
Qed.

(** [_normalise_json] only ever stores values that are not dicts. *)
Lemma normalise_json_flat (data : pyval) :
  ∀ key_string acc, flat acc → flat (normalise_json data key_string acc).
Proof.
  induction data as [| b | z | r | s | l _ | d IH] using pyval_ind;
    intros key_string acc Hacc; simpl;
    try (apply dict_set_flat; [exact Hacc|reflexivity]).
  revert acc Hacc. induction IH as [|kv d Hkv _ IHd]; intros acc Hacc; [exact Hacc|].
  apply IHd. apply Hkv. exact Hacc.
Qed.

Lemma filter_scalars_flat (d : pydict) :
  flat (List.filter (fun kv => negb (is_dict kv.2)) d).
Proof.
  induction d as [|kv d IH]; simpl; [constructor|].
  destruct (is_dict kv.2) eqn:E; simpl; [exact IH|].
  constructor; assumption.
Qed.

Lemma normalise_json_ordered_flat (d : pydict) : flat (normalise_json_ordered d).
Proof.
  unfold normalise_json_ordered. apply dict_merge_flat.
  - apply filter_scalars_flat.
  - apply normalise_json_flat. constructor.
Qed.

(** A flat record is left as it is. *)
Lemma normalise_json_ordered_fixed (d : pydict) : flat d → normalise_json_ordered d = d.
Proof.
  intros Hd. unfold normalise_json_ordered.
  assert (Htop : List.filter (fun kv => negb (is_dict kv.2)) d = d).
  { induction Hd as [|kv d Hkv _ IH]; simpl; [reflexivity|]. rewrite Hkv. simpl. now rewrite IH. }
  assert (Hnested : List.filter (fun kv => is_dict kv.2) d = []).
  { clear Htop. induction Hd as [|kv d Hkv _ IH]; simpl; [reflexivity|]. rewrite Hkv. exact IH. }
  rewrite Htop, Hnested. reflexivity.
Qed.

Lemma simple_json_normalize_idempotent (v : pyval) :
  simple_json_normalize (simple_json_normalize v) = simple_json_normalize v.
Proof.
  induction v as [| b | z | r | s | l IH | d _] using pyval_ind; simpl; try reflexivity.
  - f_equal. rewrite map_map. apply map_ext_Forall. exact IH.
  - f_equal. apply normalise_json_ordered_fixed, normalise_json_ordered_flat.
Qed.

(* --------------------------------------------------------------------- *)
(** ** Frames *)
(* --------------------------------------------------------------------- *)

Lemma bind_returned {A B} (m : outcome A) (k : A → outcome B) (b : B) :
  (x ← m; k x) = Returned b → ∃ a, m = Returned a ∧ k a = Returned b.
Proof. run. destruct m as [a| |]; intros H; try discriminate. eauto. Qed.

Lemma has_column_lookup (df : DataFrame) (name : string) :
  has_column df name = match lookup_column (columns df) name with Some _ => true | None => false end.
Proof.
  unfold has_column, column_names. induction (columns df) as [|[n c] cols IH]; simpl; [reflexivity|].
  rewrite String.eqb_sym. destruct (String.eqb n name); [reflexivity|exact IH].
Qed.

Lemma lookup_set_column_eq cols name c : lookup_column (set_column cols name c) name = Some c.
Proof.
  induction cols as [|[n c'] cols IH]; simpl.
  - rewrite String.eqb_refl. reflexivity.
  - destruct (String.eqb n name) eqn:E; simpl; rewrite E; [reflexivity|exact IH].
Qed.

Lemma lookup_set_column_ne cols name name' c :
  String.eqb name name' = false →
  lookup_column (set_column cols name c) name' = lookup_column cols name'.
Proof.
  intros Hne. induction cols as [|[n c'] cols IH]; simpl.
  - rewrite Hne. reflexivity.
  - destruct (String.eqb n name) eqn:E; simpl.
    + apply String.eqb_eq in E. subst n. rewrite Hne. reflexivity.
    + destruct (String.eqb n name'); [reflexivity|exact IH].
Qed.

Lemma lookup_column_app a b name :
  lookup_column (a ++ b) name
  = match lookup_column a name with Some c => Some c | None => lookup_column b name end.
Proof.
  induction a as [|[n c] a IH]; simpl; [reflexivity|].
  destruct (String.eqb n name); [reflexivity|exact IH].
Qed.

Lemma lookup_column_pad n cols name :
  lookup_column (map (fun nc => (nc.1, pad n nc.2)) cols) name
  = option_map (pad n) (lookup_column cols name).
Proof.
  induction cols as [|[m c] cols IH]; simpl; [reflexivity|].
  destruct (String.eqb m name); [reflexivity|exact IH].
Qed.

Lemma lookup_add_prefix p df k :
  lookup_column (columns (add_prefix p df)) (p +:+ k) = lookup_column (columns df) k.
Proof.
  unfold add_prefix. simpl. induction (columns df) as [|[n c] cols IH]; simpl; [reflexivity|].
  rewrite eqb_append_l. destruct (String.eqb n k); [reflexivity|exact IH].
Qed.

Lemma lookup_add_prefix_other p df name :
  (∀ n, String.eqb (p +:+ n) name = false) →
  lookup_column (columns (add_prefix p df)) name = None.
Proof.
  intros H. unfold add_prefix. simpl.
  induction (columns df) as [|[n c] cols IH]; simpl; [reflexivity|].
  rewrite H. exact IH.
Qed.

Lemma lookup_flat_map_pad n (f : DataFrame) (fs : list DataFrame) name :
  lookup_column
    (flat_map (fun f => map (fun nc => (nc.1, pad n nc.2)) (columns f)) (f :: fs)) name
  = match option_map (pad n) (lookup_column (columns f) name) with
    | Some c => Some c
    | None =>
        lookup_column
          (flat_map (fun f => map (fun nc => (nc.1, pad n nc.2)) (columns f)) fs) name
    end.
Proof. cbn [flat_map]. rewrite lookup_column_app, lookup_column_pad. reflexivity. Qed.

Lemma lookup_pad n (c : list cell) i x : c !! i = Some x → pad n c !! i = Some x.
Proof. intros H. unfold pad. apply lookup_app_l_Some. exact H. Qed.

(** *** The defaults loop *)

Section Defaults.
Let step (result : DataFrame) (cd : string * pyval) : DataFrame :=
  if negb (has_column result cd.1) then setitem result cd.1 cd.2 else result.

Lemma step_nrows result cd : nrows (step result cd) = nrows result.
Proof. unfold step. destruct (negb _); reflexivity. Qed.

Lemma step_keeps result cd name c :
  lookup_column (columns result) name = Some c →
  lookup_column (columns (step result cd)) name = Some c.
Proof.
  intros H. unfold step. rewrite has_column_lookup.
  destruct (lookup_column (columns result) cd.1) eqn:E; simpl; [exact H|].
  rewrite lookup_set_column_ne; [exact H|].
  destruct (String.eqb cd.1 name) eqn:Heq; [|reflexivity].
  apply String.eqb_eq in Heq. congruence.
Qed.

Lemma fold_step_nrows ds result : nrows (fold_left step ds result) = nrows result.
Proof.
  revert result. induction ds as [|cd ds IH]; intros result; simpl; [reflexivity|].
  rewrite IH. apply step_nrows.
Qed.

Lemma fold_step_keeps ds result name c :
  lookup_column (columns result) name = Some c →
  lookup_column (columns (fold_left step ds result)) name = Some c.
Proof.
  revert result. induction ds as [|cd ds IH]; intros result H; simpl; [exact H|].
  apply IH. apply step_keeps. exact H.
Qed.

Lemma fold_step_adds ds result name default :
  dict_get ds name = Some default →
  lookup_column (columns result) name = None →
  lookup_column (columns (fold_left step ds result)) name
  = Some (replicate (nrows result) (CVal default)).
Proof.
  revert result. induction ds as [|[n v] ds IH]; intros result Hd Hr; simpl in *; [discriminate|].
  destruct (String.eqb n name) eqn:E.
  - apply String.eqb_eq in E. subst n. inversion Hd; subst v.
    apply fold_step_keeps. unfold step. simpl. rewrite has_column_lookup, Hr. simpl.
    apply lookup_set_column_eq.
  - rewrite IH; [rewrite step_nrows; reflexivity|exact Hd|].
    unfold step. simpl. destruct (negb _); [|exact Hr]. simpl.
    rewrite lookup_set_column_ne; [exact Hr|exact E].
Qed.

Lemma fill_defaults_nrows result : nrows (fill_defaults result) = nrows result.
Proof. apply fold_step_nrows. Qed.

Lemma fill_defaults_keeps result name c :
  lookup_column (columns result) name = Some c →
  lookup_column (columns (fill_defaults result)) name = Some c.
Proof. apply fold_step_keeps. Qed.

Lemma fill_defaults_adds result name default :
  dict_get DEFAULT_COLUMNS name = Some default →
  lookup_column (columns result) name = None →
  lookup_column (columns (fill_defaults result)) name
  = Some (replicate (nrows result) (CVal default)).
Proof. apply fold_step_adds. Qed.
End Defaults.

(** *** Frames built from records *)

Lemma as_records_map (l : list pyval) (rs : list pydict) :
  as_records l = Some rs → l = map PDict rs.
Proof.
  revert rs. induction l as [|v l IH]; intros rs H; simpl in H.
  - inversion H. reflexivity.
  - destruct v; try discriminate.
    destruct (as_records l) as [rs'|]; simpl in H; [|discriminate].
    inversion H; subst. simpl. f_equal. apply IH. reflexivity.
Qed.

Lemma as_records_of_map (rs : list pydict) : as_records (map PDict rs) = Some rs.
Proof. induction rs as [|r rs IH]; simpl; [reflexivity|]. rewrite IH. reflexivity. Qed.

Lemma map_PDict_inj (a b : list pydict) : map PDict a = map PDict b → a = b.
Proof.
  revert b. induction a as [|x a IH]; intros [|y b] H; simpl in H; try discriminate.
  - reflexivity.
  - inversion H. f_equal. apply IH. assumption.
Qed.

Lemma lookup_map {A B} (f : A → B) (l : list A) (i : nat) :
  map f l !! i = option_map f (l !! i).
Proof.
  revert i. induction l as [|x l IH]; intros [|i]; simpl; try reflexivity. apply IH.
Qed.

(** A returned frame of a non-empty list is the frame of its records. *)
Lemma DataFrame_of_list_returned (l : list pyval) (df : DataFrame) :
  DataFrame_of_list l = Returned df → l ≠ [] →
  ∃ rs, l = map PDict rs ∧ df = frame_of_records rs.
Proof.
  intros H Hne. destruct l as [|v l]; [contradiction|].
  unfold DataFrame_of_list in H. destruct v; try discriminate.
  destruct (as_records _) as [rs|] eqn:E; [|discriminate].
  inversion H; subst. exists rs. split; [|reflexivity]. apply as_records_map. exact E.
Qed.

Lemma DataFrame_of_records (rs : list pydict) :
  rs ≠ [] → DataFrame_of_list (map PDict rs) = Returned (frame_of_records rs).
Proof.
  intros Hne. destruct rs as [|r rs]; [contradiction|].
  unfold DataFrame_of_list. change (PDict r :: map PDict rs) with (map PDict (r :: rs)).
  simpl map at 1. rewrite as_records_of_map. reflexivity.
Qed.

(** *** Dtype unification *)

Lemma length_unify (col : list cell) : length (unify col) = length col.
Proof.
  unfold unify.
  repeat match goal with |- context [if ?b then _ else _] => destruct b end;
    rewrite ?length_map; reflexivity.
Qed.

Lemma existsb_false_Forall {A} (p : A → bool) (l : list A) :
  existsb p l = false → Forall (fun x => p x = false) l.
Proof.
  induction l as [|x l IH]; simpl; intros H; [constructor|].
  apply orb_false_elim in H as [Hx Hl]. constructor; auto.
Qed.

(** The ways a column is unified: it is left alone, widened to floats,
    or coerced; the last two only when it holds no list and no dict. *)
Lemma unify_cases (col : list cell) :
  unify col = col
  ∨ (Forall (fun c => is_container c = false) col
     ∧ (unify col = map to_float64 col ∨ unify col = map coerced col)).
Proof.
  unfold unify. destruct (existsb is_container col) eqn:Hc; [left; reflexivity|].
  apply existsb_false_Forall in Hc.
  repeat match goal with |- context [if ?b then _ else _] => destruct b end; auto.
Qed.

(** What is read off a cell afterwards does not see the unification. *)
Lemma unify_map {B} (f : cell → B) (col : list cell) :
  (∀ c, is_container c = false → f (to_float64 c) = f c) →
  (∀ c, is_container c = false → f (coerced c) = f c) →
  map f (unify col) = map f col.
Proof.
  intros Hf Hc. destruct (unify_cases col) as [->|[Hno [->| ->]]]; [reflexivity| |];
    rewrite map_map; apply map_ext_Forall;
    (eapply Forall_impl; [exact Hno|]); intros c Hcn; simpl; auto.
Qed.

Lemma unify_simple_json_normalize_cell (col : list cell) :
  map simple_json_normalize_cell (unify col) = map simple_json_normalize_cell col.
Proof.
  apply unify_map; intros [[]| | | |] _; reflexivity.
Qed.

Lemma unify_first_or_empty (col : list cell) :
  map first_or_empty (unify col) = map first_or_empty col.
Proof.
  apply unify_map; intros [[]| | | |] H; try reflexivity; discriminate.
Qed.

(** A missing value stays missing. *)
Lemma unify_missing (col : list cell) (i : nat) :
  col !! i = Some CNaN → unify col !! i = Some CNaN.
Proof.
  intros H. destruct (unify_cases col) as [->|[_ [->| ->]]]; [exact H| |];
    rewrite list_lookup_fmap, H; reflexivity.
Qed.

(** A column of integers alone, and a column of strings and missing
    values, are left as they are. *)
Lemma unify_int64 (col : list cell) : forallb is_int64 col = true → unify col = col.
Proof.
  intros H. unfold unify. rewrite H.
  repeat match goal with |- context [if ?b then _ else _] => destruct b end; reflexivity.
Qed.

Lemma unify_text (col : list cell) : forallb is_text_or_missing col = true → unify col = col.
Proof.
  intros H. unfold unify. rewrite H.
  repeat match goal with |- context [if ?b then _ else _] => destruct b end; reflexivity.
Qed.

Lemma unify_container (col : list cell) : existsb is_container col = true → unify col = col.
Proof. intros H. unfold unify. rewrite H. reflexivity. Qed.

(** Numbers next to a missing value are widened to floats. *)
Lemma unify_widened (col : list cell) :
  forallb is_number_or_missing col = true →
  existsb is_number col = true →
  existsb (fun c => negb (is_int64 c)) col = true →
  unify col = map to_float64 col.
Proof.
  intros Hall Hnum Hmiss. unfold unify. rewrite Hall, Hnum. cbn [andb].
  assert (Hdisj : ∀ c, is_number_or_missing c = true →
            is_container c = false ∧ is_bool c = false).
  { intros [[]| | | |]; simpl; intros Hc; try discriminate; auto. }
  assert (Hcont : existsb is_container col = false).
  { rewrite forallb_forall in Hall. destruct (existsb is_container col) eqn:E; [|reflexivity].
    apply existsb_exists in E as (c & Hin & Hc). destruct (Hdisj c (Hall c Hin)). congruence. }
  assert (Hint : forallb is_int64 col = false).
  { destruct (forallb is_int64 col) eqn:E; [|reflexivity].
    rewrite forallb_forall in E. apply existsb_exists in Hmiss as (c & Hin & Hc).
    rewrite (E c Hin) in Hc. discriminate. }
  assert (Hbool : forallb is_bool col = false).
  { destruct (forallb is_bool col) eqn:E; [|reflexivity].
    rewrite forallb_forall in E, Hall. apply existsb_exists in Hnum as (c & Hin & Hc).
    destruct (Hdisj c (Hall c Hin)) as [_ Hb]. rewrite (E c Hin) in Hb. discriminate. }
  rewrite Hcont, Hint, Hbool.
  destruct (forallb is_text_or_missing col) eqn:Htext; [|reflexivity].
  rewrite forallb_forall in Htext. apply existsb_exists in Hnum as (c & Hin & Hc).
  specialize (Htext c Hin). destruct c as [[]| | | |]; discriminate.
Qed.

Lemma lookup_frame_of_records (rs : list pydict) (k : string) (c : list cell) :
  lookup_column (columns (frame_of_records rs)) k = Some c →
  c = unify (map (record_cell k) rs).
Proof.
  unfold frame_of_records. simpl.
  induction (record_keys rs) as [|k' ks IH]; simpl; [discriminate|].
  destruct (String.eqb k' k) eqn:E; [|exact IH].
  apply String.eqb_eq in E. subst k'. intros H. inversion H. reflexivity.
Qed.

Lemma getitem_frame_of_records (rs : list pydict) (k : string) (c : list cell) :
  getitem (frame_of_records rs) k = Returned c → c = unify (map (record_cell k) rs).
Proof.
  unfold getitem. destruct (lookup_column _ k) as [c'|] eqn:E; [|discriminate].
  intros H. inversion H; subst. apply (lookup_frame_of_records _ _ _ E).
Qed.

Lemma to_datetime_length (cells ts : list cell) :
  to_datetime cells = Returned ts → length ts = length cells.
Proof.
  revert ts. induction cells as [|c cells IH]; intros ts H; simpl in H.
  - inversion H. reflexivity.
  - apply bind_returned in H as [t [_ H]]. apply bind_returned in H as [ts' [Hts H]].
    inversion H; subst. simpl. f_equal. apply IH. exact Hts.
Qed.

(** [json_normalize] returns a frame only when every item passed its
    check, and the frame is then that of the normalised items. *)
Lemma json_normalize_series_returned (cells : list cell) (df : DataFrame) :
  json_normalize_series cells = Returned df →
  forallb cell_item_ok cells = true
  ∧ DataFrame_of_list (map simple_json_normalize_cell cells) = Returned df.
Proof.
  unfold json_normalize_series. destruct (existsb cell_is_list cells); [discriminate|].
  destruct (forallb cell_item_ok cells); [auto|discriminate].
Qed.

Lemma json_normalize_returned (data : list pyval) (df : DataFrame) :
  json_normalize data = Returned df →
  forallb item_ok data = true
  ∧ DataFrame_of_list (map simple_json_normalize data) = Returned df.
Proof.
  unfold json_normalize. destruct (existsb is_list data); [discriminate|].
  destruct (forallb item_ok data); [auto|discriminate].
Qed.

(** What the steps of [forecast_frame] produced, when it returns. *)
Lemma forecast_frame_returned (list_items : pyval) (result : DataFrame) :
  forecast_frame list_items = Returned result →
  ∃ (es : list pydict) (main_rs wind_rs weather_rs : list pydict)
    (clouds_df : DataFrame) (dt : list cell),
    es ≠ [] ∧ list_items = PList (map PDict es)
    ∧ map PDict main_rs = map simple_json_normalize_cell (map (record_cell "main") es)
    ∧ map PDict wind_rs = map simple_json_normalize_cell (map (record_cell "wind") es)
    ∧ map PDict weather_rs
      = map simple_json_normalize (map first_or_empty (map (record_cell "weather") es))
    ∧ nrows clouds_df ≤ length es
    ∧ to_datetime (unify (map (record_cell "dt") es)) = Returned dt
    ∧ result
      = concat_columns
          [series "dt" dt;
           series "dt_txt" (unify (map (record_cell "dt_txt") es));
           add_prefix "main." (frame_of_records main_rs);
           add_prefix "wind." (frame_of_records wind_rs);
           add_prefix "weather." (frame_of_records weather_rs);
           add_prefix "clouds." clouds_df].
Proof.
  unfold forecast_frame. intros H.
  apply bind_returned in H as [df [Hdf H]].
  assert (Hes : ∃ es, es ≠ [] ∧ list_items = PList (map PDict es) ∧ df = frame_of_records es).
  { destruct list_items as [| | | | |l|]; simpl in Hdf; try discriminate.
    - inversion Hdf; subst. apply bind_returned in H as [c [Hc _]]. discriminate.
    - destruct l as [|v l].
      + inversion Hdf; subst. apply bind_returned in H as [c [Hc _]]. discriminate.
      + destruct (DataFrame_of_list_returned _ _ Hdf) as [es [Hl ->]]; [discriminate|].
        exists es. split; [|split; [congruence|reflexivity]].
        intros ->. discriminate. }
  destruct Hes as [es [Hne [-> ->]]].
  assert (Hlen : ∀ {A B} (f : A → B) (l : list A), es ≠ [] → length l = length es → map f l ≠ []).
  { intros A B f l Hn Hl ->%map_eq_nil. destruct es; [contradiction|discriminate]. }
  apply bind_returned in H as [main_col [Hmain H]].
  apply getitem_frame_of_records in Hmain. subst main_col.
  apply bind_returned in H as [main_df [Hmain H]].
  apply json_normalize_series_returned in Hmain as [_ Hmain].
  rewrite unify_simple_json_normalize_cell in Hmain.
  apply DataFrame_of_list_returned in Hmain as [main_rs [Hmain ->]];
    [|apply Hlen; [exact Hne|apply length_map]].
  apply bind_returned in H as [wind_col [Hwind H]].
  apply getitem_frame_of_records in Hwind. subst wind_col.
  apply bind_returned in H as [wind_df [Hwind H]].
  apply json_normalize_series_returned in Hwind as [_ Hwind].
  rewrite unify_simple_json_normalize_cell in Hwind.
  apply DataFrame_of_list_returned in Hwind as [wind_rs [Hwind ->]];
    [|apply Hlen; [exact Hne|apply length_map]].
  apply bind_returned in H as [weather_col [Hweather H]].
  apply getitem_frame_of_records in Hweather. subst weather_col.
  apply bind_returned in H as [weather_df [Hweather H]].
  apply json_normalize_returned in Hweather as [_ Hweather].
  rewrite unify_first_or_empty in Hweather.
  apply DataFrame_of_list_returned in Hweather as [weather_rs [Hweather ->]];
    [|apply Hlen; [exact Hne|rewrite !length_map; reflexivity]].
  apply bind_returned in H as [clouds_df [Hclouds H]].
  apply bind_returned in H as [dt_col [Hdt H]].
  apply getitem_frame_of_records in Hdt. subst dt_col.
  apply bind_returned in H as [dt [Hdt H]].
  apply bind_returned in H as [dt_txt [Htxt H]].
  apply getitem_frame_of_records in Htxt. subst dt_txt.
  inversion H; subst result.
  exists es, main_rs, wind_rs, weather_rs, clouds_df, dt.
  repeat split; try assumption; try (symmetry; assumption).
  destruct (lookup_column _ "clouds") as [clouds_col|] eqn:Ecl.
  - apply lookup_frame_of_records in Ecl. subst clouds_col.
    apply json_normalize_series_returned in Hclouds as [_ Hclouds].
    rewrite unify_simple_json_normalize_cell in Hclouds.
    apply DataFrame_of_list_returned in Hclouds as [clouds_rs [Hcl ->]];
      [|apply Hlen; [exact Hne|apply length_map]].
    simpl. apply (f_equal length) in Hcl. rewrite !length_map in Hcl. lia.
  - vm_compute in Hclouds. inversion Hclouds; subst. simpl.
    destruct es; [contradiction|simpl; lia].
Qed.

Lemma forecast_frame_nrows (list_items : pyval) (result : DataFrame) :
  forecast_frame list_items = Returned result →
  ∃ es, es ≠ [] ∧ list_items = PList (map PDict es) ∧ nrows result = length es.
Proof.
  intros H.
  destruct (forecast_frame_returned _ _ H)
    as (es & main_rs & wind_rs & weather_rs & clouds_df & dt
        & Hne & -> & Hmain & Hwind & Hweather & Hcl & Hdt & ->).
  exists es. split; [exact Hne|]. split; [reflexivity|].
  apply to_datetime_length in Hdt. rewrite length_unify in Hdt.
  apply (f_equal length) in Hmain, Hwind, Hweather.
  rewrite !length_map in *. simpl. rewrite length_unify, !length_map. lia.
Qed.

(** *** Columns no record contributes *)

Lemma add_keys_elem (seen ks : list string) (k : string) :
  existsb (String.eqb k) (add_keys seen ks) = true →
  existsb (String.eqb k) seen = true ∨ existsb (String.eqb k) ks = true.
Proof.
  revert seen. induction ks as [|k0 ks IH]; intros seen H; simpl in *; [auto|].
  destruct (existsb (String.eqb k0) seen).
  - destruct (IH _ H) as [Hs|Hk]; [auto|]. right. rewrite Hk. apply orb_true_r.
  - destruct (IH _ H) as [Hs|Hk].
    + rewrite existsb_app in Hs. simpl in Hs. rewrite orb_false_r in Hs.
      apply orb_prop in Hs as [Hs|Hs]; [auto|]. right. rewrite Hs. reflexivity.
    + right. rewrite Hk. apply orb_true_r.
Qed.

Lemma dict_get_None_keys (r : pydict) (k : string) :
  dict_get r k = None → existsb (String.eqb k) (dict_keys r) = false.
Proof.
  induction r as [|[k' v] r IH]; simpl; [reflexivity|].
  rewrite (String.eqb_sym k k'). destruct (String.eqb k' k); [discriminate|]. exact IH.
Qed.

Lemma record_keys_absent (rs : list pydict) (k : string) :
  Forall (fun r => dict_get r k = None) rs →
  existsb (String.eqb k) (record_keys rs) = false.
Proof.
  unfold record_keys.
  assert (H : ∀ seen, existsb (String.eqb k) seen = false →
            Forall (fun r => dict_get r k = None) rs →
            existsb (String.eqb k)
              (fold_left (fun seen r => add_keys seen (dict_keys r)) rs seen) = false).
  { induction rs as [|r rs IH]; intros seen Hs Hrs; simpl; [exact Hs|].
    inversion Hrs as [|? ? Hr Hrs']; subst. apply IH; [|exact Hrs'].
    destruct (existsb (String.eqb k) (add_keys seen (dict_keys r))) eqn:E; [|reflexivity].
    apply add_keys_elem in E as [E|E]; [congruence|].
    rewrite (dict_get_None_keys r k Hr) in E. discriminate. }
  apply H. reflexivity.
Qed.

Lemma absent_column (rs : list pydict) (k : string) :
  Forall (fun r => dict_get r k = None) rs →
  lookup_column (columns (frame_of_records rs)) k = None.
Proof.
  intros H. apply record_keys_absent in H. unfold frame_of_records. simpl.
  induction (record_keys rs) as [|k' ks IH]; simpl in *; [reflexivity|].
  rewrite (String.eqb_sym k k') in H. destruct (String.eqb k' k); [discriminate|].
  apply IH. exact H.
Qed.

Lemma lacks_records (g : pydict → pyval) (es rs : list pydict) (k : string) :
  map PDict rs = map g es →
  Forall (fun e => lacks k (g e)) es →
  Forall (fun r => dict_get r k = None) rs.
Proof.
  revert rs. induction es as [|e es IH]; intros [|r rs] Hm He; simpl in Hm;
    try discriminate; [constructor|].
  inversion Hm as [[Hr Hrs]]. inversion He as [|? ? Hl He']; subst.
  constructor; [apply Hl; symmetry; exact Hr|apply IH; assumption].
Qed.

(** A field that no entry carries gives no column. *)
Lemma forecast_frame_absent (es : list pydict) (raw : DataFrame) (k : string) :
  forecast_frame (PList (map PDict es)) = Returned raw →
  (Forall (fun e => lacks k (flattened_main e)) es →
   lookup_column (columns raw) ("main." +:+ k) = None)
  ∧ (Forall (fun e => lacks k (flattened_wind e)) es →
     lookup_column (columns raw) ("wind." +:+ k) = None)
  ∧ (Forall (fun e => lacks k (flattened_weather e)) es →
     lookup_column (columns raw) ("weather." +:+ k) = None).
Proof.
  intros H.
  destruct (forecast_frame_returned _ _ H)
    as (es0 & main_rs & wind_rs & weather_rs & clouds_df & dt
        & _ & Hes0 & Hmain & Hwind & Hweather & _ & _ & ->).
  inversion Hes0 as [Hes1]. apply map_PDict_inj in Hes1. subst es0. clear Hes0. rewrite map_map in Hmain, Hwind. rewrite !map_map in Hweather.
  unfold concat_columns. set (n := fold_right Nat.max 0 _). cbn [columns].
  rewrite !lookup_flat_map_pad. cbn [flat_map lookup_column].
  repeat split; intros Hl.
  - change (lookup_column (columns (series "dt" dt)) ("main." +:+ k))
      with (@None (list cell)).
    change (lookup_column (columns (series "dt_txt" (map (record_cell "dt_txt") es)))
              ("main." +:+ k)) with (@None (list cell)).
    rewrite lookup_add_prefix, (absent_column main_rs k)
      by (apply (lacks_records _ es _ _ Hmain Hl)).
    rewrite (lookup_add_prefix_other "wind.") by (intros; reflexivity).
    rewrite (lookup_add_prefix_other "weather.") by (intros; reflexivity).
    rewrite (lookup_add_prefix_other "clouds.") by (intros; reflexivity).
    reflexivity.
  - change (lookup_column (columns (series "dt" dt)) ("wind." +:+ k))
      with (@None (list cell)).
    change (lookup_column (columns (series "dt_txt" (map (record_cell "dt_txt") es)))
              ("wind." +:+ k)) with (@None (list cell)).
    rewrite lookup_add_prefix, (absent_column wind_rs k)
      by (apply (lacks_records _ es _ _ Hwind Hl)).
    rewrite (lookup_add_prefix_other "main.") by (intros; reflexivity).
    rewrite (lookup_add_prefix_other "weather.") by (intros; reflexivity).
    rewrite (lookup_add_prefix_other "clouds.") by (intros; reflexivity).
    reflexivity.
  - change (lookup_column (columns (series "dt" dt)) ("weather." +:+ k))
      with (@None (list cell)).
    change (lookup_column (columns (series "dt_txt" (map (record_cell "dt_txt") es)))
              ("weather." +:+ k)) with (@None (list cell)).
    rewrite lookup_add_prefix, (absent_column weather_rs k)
      by (apply (lacks_records _ es _ _ Hweather Hl)).
    rewrite (lookup_add_prefix_other "main.") by (intros; reflexivity).
    rewrite (lookup_add_prefix_other "wind.") by (intros; reflexivity).
    rewrite (lookup_add_prefix_other "clouds.") by (intros; reflexivity).
    reflexivity.
Qed.

(* --------------------------------------------------------------------- *)
(** ** The forecast fetcher *)
(* --------------------------------------------------------------------- *)

(** A returned table comes from an HTTP 200 whose body is an object with
    a non-empty [list], through [forecast_frame] and the defaults loop. *)
Lemma fetch_forecast_table (net : network) (city api_key units lang : string)
    (table : DataFrame) (err : option string) :
  fetch_forecast net city api_key units lang = Returned (Some table, err) →
  ∃ resp d raw,
    net (forecast_request city api_key units lang) = inr resp
    ∧ status_code resp = 200%Z
    ∧ json resp = inr (PDict d)
    ∧ py_truthy (field d "list" (PList [])) = true
    ∧ forecast_frame (field d "list" (PList [])) = Returned raw
    ∧ table = fill_defaults raw ∧ err = None.
Proof.
  intros H.
  destruct (net (forecast_request city api_key units lang)) as [e|resp] eqn:Hnet.
  - unfold fetch_forecast, requests_get in H. unfold forecast_request in Hnet.
    rewrite Hnet in H. destruct e; discriminate.
  - destruct (decide (status_code resp = 200%Z)) as [Hs|Hs].
    + rewrite (fetch_forecast_ok _ _ _ _ _ _ Hnet Hs) in H.
      unfold response_json, of_sum in H. run.
      destruct (json resp) as [e|data] eqn:Hj; [destruct e; discriminate|].
      destruct data as [| | | | | |d]; try discriminate. simpl in H.
      fold (field d "list" (PList [])) in H.
      destruct (py_truthy (field d "list" (PList []))) eqn:Ht; simpl in H; [|discriminate].
      destruct (forecast_frame (field d "list" (PList []))) as [raw|e|] eqn:Hf;
        simpl in H; [|destruct e; discriminate|discriminate].
      inversion H; subst. exists resp, d, raw. auto 10.
    + destruct (fetch_forecast_http_error _ _ _ _ _ _ Hnet Hs) as [m [_ Hm]].
      rewrite Hm in H. discriminate.
Qed.

(** C2, as the specification states it, fails.  It takes an HTTP 200
    with a non-empty [list] for success and promises the five columns
    even when the fields are absent from the entries.  The sub-objects
    are read with [df["main"]], [df["wind"]] and [df["weather"]]: on
    entries that carry the times and nothing else no table is returned,
    the fetcher raises KeyError. *)
Lemma fetch_forecast_sections_absent :
  status_code times_only_200 = 200%Z
  ∧ (∃ d, json times_only_200 = inr (PDict d)
          ∧ py_truthy (field d "list" (PList [])) = true)
  ∧ fetch_forecast (always times_only_200) "Almaty" "k" "metric" "ru"
    = Raised (KeyError "main")
  ∧ ¬ (∃ table err,
         fetch_forecast (always times_only_200) "Almaty" "k" "metric" "ru"
         = Returned (Some table, err)).
Proof.
  split; [reflexivity|]. split; [eexists; split; reflexivity|].
  assert (H : fetch_forecast (always times_only_200) "Almaty" "k" "metric" "ru"
              = Raised (KeyError "main")) by reflexivity.
  split; [exact H|]. intros (table & err & Ht). rewrite H in Ht. discriminate.
Qed.

(** C2, amended.  Whenever [fetch_forecast] returns a table, the table
    comes from an HTTP 200 through [forecast_frame] and the defaults
    loop, and it has the five columns main.temp, main.feels_like,
    main.humidity, wind.speed and weather.description.  A column the
    flattened entries did produce is kept as it is; a column they did not
    produce holds its default in every row.  In particular, for a [list]
    of entries [es], the table has one row per entry and, when no entry
    carries the field, the four numeric columns hold [None] and the
    description the empty string. *)
Theorem fetch_forecast_columns (net : network) (city api_key units lang : string)
    (table : DataFrame) (err : option string) :
  fetch_forecast net city api_key units lang = Returned (Some table, err) →
  ∃ resp d raw,
    net (forecast_request city api_key units lang) = inr resp
    ∧ status_code resp = 200%Z
    ∧ json resp = inr (PDict d)
    ∧ forecast_frame (field d "list" (PList [])) = Returned raw
    ∧ table = fill_defaults raw
    ∧ err = None
    ∧ Forall (fun col => has_column table col = true)
        ["main.temp"; "main.feels_like"; "main.humidity"; "wind.speed"; "weather.description"]
    ∧ (∀ col default, dict_get DEFAULT_COLUMNS col = Some default →
         lookup_column (columns table) col
         = Some (match lookup_column (columns raw) col with
                 | Some cells => cells
                 | None => replicate (nrows table) (CVal default)
                 end))
    ∧ ∀ es, field d "list" (PList []) = PList (map PDict es) →
        nrows table = length es
        ∧ (Forall (fun e => lacks "temp" (flattened_main e)) es →
           lookup_column (columns table) "main.temp"
           = Some (replicate (length es) (CVal PNone)))
        ∧ (Forall (fun e => lacks "feels_like" (flattened_main e)) es →
           lookup_column (columns table) "main.feels_like"
           = Some (replicate (length es) (CVal PNone)))
        ∧ (Forall (fun e => lacks "humidity" (flattened_main e)) es →
           lookup_column (columns table) "main.humidity"
           = Some (replicate (length es) (CVal PNone)))
        ∧ (Forall (fun e => lacks "speed" (flattened_wind e)) es →
           lookup_column (columns table) "wind.speed"
           = Some (replicate (length es) (CVal PNone)))
        ∧ (Forall (fun e => lacks "description" (flattened_weather e)) es →
           lookup_column (columns table) "weather.description"
           = Some (replicate (length es) (CVal (PStr "")))).
Proof.
  intros H. destruct (fetch_forecast_table _ _ _ _ _ _ _ H)
    as (resp & d & raw & Hnet & Hs & Hj & Ht & Hf & -> & ->).
  exists resp, d, raw. repeat (split; [assumption || reflexivity|]).
  assert (Hcols : ∀ col default, dict_get DEFAULT_COLUMNS col = Some default →
            lookup_column (columns (fill_defaults raw)) col
            = Some (match lookup_column (columns raw) col with
                    | Some cells => cells
                    | None => replicate (nrows (fill_defaults raw)) (CVal default)
                    end)).
  { intros col default Hd. destruct (lookup_column (columns raw) col) as [cells|] eqn:E.
    - apply fill_defaults_keeps. exact E.
    - rewrite fill_defaults_nrows. apply fill_defaults_adds; assumption. }
  split.
  { repeat constructor; rewrite has_column_lookup;
      match goal with |- context [lookup_column _ ?c] =>
        destruct (dict_get DEFAULT_COLUMNS c) as [v|] eqn:Ed; [|discriminate];
        rewrite (Hcols c v Ed) end; reflexivity. }
  split; [exact Hcols|].
  intros es Hlist. rewrite Hlist in Hf.
  destruct (forecast_frame_nrows _ _ Hf) as (es0 & _ & Hes0 & Hn).
  inversion Hes0 as [Hes1]. apply map_PDict_inj in Hes1. subst es0. clear Hes0.
  assert (Hrows : nrows (fill_defaults raw) = length es)
    by (rewrite fill_defaults_nrows; exact Hn).
  split; [exact Hrows|].
  destruct (forecast_frame_absent es raw "temp" Hf) as (Htemp & _ & _).
  destruct (forecast_frame_absent es raw "feels_like" Hf) as (Hfeels & _ & _).
  destruct (forecast_frame_absent es raw "humidity" Hf) as (Hhum & _ & _).
  destruct (forecast_frame_absent es raw "speed" Hf) as (_ & Hspeed & _).
  destruct (forecast_frame_absent es raw "description" Hf) as (_ & _ & Hdesc).
  repeat split; intros Hl.
  - rewrite (Hcols "main.temp" PNone eq_refl), Hrows.
    change "main.temp" with ("main." +:+ "temp"). rewrite (Htemp Hl). reflexivity.
  - rewrite (Hcols "main.feels_like" PNone eq_refl), Hrows.
    change "main.feels_like" with ("main." +:+ "feels_like"). rewrite (Hfeels Hl). reflexivity.
  - rewrite (Hcols "main.humidity" PNone eq_refl), Hrows.
    change "main.humidity" with ("main." +:+ "humidity"). rewrite (Hhum Hl). reflexivity.
  - rewrite (Hcols "wind.speed" PNone eq_refl), Hrows.
    change "wind.speed" with ("wind." +:+ "speed"). rewrite (Hspeed Hl). reflexivity.
  - rewrite (Hcols "weather.description" (PStr "") eq_refl), Hrows.
    change "weather.description" with ("weather." +:+ "description").
    rewrite (Hdesc Hl). reflexivity.
Qed.

(** The bare entry has none of the five fields: every one of the five
    columns is created by the defaults loop. *)
Lemma fetch_forecast_columns_witness :
  fetch_forecast (always (forecast_200 (PList [PDict bare_entry]))) "Almaty" "k" "metric" "ru"
  = Returned (Some bare_table, None)
  ∧ Forall (fun col => has_column bare_table col = true)
      ["main.temp"; "main.feels_like"; "main.humidity"; "wind.speed"; "weather.description"]
  ∧ lookup_column (columns bare_table) "weather.description" = Some [CVal (PStr "")].
Proof.
  split; [reflexivity|].
  destruct (fetch_forecast_columns
              (always (forecast_200 (PList [PDict bare_entry]))) "Almaty" "k" "metric" "ru"
              bare_table None eq_refl)
    as (resp & d & raw & Hnet & _ & Hj & _ & _ & _ & Hhas & _ & Hes).
  split; [exact Hhas|].
  inversion Hnet; subst resp. inversion Hj; subst d.
  destruct (Hes [bare_entry] eq_refl) as (_ & _ & _ & _ & _ & Hdesc).
  apply Hdesc. repeat constructor. intros r Hr. vm_compute in Hr. inversion Hr. reflexivity.
Defined.

(** C3, as the specification states it, fails.  An HTTP 200 whose body is
    the JSON literal [null] has no [list] field, and [fetch_forecast] does
    not return the empty-list error for it: [data.get] of line 41 raises
    AttributeError, which the handler of line 74 does not catch. *)
Lemma fetch_forecast_null_body :
  status_code null_200 = 200%Z
  ∧ fetch_forecast (always null_200) "Almaty" "k" "metric" "ru"
    = Raised (AttributeError "object has no attribute 'get'")
  ∧ fetch_forecast (always null_200) "Almaty" "k" "metric" "ru"
    ≠ Returned (None, Some "Empty forecast list from API").
Proof. split; [reflexivity|]. split; [reflexivity|]. vm_compute. discriminate. Qed.

(** C3, amended.  An HTTP 200 whose body is a JSON object with a missing
    or empty (falsy) [list] field makes [fetch_forecast] return
    [(None, "Empty forecast list from API")]; a body that is not an
    object makes it raise AttributeError; and when the [list] field is a
    JSON array, a table it returns has at least one row. *)
Theorem fetch_forecast_empty_list (net : network) (city api_key units lang : string)
    (resp : response) :
  net (forecast_request city api_key units lang) = inr resp →
  status_code resp = 200%Z →
  (∀ d, json resp = inr (PDict d) →
        py_truthy (field d "list" (PList [])) = false →
        fetch_forecast net city api_key units lang
        = Returned (None, Some "Empty forecast list from API"))
  ∧ (∀ body, json resp = inr body → is_dict body = false →
        fetch_forecast net city api_key units lang
        = Raised (AttributeError "object has no attribute 'get'"))
  ∧ (∀ d items table err,
        json resp = inr (PDict d) →
        field d "list" (PList []) = PList items →
        fetch_forecast net city api_key units lang = Returned (Some table, err) →
        0 < nrows table).
Proof.
  intros Hnet Hs. split; [|split].
  - intros d Hj Ht.
    rewrite (fetch_forecast_ok _ _ _ _ _ _ Hnet Hs).
    unfold response_json, of_sum. rewrite Hj. run. simpl.
    fold (field d "list" (PList [])). rewrite Ht. reflexivity.
  - intros body Hj Hd.
    rewrite (fetch_forecast_ok _ _ _ _ _ _ Hnet Hs).
    unfold response_json, of_sum. rewrite Hj. run.
    destruct body; try discriminate; reflexivity.
  - intros d items table err Hj Hlist H.
    destruct (fetch_forecast_table _ _ _ _ _ _ _ H)
      as (resp' & d' & raw & Hnet' & _ & Hj' & _ & Hf & -> & _).
    rewrite fill_defaults_nrows.
    destruct (forecast_frame_nrows _ _ Hf) as [es [Hne [_ ->]]].
    destruct es; [contradiction|simpl; lia].
Qed.

Lemma fetch_forecast_empty_list_witness :
  fetch_forecast (always (forecast_200 (PList []))) "Almaty" "k" "metric" "ru"
  = Returned (None, Some "Empty forecast list from API")
  ∧ fetch_forecast (always no_list_200) "Almaty" "k" "metric" "ru"
    = Returned (None, Some "Empty forecast list from API")
  ∧ fetch_forecast (always array_200) "Almaty" "k" "metric" "ru"
    = Raised (AttributeError "object has no attribute 'get'")
  ∧ 0 < nrows bare_table.
Proof.
  split; [|split; [|split]].
  - apply (proj1 (fetch_forecast_empty_list
                    (always (forecast_200 (PList []))) "Almaty" "k" "metric" "ru"
                    (forecast_200 (PList [])) eq_refl eq_refl)
             [("cod", PStr "200"); ("list", PList [])]);
      reflexivity.
  - apply (proj1 (fetch_forecast_empty_list (always no_list_200) "Almaty" "k" "metric" "ru"
                    no_list_200 eq_refl eq_refl)
             [("cod", PStr "200")]);
      reflexivity.
  - apply (proj1 (proj2 (fetch_forecast_empty_list (always array_200)
                           "Almaty" "k" "metric" "ru" array_200 eq_refl eq_refl))
             (PList [PInt 1]));
      reflexivity.
  - apply (proj2 (proj2 (fetch_forecast_empty_list
                           (always (forecast_200 (PList [PDict bare_entry])))
                           "Almaty" "k" "metric" "ru"
                           (forecast_200 (PList [PDict bare_entry])) eq_refl eq_refl))
             [("cod", PStr "200"); ("list", PList [PDict bare_entry])]
             [PDict bare_entry] bare_table None);
      reflexivity.
Defined.

(* --------------------------------------------------------------------- *)
(** ** The steps of [forecast_frame] *)
(* --------------------------------------------------------------------- *)

Lemma length_pad (n : nat) (c : list cell) : length c ≤ n → length (pad n c) = n.
Proof. intros H. unfold pad. rewrite length_app, length_replicate. lia. Qed.

Lemma pad_full (n : nat) (c : list cell) : length c = n → pad n c = c.
Proof. intros <-. unfold pad. rewrite Nat.sub_diag. apply app_nil_r. Qed.

(** Where each name is found in the concatenated frame. *)
Lemma concat_lookup (dt txt : list cell) (M W X C : DataFrame) (k : string) :
  let raw :=
    concat_columns
      [series "dt" dt; series "dt_txt" txt; add_prefix "main." M; add_prefix "wind." W;
       add_prefix "weather." X; add_prefix "clouds." C] in
  lookup_column (columns raw) "dt" = Some (pad (nrows raw) dt)
  ∧ lookup_column (columns raw) "dt_txt" = Some (pad (nrows raw) txt)
  ∧ lookup_column (columns raw) ("main." +:+ k)
    = option_map (pad (nrows raw)) (lookup_column (columns M) k)
  ∧ lookup_column (columns raw) ("wind." +:+ k)
    = option_map (pad (nrows raw)) (lookup_column (columns W) k)
  ∧ lookup_column (columns raw) ("weather." +:+ k)
    = option_map (pad (nrows raw)) (lookup_column (columns X) k)
  ∧ lookup_column (columns raw) ("clouds." +:+ k)
    = option_map (pad (nrows raw)) (lookup_column (columns C) k).
Proof.
  intros raw. subst raw. unfold concat_columns. cbn [nrows columns].
  set (n := foldr Nat.max 0 _). clearbody n.
  rewrite !lookup_flat_map_pad. cbn [flat_map lookup_column].
  split; [reflexivity|]. split; [reflexivity|].
  split; [|split; [|split]].
  - rewrite (lookup_add_prefix_other "wind.") by (intros; reflexivity).
    rewrite (lookup_add_prefix_other "weather.") by (intros; reflexivity).
    rewrite (lookup_add_prefix_other "clouds.") by (intros; reflexivity).
    rewrite lookup_add_prefix. destruct (lookup_column (columns M) k); reflexivity.
  - rewrite (lookup_add_prefix_other "main.") by (intros; reflexivity).
    rewrite (lookup_add_prefix_other "weather.") by (intros; reflexivity).
    rewrite (lookup_add_prefix_other "clouds.") by (intros; reflexivity).
    rewrite lookup_add_prefix. destruct (lookup_column (columns W) k); reflexivity.
  - rewrite (lookup_add_prefix_other "main.") by (intros; reflexivity).
    rewrite (lookup_add_prefix_other "wind.") by (intros; reflexivity).
    rewrite (lookup_add_prefix_other "clouds.") by (intros; reflexivity).
    rewrite lookup_add_prefix. destruct (lookup_column (columns X) k); reflexivity.
  - rewrite (lookup_add_prefix_other "main.") by (intros; reflexivity).
    rewrite (lookup_add_prefix_other "wind.") by (intros; reflexivity).
    rewrite (lookup_add_prefix_other "weather.") by (intros; reflexivity).
    rewrite lookup_add_prefix. destruct (lookup_column (columns C) k); reflexivity.
Qed.

Lemma add_keys_seen (seen ks : list string) (k : string) :
  existsb (String.eqb k) seen = true → existsb (String.eqb k) (add_keys seen ks) = true.
Proof.
  revert seen. induction ks as [|k0 ks IH]; intros seen H; simpl; [exact H|].
  destruct (existsb (String.eqb k0) seen); apply IH; [exact H|].
  rewrite existsb_app, H. reflexivity.
Qed.

Lemma add_keys_new (seen ks : list string) (k : string) :
  existsb (String.eqb k) ks = true → existsb (String.eqb k) (add_keys seen ks) = true.
Proof.
  revert seen. induction ks as [|k0 ks IH]; intros seen H; simpl in *; [discriminate|].
  apply orb_prop in H as [H|H].
  - apply String.eqb_eq in H. subst k0.
    destruct (existsb (String.eqb k) seen) eqn:E; apply add_keys_seen; [exact E|].
    rewrite existsb_app. simpl. rewrite String.eqb_refl. apply orb_true_r.
  - destruct (existsb (String.eqb k0) seen); apply IH; exact H.
Qed.

Lemma dict_get_Some_keys (r : pydict) (k : string) (v : pyval) :
  dict_get r k = Some v → existsb (String.eqb k) (dict_keys r) = true.
Proof.
  induction r as [|[k' v'] r IH]; simpl; [discriminate|].
  rewrite (String.eqb_sym k k'). destruct (String.eqb k' k); [reflexivity|]. exact IH.
Qed.

Lemma record_keys_present (rs : list pydict) (r : pydict) (k : string) (v : pyval) :
  In r rs → dict_get r k = Some v → existsb (String.eqb k) (record_keys rs) = true.
Proof.
  unfold record_keys. intros Hin Hk.
  assert (H : ∀ seen,
            existsb (String.eqb k)
              (fold_left (fun seen r => add_keys seen (dict_keys r)) rs seen) = true).
  { induction rs as [|r0 rs IH]; intros seen; [contradiction|]. simpl.
    destruct Hin as [->|Hin].
    - clear IH.
      assert (Hs : existsb (String.eqb k) (add_keys seen (dict_keys r)) = true)
        by (apply add_keys_new, (dict_get_Some_keys _ _ _ Hk)).
      revert Hs. generalize (add_keys seen (dict_keys r)). clear.
      induction rs as [|r1 rs IH]; intros seen Hs; simpl; [exact Hs|].
      apply IH, add_keys_seen, Hs.
    - apply IH. exact Hin. }
  apply H.
Qed.

Lemma getitem_present (rs : list pydict) (k : string) :
  existsb (String.eqb k) (record_keys rs) = true →
  getitem (frame_of_records rs) k = Returned (unify (map (record_cell k) rs)).
Proof.
  unfold getitem, frame_of_records. simpl.
  induction (record_keys rs) as [|k' ks IH]; simpl; [discriminate|].
  rewrite (String.eqb_sym k k'). destruct (String.eqb k' k) eqn:E; simpl.
  - apply String.eqb_eq in E. subst k'. reflexivity.
  - exact IH.
Qed.

(** A field that some record carries gives a column: the unified column
    of the field's values. *)
Lemma present_column (rs : list pydict) (r : pydict) (k : string) (v : pyval) :
  In r rs → dict_get r k = Some v →
  lookup_column (columns (frame_of_records rs)) k = Some (unify (map (record_cell k) rs)).
Proof.
  intros Hin Hk. pose proof (getitem_present rs k (record_keys_present rs r k v Hin Hk)) as H.
  unfold getitem in H. destruct (lookup_column _ k); inversion H. reflexivity.
Qed.

Lemma getitem_absent (rs : list pydict) (k : string) :
  Forall (fun r => dict_get r k = None) rs →
  getitem (frame_of_records rs) k = Raised (KeyError k).
Proof. intros H. unfold getitem. rewrite (absent_column rs k H). reflexivity. Qed.

Lemma key_somewhere_or_nowhere (rs : list pydict) (k : string) :
  Exists (fun r => dict_get r k ≠ None) rs ∨ Forall (fun r => dict_get r k = None) rs.
Proof.
  induction rs as [|r rs [IH|IH]].
  - right. constructor.
  - left. apply Exists_cons_tl. exact IH.
  - destruct (dict_get r k) as [v|] eqn:E.
    + left. apply Exists_cons_hd. rewrite E. discriminate.
    + right. constructor; assumption.
Qed.

Lemma getitem_returned_present (rs : list pydict) (k : string) (c : list cell) :
  getitem (frame_of_records rs) k = Returned c →
  Exists (fun r => dict_get r k ≠ None) rs.
Proof.
  intros H. destruct (key_somewhere_or_nowhere rs k) as [He|Hn]; [exact He|].
  rewrite (getitem_absent rs k Hn) in H. discriminate.
Qed.

Lemma exists_present_column (rs : list pydict) (k : string) :
  Exists (fun r => dict_get r k ≠ None) rs →
  lookup_column (columns (frame_of_records rs)) k = Some (unify (map (record_cell k) rs)).
Proof.
  intros H. apply List.Exists_exists in H as (r & Hin & Hk).
  destruct (dict_get r k) as [v|] eqn:E; [|contradiction].
  apply (present_column rs r k v Hin E).
Qed.

(** What every step of [forecast_frame] produced, when it returns: the
    columns read from the frame of the entries, the records each
    sub-object was flattened to, and the concatenated result. *)
Lemma forecast_frame_parts (es : list pydict) (raw : DataFrame) :
  forecast_frame (PList (map PDict es)) = Returned raw →
  es ≠ []
  ∧ Forall (fun k => getitem (frame_of_records es) k
                     = Returned (unify (map (record_cell k) es)))
      REQUIRED_KEYS
  ∧ ∃ (main_rs wind_rs weather_rs clouds_rs : list pydict) (dt : list cell),
      map PDict main_rs = map flattened_main es
      ∧ map PDict wind_rs = map flattened_wind es
      ∧ map PDict weather_rs = map flattened_weather es
      ∧ match lookup_column (columns (frame_of_records es)) "clouds" with
        | Some _ => map PDict clouds_rs = map flattened_clouds es
        | None => clouds_rs = [[]]
        end
      ∧ to_datetime (unify (map (record_cell "dt") es)) = Returned dt
      ∧ raw
        = concat_columns
            [series "dt" dt;
             series "dt_txt" (unify (map (record_cell "dt_txt") es));
             add_prefix "main." (frame_of_records main_rs);
             add_prefix "wind." (frame_of_records wind_rs);
             add_prefix "weather." (frame_of_records weather_rs);
             add_prefix "clouds." (frame_of_records clouds_rs)].
Proof.
  intros H.
  destruct (forecast_frame_nrows _ _ H) as (es0 & Hne & Hes0 & _).
  inversion Hes0 as [Hes1]. apply map_PDict_inj in Hes1. subst es0. clear Hes0.
  split; [exact Hne|].
  assert (Hlen : ∀ {A B} (f : A → B) (l : list A), length l = length es → map f l ≠ []).
  { intros A B f l Hl ->%map_eq_nil. destruct es; [contradiction|discriminate]. }
  unfold forecast_frame in H. simpl DataFrame_ctor in H.
  rewrite (DataFrame_of_records es Hne) in H.
  apply bind_returned in H as [df [Hdf H]]. inversion Hdf; subst df. clear Hdf.
  apply bind_returned in H as [main_col [Gmain H]].
  pose proof (getitem_frame_of_records _ _ _ Gmain) as ->.
  apply bind_returned in H as [main_df [Dmain H]].
  apply json_normalize_series_returned in Dmain as [_ Dmain].
  rewrite unify_simple_json_normalize_cell in Dmain.
  apply DataFrame_of_list_returned in Dmain as [main_rs [Hmain ->]];
    [|apply Hlen; apply length_map].
  apply bind_returned in H as [wind_col [Gwind H]].
  pose proof (getitem_frame_of_records _ _ _ Gwind) as ->.
  apply bind_returned in H as [wind_df [Dwind H]].
  apply json_normalize_series_returned in Dwind as [_ Dwind].
  rewrite unify_simple_json_normalize_cell in Dwind.
  apply DataFrame_of_list_returned in Dwind as [wind_rs [Hwind ->]];
    [|apply Hlen; apply length_map].
  apply bind_returned in H as [weather_col [Gweather H]].
  pose proof (getitem_frame_of_records _ _ _ Gweather) as ->.
  apply bind_returned in H as [weather_df [Dweather H]].
  apply json_normalize_returned in Dweather as [_ Dweather].
  rewrite unify_first_or_empty in Dweather.
  apply DataFrame_of_list_returned in Dweather as [weather_rs [Hweather ->]];
    [|apply Hlen; rewrite !length_map; reflexivity].
  apply bind_returned in H as [clouds_df [Dclouds H]].
  apply bind_returned in H as [dt_col [Gdt H]].
  pose proof (getitem_frame_of_records _ _ _ Gdt) as ->.
  apply bind_returned in H as [dt [Hdt H]].
  apply bind_returned in H as [txt_col [Gtxt H]].
  pose proof (getitem_frame_of_records _ _ _ Gtxt) as ->.
  inversion H as [Hraw]. clear H.
  split; [repeat constructor; assumption|].
  rewrite map_map in Hmain, Hwind. rewrite !map_map in Hweather.
  destruct (lookup_column (columns (frame_of_records es)) "clouds") as [clouds_col|] eqn:Ecl.
  - apply lookup_frame_of_records in Ecl. subst clouds_col.
    apply json_normalize_series_returned in Dclouds as [_ Dclouds].
    rewrite unify_simple_json_normalize_cell in Dclouds.
    apply DataFrame_of_list_returned in Dclouds as [clouds_rs [Hclouds ->]];
      [|apply Hlen; apply length_map].
    rewrite map_map in Hclouds.
    exists main_rs, wind_rs, weather_rs, clouds_rs, dt. auto 10.
  - vm_compute in Dclouds. inversion Dclouds; subst clouds_df.
    exists main_rs, wind_rs, weather_rs, [[]], dt. auto 10.
Qed.

(** Row [i] of the frame of the flattened sub-objects [g e]. *)
Lemma subframe_row (rs es : list pydict) (g : pydict → pyval) (i : nat) (e : pydict) :
  map PDict rs = map g es → es !! i = Some e →
  ∃ r, rs !! i = Some r ∧ g e = PDict r.
Proof.
  intros Hm Hi.
  assert (H : map PDict rs !! i = Some (g e)) by (rewrite Hm, lookup_map, Hi; reflexivity).
  rewrite lookup_map in H. destruct (rs !! i) as [r|]; simpl in H; [|discriminate].
  inversion H. eauto.
Qed.

(** A column of a sub-frame, as it stands in the concatenated frame: the
    unified column of the field's values, one cell per entry. *)
Lemma subframe_column (rs : list pydict) (k : string) (n : nat) :
  length rs = n →
  option_map (pad n) (lookup_column (columns (frame_of_records rs)) k)
  = match lookup_column (columns (frame_of_records rs)) k with
    | Some _ => Some (unify (map (record_cell k) rs))
    | None => None
    end.
Proof.
  intros Hn. destruct (lookup_column _ k) as [c|] eqn:E; [|reflexivity].
  apply lookup_frame_of_records in E. subst c. simpl. f_equal.
  apply pad_full. rewrite length_unify, length_map. exact Hn.
Qed.

(* --------------------------------------------------------------------- *)
(** ** Well-formed entries always give a frame *)
(* --------------------------------------------------------------------- *)

Lemma records_of_dicts (l : list pyval) :
  Forall (fun v => ∃ r, v = PDict r) l → ∃ rs, l = map PDict rs.
Proof.
  induction 1 as [|v l [r ->] _ [rs ->]]; [exists []; reflexivity|].
  exists (r :: rs). reflexivity.
Qed.

Lemma DataFrame_of_dicts (l : list pyval) :
  l ≠ [] → Forall (fun v => ∃ r, v = PDict r) l → ∃ df, DataFrame_of_list l = Returned df.
Proof.
  intros Hne Hl. destruct (records_of_dicts l Hl) as [rs ->].
  exists (frame_of_records rs). apply DataFrame_of_records. intros ->. contradiction.
Qed.

(** A column of objects and missing values passes the check of
    [json_normalize], before and after its dtype is settled. *)
Lemma unify_objects (col : list cell) :
  Forall (fun c => object_or_missing c = true) col →
  existsb cell_is_list (unify col) = false ∧ forallb cell_item_ok (unify col) = true.
Proof.
  intros H.
  assert (Hf : ∀ (f : cell → cell),
            (∀ c, object_or_missing c = true →
                  cell_is_list (f c) = false ∧ cell_item_ok (f c) = true) →
            existsb cell_is_list (map f col) = false
            ∧ forallb cell_item_ok (map f col) = true).
  { intros f Hfc. induction H as [|c col Hc _ IH]; simpl; [auto|].
    destruct (Hfc c Hc) as [-> ->]. exact IH. }
  destruct (unify_cases col) as [->|[_ [->| ->]]].
  - rewrite <- (map_id col). apply Hf. intros [[]| | | |]; simpl; intros; try discriminate; auto.
  - apply Hf. intros [[]| | | |]; simpl; intros; try discriminate; auto.
  - apply Hf. intros [[]| | | |]; simpl; intros; try discriminate; auto.
Qed.

Lemma json_normalize_series_objects (col : list cell) :
  col ≠ [] → Forall (fun c => object_or_missing c = true) col →
  ∃ df, json_normalize_series (unify col) = Returned df.
Proof.
  intros Hne H. unfold json_normalize_series.
  destruct (unify_objects col H) as [-> ->].
  rewrite unify_simple_json_normalize_cell.
  apply DataFrame_of_dicts.
  - intros Hm. apply map_eq_nil in Hm. contradiction.
  - apply Forall_fmap. eapply Forall_impl; [exact H|].
    intros [[]| | | |]; simpl; intros; try discriminate; eauto.
Qed.

Lemma seconds_in_range_int64 (c : cell) : seconds_in_range c = true → is_int64 c = true.
Proof.
  destruct c as [[]| | | |]; simpl; try discriminate. unfold MAX_SECONDS.
  intros H. apply andb_prop in H as [H1 H2]. apply andb_true_intro. split; lia.
Qed.

Lemma to_datetime_seconds (col : list cell) :
  Forall (fun c => seconds_in_range c = true) col →
  ∃ dt, to_datetime col = Returned dt.
Proof.
  induction 1 as [|c col Hc _ [dt IH]]; simpl; [eauto|].
  destruct c as [[]| | | |]; simpl in Hc; try discriminate.
  simpl. rewrite Hc, IH. run. eauto.
Qed.

(** On well-formed entries [forecast_frame] returns. *)
Lemma forecast_frame_total (es : list pydict) :
  entries_well_formed es = true →
  ∃ result, forecast_frame (PList (map PDict es)) = Returned result.
Proof.
  unfold entries_well_formed. intros H.
  apply andb_prop in H as [H Hall]. apply andb_prop in H as [Hne Hkeys].
  assert (Hes : es ≠ []) by (intros ->; discriminate).
  simpl in Hkeys.
  repeat (apply andb_prop in Hkeys as [?Hk Hkeys]).
  rewrite forallb_forall in Hall.
  assert (Hmapne : ∀ {A B} (f : A → B) (l : list A), l ≠ [] → map f l ≠ []).
  { intros A B f l Hl Hm. apply map_eq_nil in Hm. contradiction. }
  assert (Hwf : ∀ e, In e es →
            object_or_missing (record_cell "main" e) = true
            ∧ object_or_missing (record_cell "wind" e) = true
            ∧ object_or_missing (record_cell "clouds" e) = true
            ∧ object_or_missing (CVal (first_or_empty (record_cell "weather" e))) = true
            ∧ seconds_in_range (record_cell "dt" e) = true).
  { intros e He. specialize (Hall e He). unfold entry_well_formed in Hall.
    repeat (apply andb_prop in Hall as [Hall ?]). auto. }
  assert (Hcol : ∀ k, (∀ e, In e es → object_or_missing (record_cell k e) = true) →
            ∃ df, json_normalize_series (unify (map (record_cell k) es)) = Returned df).
  { intros k Hk'. apply json_normalize_series_objects; [apply Hmapne; exact Hes|].
    apply Forall_fmap, Forall_forall. intros e He. apply Hk', list_elem_of_In, He. }
  unfold forecast_frame. simpl DataFrame_ctor.
  rewrite (DataFrame_of_records es Hes). run. cbv beta iota.
  rewrite (getitem_present es "main") by assumption. cbv beta iota.
  destruct (Hcol "main") as [main_df ->]; [intros e He; apply (Hwf e He)|].
  cbv beta iota.
  rewrite (getitem_present es "wind") by assumption. cbv beta iota.
  destruct (Hcol "wind") as [wind_df ->]; [intros e He; apply (Hwf e He)|].
  cbv beta iota.
  rewrite (getitem_present es "weather") by assumption. cbv beta iota.
  rewrite unify_first_or_empty.
  assert (Hweather : ∃ df,
            json_normalize (map first_or_empty (map (record_cell "weather") es))
            = Returned df).
  { unfold json_normalize. rewrite map_map.
    assert (Hitems : Forall (fun v => object_or_missing (CVal v) = true)
                       (map (fun e => first_or_empty (record_cell "weather" e)) es)).
    { apply Forall_fmap, Forall_forall. intros e He.
      apply (Hwf e), list_elem_of_In, He. }
    assert (Hl : existsb is_list (map (fun e => first_or_empty (record_cell "weather" e)) es)
                 = false
                 ∧ forallb item_ok (map (fun e => first_or_empty (record_cell "weather" e)) es)
                   = true).
    { induction Hitems as [|v l Hv _ IH]; simpl; [auto|].
      destruct IH as [-> ->]. destruct v; simpl in *; try discriminate; auto. }
    destruct Hl as [-> ->].
    apply DataFrame_of_dicts; [apply Hmapne, Hmapne; exact Hes|].
    apply Forall_fmap. eapply Forall_impl; [exact Hitems|].
    intros v Hv. destruct v; simpl in *; try discriminate; eauto. }
  destruct Hweather as [weather_df ->]. cbv beta iota.
  assert (Hclouds : ∃ clouds_df,
            match lookup_column (columns (frame_of_records es)) "clouds" with
            | Some clouds_col => json_normalize_series clouds_col
            | None => json_normalize [PDict []]
            end = Returned clouds_df).
  { destruct (lookup_column _ "clouds") as [clouds_col|] eqn:Ecl.
    - apply lookup_frame_of_records in Ecl. subst clouds_col.
      apply (Hcol "clouds"). intros e He. apply (Hwf e He).
    - eexists. reflexivity. }
  destruct Hclouds as [clouds_df ->]. cbv beta iota.
  rewrite (getitem_present es "dt") by assumption. cbv beta iota.
  assert (Hsec : Forall (fun c => seconds_in_range c = true) (map (record_cell "dt") es)).
  { apply Forall_fmap, Forall_forall. intros e He. apply (Hwf e), list_elem_of_In, He. }
  rewrite unify_int64.
  2:{ apply forallb_forall. intros c Hc. apply seconds_in_range_int64.
      rewrite Forall_forall in Hsec. apply Hsec, list_elem_of_In, Hc. }
  destruct (to_datetime_seconds _ Hsec) as [dt ->]. cbv beta iota.
  rewrite (getitem_present es "dt_txt") by assumption. cbv beta iota.
  eexists. reflexivity.
Qed.

(** The forecast fetcher succeeds on every HTTP 200 that carries
    well-formed entries. *)
Lemma fetch_forecast_succeeds (net : network) (city api_key units lang : string)
    (resp : response) (d : pydict) (es : list pydict) :
  net (forecast_request city api_key units lang) = inr resp →
  status_code resp = 200%Z →
  json resp = inr (PDict d) →
  field d "list" (PList []) = PList (map PDict es) →
  entries_well_formed es = true →
  ∃ raw, forecast_frame (PList (map PDict es)) = Returned raw
         ∧ fetch_forecast net city api_key units lang
           = Returned (Some (fill_defaults raw), None).
Proof.
  intros Hnet Hs Hj Hlist Hwf.
  destruct (forecast_frame_total es Hwf) as [raw Hraw]. exists raw. split; [exact Hraw|].
  rewrite (fetch_forecast_ok _ _ _ _ _ _ Hnet Hs).
  unfold response_json, of_sum. rewrite Hj. run. simpl.
  fold (field d "list" (PList [])). rewrite Hlist.
  assert (Ht : py_truthy (PList (map PDict es)) = true).
  { destruct es; [discriminate|reflexivity]. }
  rewrite Ht. simpl. rewrite Hraw. reflexivity.
Qed.

(* --------------------------------------------------------------------- *)
(** ** The weather conditions of an entry *)
(* --------------------------------------------------------------------- *)

(** The lambda of line 48 never raises: it yields the first element of a
    non-empty list and the empty record for anything else. *)
Lemma first_or_empty_cases (e : pydict) :
  (∀ first rest, dict_get e "weather" = Some (PList (first :: rest)) →
                 first_or_empty (record_cell "weather" e) = first)
  ∧ ((∀ first rest, dict_get e "weather" ≠ Some (PList (first :: rest))) →
     first_or_empty (record_cell "weather" e) = PDict []).
Proof.
  unfold record_cell. split.
  - intros first rest ->. reflexivity.
  - intros H. destruct (dict_get e "weather") as [v|]; [|reflexivity].
    destruct v as [| | | | |l|]; try reflexivity.
    destruct l as [|x0 rest]; [reflexivity|]. exfalso. apply (H x0 rest). reflexivity.
Qed.

(** C6.  Normalising well-formed entries [es] returns a frame, and in any
    frame returned for [es] there is a row for every entry, row [i]
    belonging to entry [i].  The [weather.*] columns are made of one
    record per entry: the flattened first element of the entry's
    [weather] list, or the empty record when that value is an empty
    list or not a list at all, so that nothing fails on that entry and
    its row is there.  There is a column [weather.k] exactly for the
    fields [k] some record has; it is the column of the field's values,
    in the dtype pandas gives it: a row whose record lacks the field
    holds the missing-value marker, and a field that is a string wherever
    it occurs is held as it is. *)
Theorem forecast_weather_columns (es : list pydict) :
  (entries_well_formed es = true →
   ∃ raw, forecast_frame (PList (map PDict es)) = Returned raw)
  ∧ ∀ raw, forecast_frame (PList (map PDict es)) = Returned raw →
      nrows raw = length es
      ∧ ∃ records,
          length records = length es
          ∧ (∀ i e, es !! i = Some e →
             ∃ r, records !! i = Some r
               ∧ (∀ first rest, dict_get e "weather" = Some (PList (first :: rest)) →
                    simple_json_normalize first = PDict r)
               ∧ ((∀ first rest, dict_get e "weather" ≠ Some (PList (first :: rest))) →
                    r = []))
          ∧ (∀ k, Exists (fun r => dict_get r k ≠ None) records →
               lookup_column (columns raw) ("weather." +:+ k)
               = Some (unify (map (record_cell k) records)))
          ∧ (∀ k, Forall (fun r => dict_get r k = None) records →
               lookup_column (columns raw) ("weather." +:+ k) = None)
          ∧ (∀ k col i r,
               lookup_column (columns raw) ("weather." +:+ k) = Some col →
               records !! i = Some r →
               (dict_get r k = None → col !! i = Some CNaN)
               ∧ (∀ s, dict_get r k = Some (PStr s) →
                    Forall (fun r' => is_text_or_missing (record_cell k r') = true) records →
                    col !! i = Some (CVal (PStr s)))).
Proof.
  split; [apply forecast_frame_total|].
  intros raw H.
  destruct (forecast_frame_nrows _ _ H) as (es0 & _ & Hes0 & Hn).
  inversion Hes0 as [Hes1]. apply map_PDict_inj in Hes1. subst es0. clear Hes0.
  split; [exact Hn|].
  destruct (forecast_frame_parts es raw H)
    as (_ & _ & main_rs & wind_rs & records & clouds_rs & dt & _ & _ & Hweather & _ & _ & Hraw).
  assert (Hlen : length records = nrows raw).
  { apply (f_equal length) in Hweather. rewrite !length_map in Hweather. lia. }
  assert (Hlookup : ∀ k, lookup_column (columns raw) ("weather." +:+ k)
                         = match lookup_column (columns (frame_of_records records)) k with
                           | Some _ => Some (unify (map (record_cell k) records))
                           | None => None
                           end).
  { intros k.
    pose proof (concat_lookup dt (unify (map (record_cell "dt_txt") es))
                  (frame_of_records main_rs) (frame_of_records wind_rs)
                  (frame_of_records records) (frame_of_records clouds_rs) k) as Hl.
    cbv zeta in Hl. rewrite <- Hraw in Hl. destruct Hl as (_ & _ & _ & _ & Lweather & _).
    rewrite Lweather. apply subframe_column. exact Hlen. }
  exists records. split; [lia|]. split; [|split; [|split]].
  - intros i e Hi.
    destruct (subframe_row records es flattened_weather i e Hweather Hi) as (r & Hr & Hg).
    exists r. split; [exact Hr|].
    destruct (first_or_empty_cases e) as [Hfirst Hempty].
    unfold flattened_weather in Hg. split.
    + intros first rest Hw. rewrite (Hfirst first rest Hw) in Hg. exact Hg.
    + intros Hnot. rewrite (Hempty Hnot) in Hg. vm_compute in Hg. inversion Hg. reflexivity.
  - intros k Hk. rewrite Hlookup, (exists_present_column records k Hk). reflexivity.
  - intros k Hk. rewrite Hlookup, (absent_column records k Hk). reflexivity.
  - intros k col i r Hcol Hr. rewrite Hlookup in Hcol.
    destruct (lookup_column (columns (frame_of_records records)) k); [|discriminate].
    inversion Hcol; subst col. clear Hcol.
    assert (Hcell : map (record_cell k) records !! i = Some (record_cell k r))
      by (rewrite lookup_map, Hr; reflexivity).
    split.
    + intros Hk. apply unify_missing. unfold record_cell in Hcell. rewrite Hk in Hcell.
      exact Hcell.
    + intros s Hk Hall. rewrite unify_text.
      * unfold record_cell in Hcell. rewrite Hk in Hcell. exact Hcell.
      * apply forallb_forall. intros c Hc. apply in_map_iff in Hc as (r' & <- & Hin).
        rewrite Forall_forall in Hall. apply Hall, list_elem_of_In, Hin.
Qed.

(** Two entries, the second with an empty conditions list: both rows are
    produced, and the description of the second is missing. *)
Lemma forecast_weather_columns_witness :
  ∃ raw,
    forecast_frame (PList (map PDict [clear_sky_entry; bare_entry])) = Returned raw
    ∧ nrows raw = 2
    ∧ lookup_column (columns raw) ("weather." +:+ "description")
      = Some [CVal (PStr "clear sky"); CNaN].
Proof.
  destruct (forecast_weather_columns [clear_sky_entry; bare_entry]) as [Htotal Hcells].
  destruct (Htotal eq_refl) as [raw H].
  exists raw. split; [exact H|].
  destruct (Hcells raw H) as (Hn & records & Hlen & Hrows & Hsome & _ & _).
  split; [exact Hn|].
  destruct (Hrows 0 clear_sky_entry eq_refl) as (r0 & Hr0 & Hfirst & _).
  destruct (Hrows 1 bare_entry eq_refl) as (r1 & Hr1 & _ & Hempty).
  specialize (Hfirst _ _ eq_refl). vm_compute in Hfirst. inversion Hfirst; subst r0.
  rewrite Hempty in Hr1 by (intros first rest; discriminate).
  assert (Hrec : records = [[("description", PStr "clear sky"); ("icon", PStr "01d")]; []]).
  { destruct records as [|a [|b [|c records]]]; try discriminate.
    simpl in Hr0, Hr1. inversion Hr0. inversion Hr1. reflexivity. }
  rewrite Hsome; [rewrite Hrec; reflexivity|].
  rewrite Hrec. apply Exists_cons_hd. discriminate.
Defined.


(* --------------------------------------------------------------------- *)
(** ** Flattening twice *)
(* --------------------------------------------------------------------- *)

Lemma flatten_value_idempotent (v : pyval) : flatten_value (flatten_value v) = flatten_value v.
Proof.
  destruct v; try reflexivity. simpl. f_equal.
  apply normalise_json_ordered_fixed, normalise_json_ordered_flat.
Qed.

Lemma flatten_first_idempotent (v : pyval) : flatten_first (flatten_first v) = flatten_first v.
Proof.
  destruct v as [| | | | |[|x l]|]; try reflexivity. simpl.
  rewrite flatten_value_idempotent. reflexivity.
Qed.

Lemma flatten_field_idempotent (k : string) (v : pyval) :
  flatten_field k (flatten_field k v) = flatten_field k v.
Proof.
  unfold flatten_field. destruct (String.eqb k "weather"); [apply flatten_first_idempotent|].
  destruct (existsb _ _); [apply flatten_value_idempotent|reflexivity].
Qed.

Lemma flatten_entry_idempotent (e : pydict) : flatten_entry (flatten_entry e) = flatten_entry e.
Proof.
  unfold flatten_entry. rewrite map_map. apply map_ext. intros [k v]. simpl.
  rewrite flatten_field_idempotent. reflexivity.
Qed.

Lemma flatten_value_shape : shape_preserving flatten_value.
Proof. intros []; reflexivity. Qed.

Lemma flatten_first_shape : shape_preserving flatten_first.
Proof. intros [| | | | |[|x l]|]; reflexivity. Qed.

Lemma flatten_field_shape (k : string) : shape_preserving (flatten_field k).
Proof.
  intros v. unfold flatten_field.
  destruct (String.eqb k "weather"); [apply flatten_first_shape|].
  destruct (existsb _ _); [apply flatten_value_shape|]. destruct v; reflexivity.
Qed.

Lemma simple_json_normalize_flatten_value (v : pyval) :
  simple_json_normalize (flatten_value v) = simple_json_normalize v.
Proof.
  destruct v; try reflexivity. simpl. f_equal.
  apply normalise_json_ordered_fixed, normalise_json_ordered_flat.
Qed.

(** *** The frame of the flattened entries *)

Lemma dict_get_flatten_entry (e : pydict) (k : string) :
  dict_get (flatten_entry e) k = option_map (flatten_field k) (dict_get e k).
Proof.
  induction e as [|[k' v] e IH]; simpl; [reflexivity|].
  destruct (String.eqb k' k) eqn:E; [|exact IH].
  apply String.eqb_eq in E. subst k'. reflexivity.
Qed.

Lemma record_cell_flatten_entry (e : pydict) (k : string) :
  record_cell k (flatten_entry e) = on_value (flatten_field k) (record_cell k e).
Proof.
  unfold record_cell. rewrite dict_get_flatten_entry.
  destruct (dict_get e k); reflexivity.
Qed.

Lemma record_keys_flatten_entry (es : list pydict) :
  record_keys (map flatten_entry es) = record_keys es.
Proof.
  unfold record_keys. generalize (@nil string).
  induction es as [|e es IH]; intros seen; simpl; [reflexivity|].
  rewrite IH. f_equal. f_equal. unfold dict_keys, flatten_entry.
  rewrite map_map. reflexivity.
Qed.

Lemma existsb_map_ext {A} (p : A → bool) (g : A → A) (l : list A) :
  (∀ x, p (g x) = p x) → existsb p (map g l) = existsb p l.
Proof. intros H. induction l as [|x l IH]; simpl; [reflexivity|]. rewrite H, IH. reflexivity. Qed.

Lemma forallb_map_ext {A} (p : A → bool) (g : A → A) (l : list A) :
  (∀ x, p (g x) = p x) → forallb p (map g l) = forallb p l.
Proof. intros H. induction l as [|x l IH]; simpl; [reflexivity|]. rewrite H, IH. reflexivity. Qed.

(** Settling the dtype commutes with a shape-preserving function. *)
Lemma unify_on_value (f : pyval → pyval) (col : list cell) :
  shape_preserving f →
  unify (map (on_value f) col) = map (on_value f) (unify col).
Proof.
  intros Hf.
  assert (Hkind : ∀ c,
            is_container (on_value f c) = is_container c
            ∧ (is_container c = false → on_value f c = c)).
  { intros [v| | | |]; simpl; auto. specialize (Hf v).
    destruct v; try (rewrite Hf; auto);
      destruct (f _); try discriminate; (split; [reflexivity|discriminate]). }
  unfold unify. rewrite (existsb_map_ext is_container) by (intros c; apply Hkind).
  destruct (existsb is_container col) eqn:Hc; [reflexivity|].
  assert (Hfix : map (on_value f) col = col).
  { apply existsb_false_Forall in Hc. clear -Hc Hkind.
    induction Hc as [|c col Hcn _ IH]; simpl; [reflexivity|].
    rewrite IH, (proj2 (Hkind c) Hcn). reflexivity. }
  rewrite Hfix.
  repeat match goal with |- context [if ?b then _ else _] => destruct b end;
    try (symmetry; exact Hfix).
  - clear -Hc Hkind. apply existsb_false_Forall in Hc.
    induction Hc as [|c col Hcn _ IH]; simpl; [reflexivity|].
    rewrite <- IH. f_equal. symmetry. apply Hkind.
    destruct c as [[]| | | |]; simpl in *; try reflexivity; discriminate.
  - clear -Hc Hkind. apply existsb_false_Forall in Hc.
    induction Hc as [|c col Hcn _ IH]; simpl; [reflexivity|].
    rewrite <- IH. f_equal. destruct c as [v| | | |]; reflexivity.
Qed.

Lemma lookup_flatten_entry (es : list pydict) (k : string) :
  lookup_column (columns (frame_of_records (map flatten_entry es))) k
  = option_map (map (on_value (flatten_field k)))
      (lookup_column (columns (frame_of_records es)) k).
Proof.
  unfold frame_of_records. cbn [columns]. rewrite record_keys_flatten_entry.
  induction (record_keys es) as [|k' ks IH]; simpl; [reflexivity|].
  destruct (String.eqb k' k) eqn:E; [|exact IH].
  apply String.eqb_eq in E. subst k'. simpl. f_equal.
  rewrite map_map.
  rewrite (map_ext _ (fun e => on_value (flatten_field k) (record_cell k e)))
    by (intros e; apply record_cell_flatten_entry).
  rewrite <- (map_map (record_cell k) (on_value (flatten_field k))).
  apply unify_on_value, flatten_field_shape.
Qed.

Lemma getitem_flatten_entry (es : list pydict) (k : string) :
  getitem (frame_of_records (map flatten_entry es)) k
  = match getitem (frame_of_records es) k with
    | Returned c => Returned (map (on_value (flatten_field k)) c)
    | other => other
    end.
Proof.
  unfold getitem. rewrite lookup_flatten_entry.
  destruct (lookup_column (columns (frame_of_records es)) k); reflexivity.
Qed.

Lemma json_normalize_series_flatten (cells : list cell) :
  json_normalize_series (map (on_value flatten_value) cells) = json_normalize_series cells.
Proof.
  unfold json_normalize_series.
  rewrite (existsb_map_ext cell_is_list), (forallb_map_ext cell_item_ok), map_map.
  - rewrite (map_ext (fun c => simple_json_normalize_cell (on_value flatten_value c))
               simple_json_normalize_cell); [reflexivity|].
    intros [v| | | |]; simpl; try reflexivity. apply simple_json_normalize_flatten_value.
  - intros [[]| | | |]; reflexivity.
  - intros [[]| | | |]; reflexivity.
Qed.

Lemma json_normalize_flatten (data : list pyval) :
  json_normalize (map flatten_value data) = json_normalize data.
Proof.
  unfold json_normalize.
  rewrite (existsb_map_ext is_list), (forallb_map_ext item_ok), map_map.
  - rewrite (map_ext (fun v => simple_json_normalize (flatten_value v)) simple_json_normalize);
      [reflexivity|]. apply simple_json_normalize_flatten_value.
  - intros []; reflexivity.
  - intros []; reflexivity.
Qed.

Lemma first_or_empty_flatten (c : cell) :
  first_or_empty (on_value flatten_first c) = flatten_value (first_or_empty c).
Proof. destruct c as [[| | | | |[|x l]|]| | | |]; reflexivity. Qed.

Lemma on_value_id (f : pyval → pyval) (cells : list cell) :
  (∀ v, f v = v) → map (on_value f) cells = cells.
Proof.
  intros Hf. induction cells as [|c cells IH]; simpl; [reflexivity|].
  rewrite IH. destruct c; simpl; rewrite ?Hf; reflexivity.
Qed.

(** Normalising the flattened entries runs exactly as normalising the
    entries themselves. *)
Lemma forecast_frame_flatten (es : list pydict) :
  forecast_frame (PList (map PDict (map flatten_entry es)))
  = forecast_frame (PList (map PDict es)).
Proof.
  destruct es as [|e0 es0]; [reflexivity|]. remember (e0 :: es0) as es eqn:Hes.
  assert (Hne : es ≠ []) by (subst es; discriminate).
  assert (Hne' : map flatten_entry es ≠ []) by (subst es; discriminate).
  clear Hes.
  unfold forecast_frame. simpl DataFrame_ctor.
  rewrite (DataFrame_of_records _ Hne), (DataFrame_of_records _ Hne'). run. cbv beta iota.
  rewrite !getitem_flatten_entry, lookup_flatten_entry.
  change (flatten_field "main") with flatten_value.
  change (flatten_field "wind") with flatten_value.
  change (flatten_field "clouds") with flatten_value.
  change (flatten_field "weather") with flatten_first.
  destruct (getitem (frame_of_records es) "main") as [main_col| |]; try reflexivity.
  rewrite json_normalize_series_flatten.
  destruct (json_normalize_series main_col) as [main_df| |]; try reflexivity.
  destruct (getitem (frame_of_records es) "wind") as [wind_col| |]; try reflexivity.
  rewrite json_normalize_series_flatten.
  destruct (json_normalize_series wind_col) as [wind_df| |]; try reflexivity.
  destruct (getitem (frame_of_records es) "weather") as [weather_col| |]; try reflexivity.
  rewrite map_map.
  rewrite (map_ext (fun c => first_or_empty (on_value flatten_first c))
             (fun c => flatten_value (first_or_empty c))) by apply first_or_empty_flatten.
  rewrite <- (map_map first_or_empty flatten_value), json_normalize_flatten.
  destruct (json_normalize (map first_or_empty weather_col)) as [weather_df| |];
    try reflexivity.
  assert (Hclouds :
            match option_map (map (on_value flatten_value))
                    (lookup_column (columns (frame_of_records es)) "clouds") with
            | Some clouds_col => json_normalize_series clouds_col
            | None => json_normalize [PDict []]
            end
            = match lookup_column (columns (frame_of_records es)) "clouds" with
              | Some clouds_col => json_normalize_series clouds_col
              | None => json_normalize [PDict []]
              end).
  { destruct (lookup_column _ "clouds"); simpl; [apply json_normalize_series_flatten|].
    reflexivity. }
  rewrite Hclouds. clear Hclouds.
  destruct (match lookup_column (columns (frame_of_records es)) "clouds" with
            | Some clouds_col => json_normalize_series clouds_col
            | None => json_normalize [PDict []]
            end) as [clouds_df| |]; try reflexivity.
  destruct (getitem (frame_of_records es) "dt") as [dt_col| |]; try reflexivity.
  rewrite (on_value_id (flatten_field "dt")) by reflexivity.
  destruct (to_datetime dt_col) as [dt| |]; try reflexivity.
  destruct (getitem (frame_of_records es) "dt_txt") as [txt_col| |]; try reflexivity.
  rewrite (on_value_id (flatten_field "dt_txt")) by reflexivity.
  reflexivity.
Qed.

(** C8.  Forecast normalisation is idempotent on the entries it accepts.
    Flattening an entry a second time changes nothing: the flattened
    entry is its own flattening.  And a list of entries that normalises
    to a frame gives the very same frame, columns and values, when its
    entries have been flattened once before: the flattening inside
    [forecast_frame] is then the second one.  The defaults loop runs on
    the same frame, so the returned table is the same too. *)
Theorem forecast_normalization_idempotent (es : list pydict) (raw : DataFrame) :
  forecast_frame (PList (map PDict es)) = Returned raw →
  map flatten_entry (map flatten_entry es) = map flatten_entry es
  ∧ forecast_frame (PList (map PDict (map flatten_entry es))) = Returned raw
  ∧ forecast_frame (PList (map PDict (map flatten_entry (map flatten_entry es))))
    = Returned raw.
Proof.
  intros H.
  assert (Hid : map flatten_entry (map flatten_entry es) = map flatten_entry es).
  { rewrite map_map. apply map_ext. intros e. apply flatten_entry_idempotent. }
  split; [exact Hid|]. rewrite Hid, forecast_frame_flatten. auto.
Qed.

(** An entry with nested sub-objects: flattening changes the entry, and
    the frame is the same with and without it. *)
Lemma forecast_normalization_idempotent_witness :
  ∃ raw,
    forecast_frame (PList (map PDict [nested_entry])) = Returned raw
    ∧ forecast_frame (PList (map PDict (map flatten_entry [nested_entry]))) = Returned raw
    ∧ flatten_entry nested_entry ≠ nested_entry
    ∧ lookup_column (columns raw) "main.sea.level" = Some [CVal (PInt 1012)].
Proof.
  destruct (forecast_frame (PList (map PDict [nested_entry]))) as [raw| |] eqn:H;
    [|vm_compute in H; discriminate..].
  exists raw. split; [reflexivity|].
  split; [apply (forecast_normalization_idempotent [nested_entry] raw H)|].
  split; [vm_compute; discriminate|].
  vm_compute in H. inversion H. reflexivity.
Defined.


(* ===================================================================== *)
(** * Further properties *)
(* ===================================================================== *)

(* --------------------------------------------------------------------- *)
(** ** The forecast fetcher's result *)
(* --------------------------------------------------------------------- *)

Lemma bind_not_request_exception {A B} (m : outcome A) (k : A → outcome B) :
  not_request_exception m → (∀ a, not_request_exception (k a)) →
  not_request_exception (x ← m; k x).
Proof. run. destruct m as [a|e|]; simpl; auto. Qed.

Lemma DataFrame_of_list_not_request_exception (l : list pyval) :
  not_request_exception (DataFrame_of_list l).
Proof.
  destruct l as [|v l]; simpl; [exact I|].
  destruct v; simpl; try exact I. destruct (option_map _ _); exact I.
Qed.

Lemma json_normalize_not_request_exception (data : list pyval) :
  not_request_exception (json_normalize data).
Proof.
  unfold json_normalize. destruct (existsb _ _); [exact I|].
  destruct (forallb _ _); [apply DataFrame_of_list_not_request_exception|exact I].
Qed.

Lemma json_normalize_series_not_request_exception (cells : list cell) :
  not_request_exception (json_normalize_series cells).
Proof.
  unfold json_normalize_series. destruct (existsb _ _); [exact I|].
  destruct (forallb _ _); [apply DataFrame_of_list_not_request_exception|exact I].
Qed.

Lemma getitem_not_request_exception (df : DataFrame) (k : string) :
  not_request_exception (getitem df k).
Proof. unfold getitem. destruct (lookup_column _ _); exact I. Qed.

Lemma to_datetime_not_request_exception (cells : list cell) :
  not_request_exception (to_datetime cells).
Proof.
  induction cells as [|c cells IH]; simpl; [exact I|].
  apply bind_not_request_exception.
  - destruct c as [v| | | |v]; simpl; try exact I; destruct v; simpl; try exact I.
    destruct (_ && _); exact I.
  - intros t. apply bind_not_request_exception; [exact IH|]. intros ts. exact I.
Qed.

(** No step of lines 45-62 raises a RequestException: what pandas raises
    is never mistaken for a network error. *)
Lemma forecast_frame_not_request_exception (list_items : pyval) :
  not_request_exception (forecast_frame list_items).
Proof.
  unfold forecast_frame.
  repeat (apply bind_not_request_exception; [|intros ?]);
    try apply getitem_not_request_exception;
    try apply json_normalize_not_request_exception;
    try apply json_normalize_series_not_request_exception;
    try apply to_datetime_not_request_exception; try exact I.
  - destruct list_items; simpl; try exact I. apply DataFrame_of_list_not_request_exception.
  - destruct (lookup_column _ _);
      [apply json_normalize_series_not_request_exception
      |apply json_normalize_not_request_exception].
Qed.

(** Without a table there is an error, and it is not empty. *)
Lemma fetch_forecast_no_table (net : network) (city api_key units lang : string)
    (err : option string) :
  fetch_forecast net city api_key units lang = Returned (None, err) →
  ∃ e, err = Some e ∧ e ≠ "".
Proof.
  intros H.
  destruct (net (forecast_request city api_key units lang)) as [e|resp] eqn:Hnet.
  - unfold fetch_forecast, requests_get in H. unfold forecast_request in Hnet.
    rewrite Hnet in H. destruct e; simpl in H; inversion H.
    eexists. split; [reflexivity|apply network_error_nonempty].
  - destruct (decide (status_code resp = 200%Z)) as [Hs|Hs].
    + rewrite (fetch_forecast_ok _ _ _ _ _ _ Hnet Hs) in H.
      unfold response_json, of_sum in H. run.
      destruct (json resp) as [e|data].
      { destruct e; simpl in H; inversion H.
        eexists. split; [reflexivity|apply network_error_nonempty]. }
      destruct data as [| | | | | |d]; try discriminate. simpl in H.
      destruct (py_truthy _); simpl in H.
      * destruct (forecast_frame _) as [raw|e|]; simpl in H; try discriminate.
        destruct e; simpl in H; inversion H.
        eexists. split; [reflexivity|apply network_error_nonempty].
      * inversion H. eexists. split; [reflexivity|discriminate].
    + destruct (fetch_forecast_http_error _ _ _ _ _ _ Hnet Hs) as [m [_ Hm]].
      rewrite Hm in H. inversion H.
      eexists. split; [reflexivity|apply http_error_nonempty].
Qed.

(** X1.  When [fetch_forecast] returns, it returns either a table with no
    error, and then the network answered with an HTTP 200, or no table
    with a non-empty error: never both, never neither.  When it raises,
    the exception is not a RequestException: those are all turned into
    error results. *)
Theorem fetch_forecast_result (net : network) (city api_key units lang : string) :
  (∀ r, fetch_forecast net city api_key units lang = Returned r →
        (∃ table resp,
           r = (Some table, None)
           ∧ net (forecast_request city api_key units lang) = inr resp
           ∧ status_code resp = 200%Z)
        ∨ (∃ err, r = (None, Some err) ∧ err ≠ ""))
  ∧ (∀ e, fetch_forecast net city api_key units lang = Raised e →
          ∀ detail, e ≠ RequestException detail).
Proof.
  split.
  - intros [[table|] err] H.
    + left. destruct (fetch_forecast_table _ _ _ _ _ _ _ H)
        as (resp & d & raw & Hnet & Hs & _ & _ & _ & _ & ->).
      exists table, resp. auto.
    + right. destruct (fetch_forecast_no_table _ _ _ _ _ _ H) as (e & -> & Hne).
      exists e. auto.
  - intros e H detail ->.
    unfold fetch_forecast, except_RequestException in H.
    destruct (_ ≫= _) as [r|e|]; try discriminate. destruct e; discriminate.
Qed.

Lemma fetch_forecast_result_witness :
  ∃ table resp,
    (Some bare_table, @None string) = (Some table, None)
    ∧ always (forecast_200 (PList [PDict bare_entry]))
        (forecast_request "Almaty" "k" "metric" "ru") = inr resp
    ∧ status_code resp = 200%Z.
Proof.
  destruct (proj1 (fetch_forecast_result (always (forecast_200 (PList [PDict bare_entry])))
                     "Almaty" "k" "metric" "ru") (Some bare_table, None) eq_refl)
    as [H|(err & Herr & _)]; [exact H|discriminate].
Defined.

(** X2.  An HTTP 200 whose body cannot be decoded.  When
    [response.json()] raises a RequestException (the JSONDecodeError of
    requests >= 2.27) the outer handler catches it and both fetchers
    report a network error although the network answered; when it raises
    anything else (the ValueError of older versions) the exception leaves
    the fetcher. *)
Theorem fetchers_undecodable_200 (net : network) (city api_key units lang : string)
    (resp : response) :
  status_code resp = 200%Z →
  (net (weather_request city api_key units lang) = inr resp →
   (∀ detail, json resp = inl (RequestException detail) →
      fetch_current_weather net city api_key units lang
      = Returned (PNone, Some ("Network error: " +:+ detail)))
   ∧ (∀ e, json resp = inl e → (∀ detail, e ≠ RequestException detail) →
        fetch_current_weather net city api_key units lang = Raised e))
  ∧ (net (forecast_request city api_key units lang) = inr resp →
     (∀ detail, json resp = inl (RequestException detail) →
        fetch_forecast net city api_key units lang
        = Returned (None, Some ("Network error: " +:+ detail)))
     ∧ (∀ e, json resp = inl e → (∀ detail, e ≠ RequestException detail) →
          fetch_forecast net city api_key units lang = Raised e)).
Proof.
  intros Hs. split; intros Hnet.
  - rewrite (fetch_current_weather_ok _ _ _ _ _ _ Hnet Hs).
    unfold response_json, of_sum. split.
    + intros detail ->. reflexivity.
    + intros e -> He. destruct e; try reflexivity. exfalso. apply (He detail). reflexivity.
  - rewrite (fetch_forecast_ok _ _ _ _ _ _ Hnet Hs).
    unfold response_json, of_sum. split.
    + intros detail ->. reflexivity.
    + intros e -> He. destruct e; try reflexivity. exfalso. apply (He detail). reflexivity.
Qed.

Lemma fetchers_undecodable_200_witness :
  fetch_current_weather (always undecodable_200) "Almaty" "k" "metric" "ru"
  = Returned (PNone, Some "Network error: Expecting value: line 1 column 1 (char 0)")
  ∧ fetch_forecast (always undecodable_200) "Almaty" "k" "metric" "ru"
    = Returned (None, Some "Network error: Expecting value: line 1 column 1 (char 0)").
Proof.
  destruct (fetchers_undecodable_200 (always undecodable_200) "Almaty" "k" "metric" "ru"
              undecodable_200 eq_refl) as [Hw Hf].
  split.
  - apply (proj1 (Hw eq_refl)). reflexivity.
  - apply (proj1 (Hf eq_refl)). reflexivity.
Defined.

(* --------------------------------------------------------------------- *)
(** ** The keys [forecast_frame] needs *)
(* --------------------------------------------------------------------- *)

(** X3.  The sub-objects are read with [df["main"]], not with a default:
    on an HTTP 200 whose entries are objects none of which has a [main]
    key, [fetch_forecast] raises KeyError 'main', and the exception
    leaves the fetcher instead of becoming an error message. *)
Theorem fetch_forecast_missing_main (net : network) (city api_key units lang : string)
    (resp : response) (d : pydict) (es : list pydict) :
  net (forecast_request city api_key units lang) = inr resp →
  status_code resp = 200%Z →
  json resp = inr (PDict d) →
  field d "list" (PList []) = PList (map PDict es) →
  es ≠ [] →
  Forall (fun e => dict_get e "main" = None) es →
  fetch_forecast net city api_key units lang = Raised (KeyError "main").
Proof.
  intros Hnet Hs Hj Hlist Hne Hmain.
  rewrite (fetch_forecast_ok _ _ _ _ _ _ Hnet Hs).
  unfold response_json, of_sum. rewrite Hj. run. simpl.
  fold (field d "list" (PList [])). rewrite Hlist.
  assert (Ht : py_truthy (PList (map PDict es)) = true).
  { destruct es; [contradiction|reflexivity]. }
  rewrite Ht. simpl. unfold forecast_frame. simpl DataFrame_ctor.
  rewrite (DataFrame_of_records es Hne). run. cbv beta iota.
  rewrite (getitem_absent es "main" Hmain). reflexivity.
Qed.

Lemma fetch_forecast_missing_main_witness :
  fetch_forecast (always (forecast_200 (PList [PDict no_main_entry])))
    "Almaty" "k" "metric" "ru"
  = Raised (KeyError "main").
Proof.
  apply (fetch_forecast_missing_main _ _ _ _ _
           (forecast_200 (PList [PDict no_main_entry]))
           [("cod", PStr "200"); ("list", PList [PDict no_main_entry])]
           [no_main_entry]); try reflexivity.
  - discriminate.
  - repeat constructor.
Defined.

(** X4.  A frame is returned only for entries among which each of
    [main], [wind], [weather], [dt] and [dt_txt] occurs at least once: a
    key missing from every entry makes [df[key]] raise. *)
Theorem forecast_frame_required_keys (es : list pydict) (raw : DataFrame) :
  forecast_frame (PList (map PDict es)) = Returned raw →
  Forall (fun k => Exists (fun e => dict_get e k ≠ None) es) REQUIRED_KEYS.
Proof.
  intros H. destruct (forecast_frame_parts es raw H) as (_ & Hkeys & _).
  eapply Forall_impl; [exact Hkeys|]. intros k Hk. simpl in Hk.
  apply (getitem_returned_present _ _ _ Hk).
Qed.

Lemma forecast_frame_required_keys_witness :
  Forall (fun k => Exists (fun e => dict_get e k ≠ None) [clear_sky_entry; bare_entry])
    REQUIRED_KEYS.
Proof.
  destruct (forecast_frame (PList (map PDict [clear_sky_entry; bare_entry])))
    as [raw| |] eqn:H; [|vm_compute in H; discriminate..].
  apply (forecast_frame_required_keys _ raw H).
Defined.

(* --------------------------------------------------------------------- *)
(** ** The shape of the table *)
(* --------------------------------------------------------------------- *)

Lemma rectangular_series (name : string) (cells : list cell) : rectangular (series name cells).
Proof. unfold rectangular, series. simpl. repeat constructor. Qed.

Lemma rectangular_frame_of_records (rs : list pydict) : rectangular (frame_of_records rs).
Proof.
  unfold rectangular, frame_of_records. simpl.
  induction (record_keys rs) as [|k ks IH]; simpl; constructor; [|exact IH].
  simpl. rewrite length_unify. apply length_map.
Qed.

Lemma rectangular_add_prefix (p : string) (df : DataFrame) :
  rectangular df → rectangular (add_prefix p df).
Proof.
  unfold rectangular, add_prefix. simpl. intros H.
  induction H as [|nc cols Hnc _ IH]; simpl; constructor; assumption.
Qed.

Lemma nrows_le_concat (f : DataFrame) (frames : list DataFrame) :
  In f frames → nrows f ≤ foldr Nat.max 0 (map nrows frames).
Proof.
  induction frames as [|g frames IH]; simpl; [contradiction|].
  intros [->|Hin]; [lia|]. specialize (IH Hin). lia.
Qed.

(** Concatenation pads every column to the common number of rows. *)
Lemma rectangular_concat (frames : list DataFrame) :
  Forall rectangular frames → rectangular (concat_columns frames).
Proof.
  intros H. unfold rectangular, concat_columns. cbn [nrows columns].
  set (n := foldr Nat.max 0 (map nrows frames)).
  assert (Hn : ∀ f, In f frames → nrows f ≤ n) by (intros f; apply nrows_le_concat).
  clearbody n. induction H as [|f frames Hf _ IH]; simpl; [constructor|].
  apply Forall_app. split.
  - assert (Hle : nrows f ≤ n) by (apply Hn; left; reflexivity).
    unfold rectangular in Hf. induction Hf as [|nc cols Hnc _ IHc]; simpl; constructor.
    + simpl. apply length_pad. lia.
    + exact IHc.
  - apply IH. intros g Hg. apply Hn. right. exact Hg.
Qed.

Lemma rectangular_setitem (df : DataFrame) (name : string) (v : pyval) :
  rectangular df → rectangular (setitem df name v).
Proof.
  unfold rectangular, setitem. cbn [nrows columns]. intros H.
  induction H as [|[n c] cols Hnc Hcols IH]; simpl.
  - repeat constructor. simpl. apply length_replicate.
  - destruct (String.eqb n name); constructor; simpl in *; try assumption.
    apply length_replicate.
Qed.

Lemma rectangular_fill_defaults (df : DataFrame) :
  rectangular df → rectangular (fill_defaults df).
Proof.
  unfold fill_defaults. generalize DEFAULT_COLUMNS. intros ds. revert df.
  induction ds as [|cd ds IH]; intros df H; simpl; [exact H|].
  apply IH. destruct (negb _); [apply rectangular_setitem|]; exact H.
Qed.

(** X5.  The table [fetch_forecast] returns is rectangular: every column,
    flattened or created by the defaults loop, has exactly as many cells
    as the table has rows. *)
Theorem forecast_table_rectangular (net : network) (city api_key units lang : string)
    (table : DataFrame) (err : option string) :
  fetch_forecast net city api_key units lang = Returned (Some table, err) →
  rectangular table.
Proof.
  intros H. destruct (fetch_forecast_table _ _ _ _ _ _ _ H)
    as (resp & d & raw & _ & _ & _ & _ & Hf & -> & _).
  apply rectangular_fill_defaults.
  destruct (forecast_frame_nrows _ _ Hf) as (es & _ & Hlist & _).
  rewrite Hlist in Hf.
  destruct (forecast_frame_parts es raw Hf)
    as (_ & _ & main_rs & wind_rs & weather_rs & clouds_rs & dt & _ & _ & _ & _ & _ & ->).
  apply rectangular_concat.
  repeat constructor;
    try apply rectangular_series;
    apply rectangular_add_prefix, rectangular_frame_of_records.
Qed.

Lemma forecast_table_rectangular_witness : rectangular bare_table.
Proof.
  apply (forecast_table_rectangular
           (always (forecast_200 (PList [PDict bare_entry]))) "Almaty" "k" "metric" "ru"
           bare_table None).
  reflexivity.
Defined.

(** *** Column names *)

Lemma existsb_eqb_elem (k : string) (l : list string) :
  existsb (String.eqb k) l = true ↔ k ∈ l.
Proof.
  induction l as [|x l IH]; simpl.
  - split; [discriminate|]. intros H. inversion H.
  - rewrite orb_true_iff, IH, elem_of_cons, String.eqb_eq. reflexivity.
Qed.

Lemma add_keys_NoDup (seen ks : list string) : NoDup seen → NoDup (add_keys seen ks).
Proof.
  revert seen. induction ks as [|k ks IH]; intros seen H; simpl; [exact H|].
  destruct (existsb (String.eqb k) seen) eqn:E; apply IH; [exact H|].
  apply NoDup_app. split; [exact H|]. split; [|apply NoDup_singleton].
  intros x Hx Hk. apply list_elem_of_singleton in Hk. subst x.
  apply existsb_eqb_elem in Hx. congruence.
Qed.

Lemma record_keys_NoDup (rs : list pydict) : NoDup (record_keys rs).
Proof.
  unfold record_keys.
  assert (H : ∀ seen, NoDup seen →
            NoDup (fold_left (fun seen r => add_keys seen (dict_keys r)) rs seen)).
  { induction rs as [|r rs IH]; intros seen Hs; simpl; [exact Hs|].
    apply IH, add_keys_NoDup, Hs. }
  apply H, NoDup_nil. exact I.
Qed.

Lemma column_names_frame_of_records (rs : list pydict) :
  column_names (frame_of_records rs) = record_keys rs.
Proof.
  unfold column_names, frame_of_records. simpl. rewrite map_map. simpl. apply map_id.
Qed.

Lemma column_names_add_prefix (p : string) (df : DataFrame) :
  column_names (add_prefix p df) = map (String.append p) (column_names df).
Proof. unfold column_names, add_prefix. simpl. rewrite !map_map. reflexivity. Qed.

Lemma column_names_concat (frames : list DataFrame) :
  column_names (concat_columns frames) = flat_map column_names frames.
Proof.
  unfold column_names, concat_columns. cbn [columns].
  generalize (foldr Nat.max 0 (map nrows frames)). intros n.
  induction frames as [|f frames IH]; simpl; [reflexivity|].
  rewrite map_app, IH, map_map. reflexivity.
Qed.

Lemma append_inj (p a b : string) : p +:+ a = p +:+ b → a = b.
Proof. induction p as [|c p IH]; simpl; intros H; [exact H|]. inversion H. auto. Qed.

Lemma prefixed_NoDup (p : string) (l : list string) :
  NoDup l → NoDup (map (String.append p) l).
Proof.
  induction 1 as [|x l Hx _ IH]; simpl; constructor; [|exact IH].
  intros Hin. apply list_elem_of_In, in_map_iff in Hin as [y [Hy Hin]].
  apply append_inj in Hy. subst y. apply Hx, list_elem_of_In. exact Hin.
Qed.

Lemma prefixed_elem (p : string) (l : list string) (x : string) :
  x ∈ map (String.append p) l → ∃ a, x = p +:+ a.
Proof. intros H. apply list_elem_of_In, in_map_iff in H as [a [<- _]]. eauto. Qed.

Lemma column_names_set_column cols name c :
  lookup_column cols name = None →
  map fst (set_column cols name c) = map fst cols ++ [name].
Proof.
  induction cols as [|[n c'] cols IH]; simpl; [reflexivity|].
  destruct (String.eqb n name); [discriminate|]. intros H. simpl. rewrite IH; auto.
Qed.

Lemma lookup_None_not_elem cols name :
  lookup_column cols name = None → name ∉ map fst cols.
Proof.
  induction cols as [|[n c] cols IH]; simpl; intros H Hin; [inversion Hin|].
  destruct (String.eqb n name) eqn:E; [discriminate|].
  apply elem_of_cons in Hin as [->|Hin]; [rewrite String.eqb_refl in E; discriminate|].
  apply (IH H Hin).
Qed.

Lemma fill_defaults_NoDup (df : DataFrame) :
  NoDup (column_names df) → NoDup (column_names (fill_defaults df)).
Proof.
  unfold fill_defaults. generalize DEFAULT_COLUMNS. intros ds. revert df.
  induction ds as [|cd ds IH]; intros df H; simpl; [exact H|].
  apply IH. rewrite has_column_lookup.
  destruct (lookup_column (columns df) cd.1) eqn:E; simpl; [exact H|].
  unfold column_names, setitem. cbn [columns].
  rewrite (column_names_set_column _ _ _ E).
  apply NoDup_app. split; [exact H|]. split; [|apply NoDup_singleton].
  intros x Hx Hk. apply list_elem_of_singleton in Hk. subst x.
  apply (lookup_None_not_elem _ _ E Hx).
Qed.

(** X6.  No two columns of the table [fetch_forecast] returns have the
    same name, so a column is determined by its name. *)
Theorem forecast_table_columns_distinct (net : network) (city api_key units lang : string)
    (table : DataFrame) (err : option string) :
  fetch_forecast net city api_key units lang = Returned (Some table, err) →
  NoDup (column_names table).
Proof.
  intros H. destruct (fetch_forecast_table _ _ _ _ _ _ _ H)
    as (resp & d & raw & _ & _ & _ & _ & Hf & -> & _).
  apply fill_defaults_NoDup.
  destruct (forecast_frame_nrows _ _ Hf) as (es & _ & Hlist & _).
  rewrite Hlist in Hf.
  destruct (forecast_frame_parts es raw Hf)
    as (_ & _ & main_rs & wind_rs & weather_rs & clouds_rs & dt & _ & _ & _ & _ & _ & ->).
  rewrite column_names_concat. cbn [flat_map].
  rewrite !column_names_add_prefix, !column_names_frame_of_records, app_nil_r.
  change (column_names (series "dt" dt)) with ["dt"].
  change (column_names (series "dt_txt" (unify (map (record_cell "dt_txt") es))))
    with ["dt_txt"].
  pose proof (record_keys_NoDup main_rs) as Nm. pose proof (record_keys_NoDup wind_rs) as Nw.
  pose proof (record_keys_NoDup weather_rs) as Nx.
  pose proof (record_keys_NoDup clouds_rs) as Nc.
  generalize dependent (record_keys main_rs). intros km Nm.
  generalize dependent (record_keys wind_rs). intros kw Nw.
  generalize dependent (record_keys weather_rs). intros kx Nx.
  generalize dependent (record_keys clouds_rs). intros kc Nc.
  repeat (apply NoDup_app; split; [|split]);
    try (apply prefixed_NoDup; assumption);
    try (apply NoDup_singleton);
    intros x Hx Hin;
    repeat (apply elem_of_app in Hin as [Hin|Hin]);
    try (apply list_elem_of_singleton in Hx);
    try (apply list_elem_of_singleton in Hin);
    try (apply prefixed_elem in Hx as [a Hx]);
    try (apply prefixed_elem in Hin as [b Hin]);
    subst; simpl in *; discriminate.
Qed.

Lemma forecast_table_columns_distinct_witness : NoDup (column_names bare_table).
Proof.
  apply (forecast_table_columns_distinct
           (always (forecast_200 (PList [PDict bare_entry]))) "Almaty" "k" "metric" "ru"
           bare_table None).
  reflexivity.
Defined.

(* --------------------------------------------------------------------- *)
(** ** The cells of the table *)
(* --------------------------------------------------------------------- *)

Lemma to_datetime_cells (cells ts : list cell) (i : nat) (c : cell) :
  to_datetime cells = Returned ts → cells !! i = Some c →
  ∃ t, ts !! i = Some t ∧ to_datetime_cell c = Returned t.
Proof.
  revert ts i. induction cells as [|c0 cells IH]; intros ts i H Hi; [inversion Hi|].
  simpl in H. apply bind_returned in H as [t [Ht H]].
  apply bind_returned in H as [ts' [Hts H]]. inversion H; subst ts.
  destruct i as [|i]; simpl in *.
  - inversion Hi; subst c0. eauto.
  - apply (IH ts' i Hts Hi).
Qed.

(** Every column of a returned frame, by its name: the two time columns,
    and the columns of the four sub-frames as they are. *)
Lemma forecast_frame_columns (es : list pydict) (raw : DataFrame) :
  forecast_frame (PList (map PDict es)) = Returned raw →
  es ≠ []
  ∧ nrows raw = length es
  ∧ ∃ (main_rs wind_rs weather_rs clouds_rs : list pydict) (dt : list cell),
      map PDict main_rs = map flattened_main es
      ∧ map PDict wind_rs = map flattened_wind es
      ∧ map PDict weather_rs = map flattened_weather es
      ∧ match lookup_column (columns (frame_of_records es)) "clouds" with
        | Some _ => map PDict clouds_rs = map flattened_clouds es
        | None => clouds_rs = [[]]
        end
      ∧ to_datetime (unify (map (record_cell "dt") es)) = Returned dt
      ∧ lookup_column (columns raw) "dt" = Some dt
      ∧ lookup_column (columns raw) "dt_txt" = Some (unify (map (record_cell "dt_txt") es))
      ∧ ∀ k,
          lookup_column (columns raw) ("main." +:+ k)
          = lookup_column (columns (frame_of_records main_rs)) k
          ∧ lookup_column (columns raw) ("wind." +:+ k)
            = lookup_column (columns (frame_of_records wind_rs)) k
          ∧ lookup_column (columns raw) ("weather." +:+ k)
            = lookup_column (columns (frame_of_records weather_rs)) k
          ∧ lookup_column (columns raw) ("clouds." +:+ k)
            = lookup_column (columns (frame_of_records clouds_rs)) k.
Proof.
  intros H.
  destruct (forecast_frame_nrows _ _ H) as (es0 & Hne & Hes0 & Hn).
  inversion Hes0 as [Hes1]. apply map_PDict_inj in Hes1. subst es0. clear Hes0.
  split; [exact Hne|]. split; [exact Hn|].
  destruct (forecast_frame_parts es raw H)
    as (_ & _ & main_rs & wind_rs & weather_rs & clouds_rs & dt
        & Hmain & Hwind & Hweather & Hclouds & Hdt & Hraw).
  exists main_rs, wind_rs, weather_rs, clouds_rs, dt.
  repeat (split; [assumption|]).
  assert (Hsub : ∀ rs k, length rs = nrows raw ∨ rs = [[]] →
            option_map (pad (nrows raw)) (lookup_column (columns (frame_of_records rs)) k)
            = lookup_column (columns (frame_of_records rs)) k).
  { intros rs k [Hlen| ->]; [|reflexivity].
    rewrite subframe_column by exact Hlen.
    destruct (lookup_column _ k) as [c|] eqn:E; [|reflexivity].
    apply lookup_frame_of_records in E. subst c. reflexivity. }
  assert (Hlen : ∀ (rs : list pydict) (g : pydict → pyval),
            map PDict rs = map g es → length rs = nrows raw).
  { intros rs g Hm. apply (f_equal length) in Hm. rewrite !length_map in Hm. lia. }
  pose proof (to_datetime_length _ _ Hdt) as Hdtlen.
  rewrite length_unify, length_map in Hdtlen.
  split; [|split].
  - pose proof (concat_lookup dt (unify (map (record_cell "dt_txt") es))
                  (frame_of_records main_rs) (frame_of_records wind_rs)
                  (frame_of_records weather_rs) (frame_of_records clouds_rs) "") as Hl.
    cbv zeta in Hl. rewrite <- Hraw in Hl. destruct Hl as (Ldt & _).
    rewrite Ldt, pad_full by lia. reflexivity.
  - pose proof (concat_lookup dt (unify (map (record_cell "dt_txt") es))
                  (frame_of_records main_rs) (frame_of_records wind_rs)
                  (frame_of_records weather_rs) (frame_of_records clouds_rs) "") as Hl.
    cbv zeta in Hl. rewrite <- Hraw in Hl. destruct Hl as (_ & Ltxt & _).
    rewrite Ltxt, pad_full by (rewrite length_unify, length_map; lia). reflexivity.
  - intros k.
    pose proof (concat_lookup dt (unify (map (record_cell "dt_txt") es))
                  (frame_of_records main_rs) (frame_of_records wind_rs)
                  (frame_of_records weather_rs) (frame_of_records clouds_rs) k) as Hl.
    cbv zeta in Hl. rewrite <- Hraw in Hl.
    destruct Hl as (_ & _ & Lmain & Lwind & Lweather & Lclouds).
    rewrite Lmain, Lwind, Lweather, Lclouds.
    rewrite !Hsub; [auto| |left; eapply Hlen; eassumption..].
    destruct (lookup_column (columns (frame_of_records es)) "clouds");
      [left; eapply Hlen; eassumption|right; assumption].
Qed.

(** Integers alone are read as they are. *)
Lemma to_datetime_integers (col dt : list cell) :
  col ≠ [] → Forall (fun c => ∃ z, c = CVal (PInt z)) col →
  to_datetime (unify col) = Returned dt →
  to_datetime col = Returned dt.
Proof.
  intros Hne Hall H.
  destruct (unify_cases col) as [Hu|[_ [Hu|Hu]]]; rewrite Hu in H; [exact H| |];
    destruct Hall as [|c col [z ->] _]; try contradiction;
    simpl in H; discriminate.
Qed.

(** X7.  In the table made of the entries [es], row [i] carries the times
    of entry [i].  When every entry gives its [dt] as an integer number
    of seconds, the [dt] cell of a row is the timestamp of exactly the
    seconds of its entry; when every [dt_txt] is a string or absent, the
    [dt_txt] column holds these strings as they are, with the
    missing-value marker where an entry has none. *)
Theorem forecast_time_columns (es : list pydict) (raw : DataFrame) :
  forecast_frame (PList (map PDict es)) = Returned raw →
  (Forall (fun e => ∃ z, dict_get e "dt" = Some (PInt z)) es →
   ∃ dt,
     lookup_column (columns (fill_defaults raw)) "dt" = Some dt
     ∧ length dt = length es
     ∧ ∀ i e z, es !! i = Some e → dict_get e "dt" = Some (PInt z) →
         dt !! i = Some (CTimestamp z))
  ∧ (Forall (fun e => is_text_or_missing (record_cell "dt_txt" e) = true) es →
     lookup_column (columns (fill_defaults raw)) "dt_txt"
     = Some (map (record_cell "dt_txt") es)).
Proof.
  intros H.
  destruct (forecast_frame_columns es raw H)
    as (Hne & Hn & main_rs & wind_rs & weather_rs & clouds_rs & dt
        & _ & _ & _ & _ & Hdt & Ldt & Ltxt & _).
  split.
  - intros Hint. exists dt. split; [apply fill_defaults_keeps; exact Ldt|].
    assert (Hcol : Forall (fun c => ∃ z, c = CVal (PInt z)) (map (record_cell "dt") es)).
    { apply Forall_fmap. eapply Forall_impl; [exact Hint|].
      intros e [z Hz]. exists z. simpl. unfold record_cell. rewrite Hz. reflexivity. }
    apply to_datetime_integers in Hdt; [|intros Hm; apply map_eq_nil in Hm; contradiction
                                        |exact Hcol].
    split; [rewrite (to_datetime_length _ _ Hdt); apply length_map|].
    intros i e z Hi Hz.
    assert (Hc : map (record_cell "dt") es !! i = Some (CVal (PInt z))).
    { rewrite lookup_map, Hi. simpl. unfold record_cell. rewrite Hz. reflexivity. }
    destruct (to_datetime_cells _ _ _ _ Hdt Hc) as [t [Ht Hcell]].
    simpl in Hcell. destruct (_ && _); [|discriminate].
    inversion Hcell; subst t. exact Ht.
  - intros Htxt. apply fill_defaults_keeps. rewrite Ltxt. f_equal.
    apply unify_text, forallb_forall. intros c Hc.
    apply in_map_iff in Hc as (e & <- & Hin).
    rewrite Forall_forall in Htxt. apply Htxt, list_elem_of_In, Hin.
Qed.

Lemma forecast_time_columns_witness :
  ∃ raw dt,
    forecast_frame (PList (map PDict [clear_sky_entry; bare_entry])) = Returned raw
    ∧ lookup_column (columns (fill_defaults raw)) "dt" = Some dt
    ∧ dt !! 0 = Some (CTimestamp 1700000000)
    ∧ dt !! 1 = Some (CTimestamp 1700010800)
    ∧ lookup_column (columns (fill_defaults raw)) "dt_txt"
      = Some [CVal (PStr "2023-11-14 22:13:20"); CVal (PStr "2023-11-15 01:13:20")].
Proof.
  destruct (forecast_frame_total [clear_sky_entry; bare_entry] eq_refl) as [raw H].
  destruct (forecast_time_columns _ raw H) as (Hdt & Htxt).
  destruct Hdt as (dt & Hdt & _ & Hrows).
  { repeat constructor; eexists; reflexivity. }
  exists raw, dt. split; [exact H|]. split; [exact Hdt|]. split; [|split].
  - apply (Hrows 0 clear_sky_entry 1700000000%Z eq_refl eq_refl).
  - apply (Hrows 1 bare_entry 1700010800%Z eq_refl eq_refl).
  - apply Htxt. repeat constructor.
Defined.

(** From a condition on the flattened sub-objects of the entries to the
    cells of a field's column. *)
Lemma cells_of_records (g : pydict → pyval) (es rs : list pydict) (k : string)
    (p : cell → bool) :
  map PDict rs = map g es →
  Forall (fun e => ∀ r, g e = PDict r → p (record_cell k r) = true) es →
  forallb p (map (record_cell k) rs) = true.
Proof.
  revert rs. induction es as [|e es IH]; intros [|r rs] Hm He; simpl in Hm;
    try discriminate; [reflexivity|].
  inversion Hm as [[Hr Hrs]]. inversion He as [|? ? Hp He']; subst.
  simpl. rewrite (Hp r (eq_sym Hr)). apply IH; assumption.
Qed.

(** The column of a field [k] of a sub-object, for an entry [j] whose
    flattened sub-object [rj] has the field. *)
Lemma section_column (es rs : list pydict) (g : pydict → pyval) (raw : DataFrame)
    (name k : string) (j : nat) (ej rj : pydict) (v : pyval) :
  map PDict rs = map g es →
  lookup_column (columns raw) name = lookup_column (columns (frame_of_records rs)) k →
  es !! j = Some ej → g ej = PDict rj → dict_get rj k = Some v →
  lookup_column (columns (fill_defaults raw)) name = Some (unify (map (record_cell k) rs))
  ∧ map (record_cell k) rs !! j = Some (CVal v).
Proof.
  intros Hrs Hname Hj Hg Hk.
  destruct (subframe_row rs es g j ej Hrs Hj) as (r & Hr & Hgr).
  rewrite Hg in Hgr. inversion Hgr; subst r.
  assert (Hin : In rj rs) by (apply list_elem_of_In, list_elem_of_lookup; eauto).
  split.
  - apply fill_defaults_keeps. rewrite Hname. apply (present_column rs rj k v Hin Hk).
  - rewrite lookup_map, Hr. simpl. unfold record_cell. rewrite Hk. reflexivity.
Qed.

(** A cell after the dtype is settled: the value, the value widened to a
    float, or the value coerced. *)
Lemma unify_value (col : list cell) (i : nat) (v : pyval) :
  col !! i = Some (CVal v) →
  unify col !! i = Some (CVal v)
  ∨ unify col !! i = Some (to_float64 (CVal v))
  ∨ unify col !! i = Some (CCoerced v).
Proof.
  intros H. destruct (unify_cases col) as [->|[_ [->| ->]]]; [auto| |];
    rewrite list_lookup_fmap, H; auto.
Qed.

(** X8.  Values are carried over under their own names.  When the [main],
    [wind] or [clouds] value of entry [i] is a flat object (no nested
    objects, as the API sends them), each of its fields [k] has the
    column [main.k], [wind.k] or [clouds.k] in the table, and row [i] of
    that column holds the field's value in the dtype pandas gives the
    column: the value itself, the float of an integer, or the coerced
    value.  It is the value itself when the field is a string wherever it
    occurs, and when it is a 64-bit integer in every entry. *)
Theorem forecast_flat_fields_kept (es : list pydict) (raw : DataFrame) :
  forecast_frame (PList (map PDict es)) = Returned raw →
  ∀ i e section (g : pydict → pyval) m k v,
    es !! i = Some e →
    (section = "main" ∧ g = flattened_main) ∨ (section = "wind" ∧ g = flattened_wind)
    ∨ (section = "clouds" ∧ g = flattened_clouds) →
    dict_get e section = Some (PDict m) → flat m → dict_get m k = Some v →
    ∃ col,
      lookup_column (columns (fill_defaults raw)) (section +:+ "." +:+ k) = Some col
      ∧ length col = length es
      ∧ (col !! i = Some (CVal v) ∨ col !! i = Some (to_float64 (CVal v))
         ∨ col !! i = Some (CCoerced v))
      ∧ (Forall (fun e' => ∀ r, g e' = PDict r → is_text_or_missing (record_cell k r) = true)
           es → col !! i = Some (CVal v))
      ∧ (Forall (fun e' => ∀ r, g e' = PDict r → is_int64 (record_cell k r) = true) es →
         col !! i = Some (CVal v)).
Proof.
  intros H i e section g m k v Hi Hsec Hm Hflat Hk.
  destruct (forecast_frame_columns es raw H)
    as (_ & Hn & main_rs & wind_rs & weather_rs & clouds_rs & dt
        & Hmain & Hwind & _ & Hclouds & _ & _ & _ & Hl).
  destruct (Hl k) as (Lmain & Lwind & _ & Lclouds).
  assert (Hnorm : simple_json_normalize (PDict m) = PDict m).
  { simpl. rewrite (normalise_json_ordered_fixed m Hflat). reflexivity. }
  assert (Hsub : ∀ rs name,
            map PDict rs = map g es → g e = PDict m →
            lookup_column (columns raw) name
            = lookup_column (columns (frame_of_records rs)) k →
            ∃ col,
              lookup_column (columns (fill_defaults raw)) name = Some col
              ∧ length col = length es
              ∧ (col !! i = Some (CVal v) ∨ col !! i = Some (to_float64 (CVal v))
                 ∨ col !! i = Some (CCoerced v))
              ∧ (Forall (fun e' => ∀ r, g e' = PDict r →
                                   is_text_or_missing (record_cell k r) = true) es →
                 col !! i = Some (CVal v))
              ∧ (Forall (fun e' => ∀ r, g e' = PDict r → is_int64 (record_cell k r) = true)
                   es → col !! i = Some (CVal v))).
  { intros rs name Hrs Hg Hname.
    destruct (section_column es rs g raw name k i e m v Hrs Hname Hi Hg Hk) as [Hcol Hcell].
    eexists. split; [exact Hcol|]. split.
    { rewrite length_unify, length_map. apply (f_equal length) in Hrs.
      rewrite !length_map in Hrs. exact Hrs. }
    split; [apply unify_value; exact Hcell|]. split; intros Hall.
    - rewrite unify_text; [exact Hcell|]. apply (cells_of_records g es rs k _ Hrs Hall).
    - rewrite unify_int64; [exact Hcell|]. apply (cells_of_records g es rs k _ Hrs Hall). }
  destruct Hsec as [[-> ->] | [[-> ->] | [-> ->]]].
  - apply (Hsub main_rs _ Hmain); [|exact Lmain].
    unfold flattened_main, record_cell. rewrite Hm. exact Hnorm.
  - apply (Hsub wind_rs _ Hwind); [|exact Lwind].
    unfold flattened_wind, record_cell. rewrite Hm. exact Hnorm.
  - assert (Hin : In e es) by (apply list_elem_of_In, list_elem_of_lookup; eauto).
    rewrite (present_column es e "clouds" _ Hin Hm) in Hclouds.
    apply (Hsub clouds_rs _ Hclouds); [|exact Lclouds].
    unfold flattened_clouds, record_cell. rewrite Hm. exact Hnorm.
Qed.

Lemma forecast_flat_fields_kept_witness :
  ∃ raw col,
    forecast_frame (PList (map PDict [clear_sky_entry; rainy_entry])) = Returned raw
    ∧ lookup_column (columns (fill_defaults raw)) "main.humidity" = Some col
    ∧ col !! 0 = Some (CVal (PInt 40)).
Proof.
  destruct (forecast_frame_total [clear_sky_entry; rainy_entry] eq_refl) as [raw H].
  destruct (forecast_flat_fields_kept _ raw H 0 clear_sky_entry "main" flattened_main
              [("temp", PFloat "21.5"); ("feels_like", PFloat "20.9"); ("humidity", PInt 40)]
              "humidity" (PInt 40) eq_refl (or_introl (conj eq_refl eq_refl)) eq_refl
              ltac:(repeat constructor) eq_refl) as (col & Hcol & _ & _ & _ & Hint).
  exists raw, col. split; [exact H|]. split; [exact Hcol|].
  apply Hint. repeat constructor; intros r Hr; vm_compute in Hr; inversion Hr; reflexivity.
Defined.

(** X9.  The defaults fill whole columns only, and a missing value widens
    its column.  When some entry carries a field of its [main], [wind] or
    first weather condition and another entry does not, the column
    exists and the other entry's row holds the missing-value marker: not
    the default, so not the empty string for a missing description.  The
    first entry's row holds the string itself when the field is a string
    wherever it occurs, and the float of the same value when the field is
    an integer there and a number wherever it occurs: next to a missing
    value 40 becomes 40.0. *)
Theorem forecast_partly_missing_field (es : list pydict) (raw : DataFrame) :
  forecast_frame (PList (map PDict es)) = Returned raw →
  ∀ i j ei ej rj k v section (g : pydict → pyval),
    es !! i = Some ei → es !! j = Some ej →
    (section = "main" ∧ g = flattened_main) ∨ (section = "wind" ∧ g = flattened_wind)
    ∨ (section = "weather" ∧ g = flattened_weather) →
    lacks k (g ei) →
    g ej = PDict rj → dict_get rj k = Some v →
    ∃ col, lookup_column (columns (fill_defaults raw)) (section +:+ "." +:+ k) = Some col
           ∧ col !! i = Some CNaN
           ∧ (∀ s, v = PStr s →
                Forall (fun e => ∀ r, g e = PDict r →
                                 is_text_or_missing (record_cell k r) = true) es →
                col !! j = Some (CVal (PStr s)))
           ∧ (∀ z, v = PInt z →
                Forall (fun e => ∀ r, g e = PDict r →
                                 is_number_or_missing (record_cell k r) = true) es →
                col !! j = Some (CVal (PFloat (float_of_int z)))).
Proof.
  intros H i j ei ej rj k v section g Hi Hj Hsec Hlacks Hgj Hk.
  destruct (forecast_frame_columns es raw H)
    as (_ & Hn & main_rs & wind_rs & weather_rs & clouds_rs & dt
        & Hmain & Hwind & Hweather & _ & _ & _ & _ & Hl).
  destruct (Hl k) as (Lmain & Lwind & Lweather & _).
  assert (Hsub : ∀ rs name,
            map PDict rs = map g es →
            lookup_column (columns raw) name
            = lookup_column (columns (frame_of_records rs)) k →
            ∃ col, lookup_column (columns (fill_defaults raw)) name = Some col
                   ∧ col !! i = Some CNaN
                   ∧ (∀ s, v = PStr s →
                        Forall (fun e => ∀ r, g e = PDict r →
                                         is_text_or_missing (record_cell k r) = true) es →
                        col !! j = Some (CVal (PStr s)))
                   ∧ (∀ z, v = PInt z →
                        Forall (fun e => ∀ r, g e = PDict r →
                                         is_number_or_missing (record_cell k r) = true) es →
                        col !! j = Some (CVal (PFloat (float_of_int z))))).
  { intros rs name Hrs Hname.
    destruct (section_column es rs g raw name k j ej rj v Hrs Hname Hj Hgj Hk)
      as [Hcol Hcellj].
    destruct (subframe_row rs es g i ei Hrs Hi) as (ri & Hri & Hgi).
    assert (Hcelli : map (record_cell k) rs !! i = Some CNaN).
    { rewrite lookup_map, Hri. simpl. unfold record_cell. rewrite (Hlacks ri Hgi).
      reflexivity. }
    eexists. split; [exact Hcol|]. split; [apply unify_missing; exact Hcelli|]. split.
    - intros s -> Hall. rewrite unify_text; [exact Hcellj|].
      apply (cells_of_records g es rs k _ Hrs Hall).
    - intros z -> Hall.
      pose proof (cells_of_records g es rs k _ Hrs Hall) as Hnum.
      rewrite unify_widened; [rewrite list_lookup_fmap, Hcellj; reflexivity|exact Hnum| |].
      + apply existsb_exists. exists (CVal (PInt z)).
        split; [apply list_elem_of_In, list_elem_of_lookup; eauto|].
        rewrite forallb_forall in Hnum.
        specialize (Hnum (CVal (PInt z))
                      ltac:(apply list_elem_of_In, list_elem_of_lookup; eauto)).
        unfold is_number_or_missing in Hnum. rewrite orb_false_r in Hnum. exact Hnum.
      + apply existsb_exists. exists CNaN.
        split; [apply list_elem_of_In, list_elem_of_lookup; eauto|reflexivity]. }
  destruct Hsec as [[-> ->] | [[-> ->] | [-> ->]]].
  - apply (Hsub main_rs _ Hmain). exact Lmain.
  - apply (Hsub wind_rs _ Hwind). exact Lwind.
  - apply (Hsub weather_rs _ Hweather). exact Lweather.
Qed.

(** The description of the second entry is missing, and its humidity too:
    the humidity column is 40.0 and NaN. *)
Lemma forecast_partly_missing_field_witness :
  ∃ raw description humidity,
    forecast_frame (PList (map PDict [clear_sky_entry; bare_entry])) = Returned raw
    ∧ lookup_column (columns (fill_defaults raw)) "weather.description" = Some description
    ∧ description !! 0 = Some (CVal (PStr "clear sky"))
    ∧ description !! 1 = Some CNaN
    ∧ lookup_column (columns (fill_defaults raw)) "main.humidity" = Some humidity
    ∧ humidity !! 0 = Some (CVal (PFloat "40.0"))
    ∧ humidity !! 1 = Some CNaN.
Proof.
  destruct (forecast_frame_total [clear_sky_entry; bare_entry] eq_refl) as [raw H].
  destruct (forecast_partly_missing_field _ raw H 1 0 bare_entry clear_sky_entry
              [("description", PStr "clear sky"); ("icon", PStr "01d")]
              "description" (PStr "clear sky") "weather" flattened_weather
              eq_refl eq_refl (or_intror (or_intror (conj eq_refl eq_refl))))
    as (description & Hd & Hd1 & Hd0 & _).
  { intros r Hr. vm_compute in Hr. inversion Hr. reflexivity. }
  { reflexivity. }
  { reflexivity. }
  destruct (forecast_partly_missing_field _ raw H 1 0 bare_entry clear_sky_entry
              [("temp", PFloat "21.5"); ("feels_like", PFloat "20.9"); ("humidity", PInt 40)]
              "humidity" (PInt 40) "main" flattened_main
              eq_refl eq_refl (or_introl (conj eq_refl eq_refl)))
    as (humidity & Hh & Hh1 & _ & Hh0).
  { intros r Hr. vm_compute in Hr. inversion Hr. reflexivity. }
  { reflexivity. }
  { reflexivity. }
  exists raw, description, humidity. split; [exact H|]. split; [exact Hd|].
  split; [apply (Hd0 "clear sky" eq_refl)|]. 2: split; [exact Hd1|].
  - repeat constructor; intros r Hr; vm_compute in Hr; inversion Hr; reflexivity.
  - split; [exact Hh|]. split; [|exact Hh1].
    apply (Hh0 40%Z eq_refl).
    repeat constructor; intros r Hr; vm_compute in Hr; inversion Hr; reflexivity.
Defined.

(** *** The defaults loop, again *)

Lemma fill_defaults_other (result : DataFrame) (name : string) :
  dict_get DEFAULT_COLUMNS name = None →
  lookup_column (columns (fill_defaults result)) name = lookup_column (columns result) name.
Proof.
  unfold fill_defaults. generalize DEFAULT_COLUMNS. intros ds. revert result.
  induction ds as [|[n v] ds IH]; intros result Hd; simpl in *; [reflexivity|].
  destruct (String.eqb n name) eqn:E; [discriminate|].
  rewrite (IH _ Hd). destruct (negb _); [|reflexivity]. simpl.
  apply lookup_set_column_ne. exact E.
Qed.

Lemma fill_defaults_has (result : DataFrame) (name : string) (default : pyval) :
  dict_get DEFAULT_COLUMNS name = Some default →
  has_column (fill_defaults result) name = true.
Proof.
  intros Hd. rewrite has_column_lookup.
  destruct (lookup_column (columns result) name) as [c|] eqn:E.
  - rewrite (fill_defaults_keeps result name c E). reflexivity.
  - rewrite (fill_defaults_adds result name default Hd E). reflexivity.
Qed.

(** X10.  The defaults loop is idempotent: a table that went through it
    has the five columns, so a second pass changes nothing. *)
Theorem fill_defaults_idempotent (result : DataFrame) :
  fill_defaults (fill_defaults result) = fill_defaults result.
Proof.
  assert (H : ∀ name default, dict_get DEFAULT_COLUMNS name = Some default →
                              has_column (fill_defaults result) name = true)
    by (intros; eapply fill_defaults_has; eassumption).
  generalize dependent (fill_defaults result). intros t H.
  unfold fill_defaults, DEFAULT_COLUMNS. cbn [fold_left fst snd].
  rewrite (H "main.temp" PNone eq_refl). cbn [negb].
  rewrite (H "main.feels_like" PNone eq_refl). cbn [negb].
  rewrite (H "main.humidity" PNone eq_refl). cbn [negb].
  rewrite (H "wind.speed" PNone eq_refl). cbn [negb].
  rewrite (H "weather.description" (PStr "") eq_refl). reflexivity.
Qed.

(** X11.  [clouds] is the one optional sub-object, read with
    [df.get("clouds", {})]: well-formed entries none of which has a
    [clouds] key still give a table, and the table has no [clouds.*]
    column. *)
Theorem forecast_clouds_optional (es : list pydict) :
  entries_well_formed es = true →
  Forall (fun e => dict_get e "clouds" = None) es →
  ∃ raw, forecast_frame (PList (map PDict es)) = Returned raw
         ∧ ∀ k, lookup_column (columns (fill_defaults raw)) ("clouds." +:+ k) = None.
Proof.
  intros Hwf Hnone. destruct (forecast_frame_total es Hwf) as [raw H].
  exists raw. split; [exact H|]. intros k.
  rewrite fill_defaults_other by reflexivity.
  destruct (forecast_frame_columns es raw H)
    as (_ & _ & main_rs & wind_rs & weather_rs & clouds_rs & dt
        & _ & _ & _ & Hclouds & _ & _ & _ & Hl).
  rewrite (absent_column es "clouds" Hnone) in Hclouds. subst clouds_rs.
  destruct (Hl k) as (_ & _ & _ & Lclouds). rewrite Lclouds. reflexivity.
Qed.

Lemma forecast_clouds_optional_witness :
  ∃ raw, forecast_frame (PList (map PDict [bare_entry])) = Returned raw
         ∧ lookup_column (columns (fill_defaults raw)) ("clouds." +:+ "all") = None.
Proof.
  destruct (forecast_clouds_optional [bare_entry] eq_refl ltac:(repeat constructor))
    as [raw [H Hk]].
  exists raw. split; [exact H|apply Hk].
Defined.

(* --------------------------------------------------------------------- *)
(** ** The credential resolver, further *)
(* --------------------------------------------------------------------- *)

Ltac resolver_by_cases env :=
  unfold Credentials.get_api_key_from_env_or_ui, Credentials.offered, Credentials.of_getenv;
  destruct (Credentials.secrets_get env) as [?|secret];
    [|destruct (py_truthy secret) eqn:?];
  destruct (Credentials.getenv env) as [s|]; simpl;
  repeat match goal with H : py_truthy _ = _ |- _ => rewrite H end; simpl;
  try destruct (String.eqb s ""); simpl;
  try destruct (String.eqb (Credentials.text_input env) "") eqn:?; simpl.

(** X12.  The flag returned with the key tells whether the key came from
    the secrets store: it is set exactly when the store returned a
    non-empty value (a store that raises counts as empty), and then the
    key is that value and neither the environment nor the sidebar field
    was consulted; when it is not set, the environment was consulted. *)
Theorem resolver_from_secrets (env : Credentials.sources) :
  let '((api_key, from_secrets), consulted) := Credentials.get_api_key_from_env_or_ui env in
  (from_secrets = true ↔ py_truthy (Credentials.offered env Credentials.Secrets) = true)
  ∧ (from_secrets = true →
     api_key = Credentials.offered env Credentials.Secrets
     ∧ consulted = [Credentials.Secrets])
  ∧ (from_secrets = false → Credentials.Environment ∈ consulted).
Proof.
  resolver_by_cases env;
    (split; [split; intros; congruence|]);
    (split; [intros; try discriminate; auto|]);
    intros; try discriminate; set_solver.
Qed.

(** The key is the first non-empty offer, or the sidebar text. *)
Lemma resolver_key (env : Credentials.sources) :
  (Credentials.get_api_key_from_env_or_ui env).1.1
  = if py_truthy (Credentials.offered env Credentials.Secrets)
    then Credentials.offered env Credentials.Secrets
    else if py_truthy (Credentials.offered env Credentials.Environment)
         then Credentials.offered env Credentials.Environment
         else Credentials.offered env Credentials.Sidebar.
Proof.
  unfold Credentials.get_api_key_from_env_or_ui, Credentials.offered, Credentials.of_getenv.
  destruct (Credentials.secrets_get env) as [?|secret]; simpl.
  - destruct (Credentials.getenv env) as [s|]; simpl; [destruct (String.eqb s "")|];
      reflexivity.
  - destruct (py_truthy secret) eqn:E1; simpl; rewrite ?E1; simpl; [reflexivity|].
    destruct (Credentials.getenv env) as [s|]; simpl; [destruct (String.eqb s "")|];
      reflexivity.
Qed.

(** X13.  The resolver returns an empty key exactly when all three
    sources are empty.  The key is then the empty text of the sidebar
    field, never [None], and all three sources were consulted. *)
Theorem resolver_empty_iff (env : Credentials.sources) :
  let '((api_key, _), consulted) := Credentials.get_api_key_from_env_or_ui env in
  (py_truthy api_key = false
   ↔ Forall (fun s => py_truthy (Credentials.offered env s) = false) Credentials.precedence)
  ∧ (py_truthy api_key = false →
     api_key = PStr "" ∧ consulted = Credentials.precedence).
Proof.
  pose proof (resolver_key env) as Hkey. pose proof (resolver_log env) as Hlog.
  destruct (Credentials.get_api_key_from_env_or_ui env) as [[api_key from_secrets] consulted].
  cbn [fst snd] in Hkey, Hlog. subst api_key consulted.
  unfold Credentials.precedence. rewrite !Forall_cons, Forall_nil.
  cbn [Credentials.up_to_first_nonempty].
  destruct (py_truthy (Credentials.offered env Credentials.Secrets)) eqn:E1;
    [split; [split; [congruence|intros [? _]; congruence]|congruence]|].
  destruct (py_truthy (Credentials.offered env Credentials.Environment)) eqn:E2;
    [split; [split; [congruence|intros (_ & ? & _); congruence]|congruence]|].
  destruct (py_truthy (Credentials.offered env Credentials.Sidebar)) eqn:E3.
  - split; [split; [congruence|intros (_ & _ & ? & _); congruence]|congruence].
  - split; [tauto|]. intros _. split; [|reflexivity].
    simpl in E3 |- *. apply negb_false_iff, String.eqb_eq in E3. rewrite E3. reflexivity.
Qed.

Lemma resolver_from_secrets_witness :
  Credentials.get_api_key_from_env_or_ui secret_key_sources
  = ((PStr "0123456789abcdef", true), [Credentials.Secrets]).
Proof.
  pose proof (resolver_from_secrets secret_key_sources) as H.
  destruct (Credentials.get_api_key_from_env_or_ui secret_key_sources)
    as [[api_key from_secrets] consulted] eqn:E.
  destruct H as (Hiff & Hkey & _).
  assert (Hf : from_secrets = true) by (apply Hiff; reflexivity).
  destruct (Hkey Hf) as [-> ->]. rewrite Hf. reflexivity.
Defined.

Lemma resolver_empty_iff_witness :
  Credentials.get_api_key_from_env_or_ui no_key_sources
  = ((PStr "", false), Credentials.precedence).
Proof.
  pose proof (resolver_empty_iff no_key_sources) as H.
  destruct (Credentials.get_api_key_from_env_or_ui no_key_sources)
    as [[api_key from_secrets] consulted] eqn:E.
  destruct H as (Hiff & Hkey).
  assert (Hk : py_truthy api_key = false) by (apply Hiff; repeat constructor).
  destruct (Hkey Hk) as [-> ->]. vm_compute in E. inversion E. reflexivity.
Defined.

(* --------------------------------------------------------------------- *)
(** ** The location block, further *)
(* --------------------------------------------------------------------- *)

Lemma append_nonempty_r (a b : string) : b ≠ "" → a +:+ b ≠ "".
Proof. destruct a; simpl; [auto|discriminate]. Qed.

(** X14.  [format_location_block] either returns a non-empty text or
    raises AttributeError, and which of the two depends on the shape of
    the payload alone: it returns exactly when the payload is an object
    whose [sys] entry is absent or an object. *)
Theorem format_location_block_returns_iff (current : pyval) :
  ((∃ d sys, current = PDict d ∧ field d "sys" (PDict []) = PDict sys)
   → ∃ s, format_location_block current = Returned s ∧ s ≠ "")
  ∧ ((¬ ∃ d sys, current = PDict d ∧ field d "sys" (PDict []) = PDict sys)
     → format_location_block current
       = Raised (AttributeError "object has no attribute 'get'")).
Proof.
  split.
  - intros (d & sys & -> & Hsys). unfold format_location_block. simpl. run.
    unfold field in Hsys. rewrite Hsys. simpl. eexists. split; [reflexivity|].
    destruct (py_truthy _); [|discriminate].
    apply append_nonempty_r. discriminate.
  - intros Hnot. destruct current as [| | | | | |d]; try reflexivity.
    unfold format_location_block. simpl. run.
    destruct (match dict_get d "sys" with Some v => v | None => PDict [] end) as [| | | | | |sys]
      eqn:Hsys; try reflexivity.
    exfalso. apply Hnot. exists d, sys. split; [reflexivity|exact Hsys].
Qed.

Lemma format_location_block_returns_iff_witness :
  (∃ s, format_location_block almaty_payload = Returned s ∧ s ≠ "")
  ∧ format_location_block (PList [PInt 1])
    = Raised (AttributeError "object has no attribute 'get'").
Proof.
  split.
  - apply (proj1 (format_location_block_returns_iff almaty_payload)).
    eexists _, _. split; reflexivity.
  - apply (proj2 (format_location_block_returns_iff (PList [PInt 1]))).
    intros (d & sys & Hd & _). discriminate.
Defined.

(* --------------------------------------------------------------------- *)
(** ** The session, further *)
(* --------------------------------------------------------------------- *)

Lemma sent_extend (l : list request) (r x : request) (n : nat) :
  n < length l → l !! n = Some x →
  n < length (l ++ [r]) ∧ (l ++ [r]) !! n = Some x.
Proof.
  intros Hn Hx. split; [rewrite length_app; lia|]. apply lookup_app_l_Some. exact Hx.
Qed.

Lemma sent_last (l : list request) (r : request) :
  length l < length (l ++ [r]) ∧ (l ++ [r]) !! length l = Some r.
Proof.
  split; [rewrite length_app; simpl; lia|]. apply list_lookup_middle. reflexivity.
Qed.

Lemma cache_sound_run_call (w : Session.world) (c : Session.call) (s : Session.session) :
  cache_sound w s → cache_sound w (Session.run_call w c s).
Proof.
  intros [Hw Hf].
  destruct c as [[[[city0 key0] units0] lang0]|[[[city0 key0] units0] lang0]]; simpl.
  - unfold Session.cached_fetch_current_weather, Session.cache_data.
    destruct (Session.weather_cache s !! (city0, key0, units0, lang0)) as [v0|] eqn:Hk;
      simpl; [split; assumption|].
    split; cbn [Session.weather_cache Session.forecast_cache Session.sent].
    + intros city api_key units lang v Hv.
      destruct (fetch_current_weather (w (length (Session.sent s))) city0 key0 units0 lang0)
        as [v0| |] eqn:Hfetch.
      * destruct (decide ((city0, key0, units0, lang0) = (city, api_key, units, lang)))
          as [Heq|Hne].
        -- inversion Heq; subst. rewrite lookup_insert_eq in Hv. inversion Hv; subst v0.
           exists (length (Session.sent s)).
           destruct (sent_last (Session.sent s) (weather_request city api_key units lang)).
           auto.
        -- rewrite lookup_insert_ne in Hv by exact Hne.
           destruct (Hw _ _ _ _ _ Hv) as (n & Hn & Hs & Hr). exists n.
           destruct (sent_extend _ (weather_request city0 key0 units0 lang0) _ _ Hn Hs). auto.
      * destruct (Hw _ _ _ _ _ Hv) as (n & Hn & Hs & Hr). exists n.
        destruct (sent_extend _ (weather_request city0 key0 units0 lang0) _ _ Hn Hs). auto.
      * destruct (Hw _ _ _ _ _ Hv) as (n & Hn & Hs & Hr). exists n.
        destruct (sent_extend _ (weather_request city0 key0 units0 lang0) _ _ Hn Hs). auto.
    + intros city api_key units lang v Hv.
      destruct (Hf _ _ _ _ _ Hv) as (n & Hn & Hs & Hr). exists n.
      destruct (sent_extend _ (weather_request city0 key0 units0 lang0) _ _ Hn Hs). auto.
  - unfold Session.cached_fetch_forecast, Session.cache_data.
    destruct (Session.forecast_cache s !! (city0, key0, units0, lang0)) as [v0|] eqn:Hk;
      simpl; [split; assumption|].
    split; cbn [Session.weather_cache Session.forecast_cache Session.sent].
    + intros city api_key units lang v Hv.
      destruct (Hw _ _ _ _ _ Hv) as (n & Hn & Hs & Hr). exists n.
      destruct (sent_extend _ (forecast_request city0 key0 units0 lang0) _ _ Hn Hs). auto.
    + intros city api_key units lang v Hv.
      destruct (fetch_forecast (w (length (Session.sent s))) city0 key0 units0 lang0)
        as [v0| |] eqn:Hfetch.
      * destruct (decide ((city0, key0, units0, lang0) = (city, api_key, units, lang)))
          as [Heq|Hne].
        -- inversion Heq; subst. rewrite lookup_insert_eq in Hv. inversion Hv; subst v0.
           exists (length (Session.sent s)).
           destruct (sent_last (Session.sent s) (forecast_request city api_key units lang)).
           auto.
        -- rewrite lookup_insert_ne in Hv by exact Hne.
           destruct (Hf _ _ _ _ _ Hv) as (n & Hn & Hs & Hr). exists n.
           destruct (sent_extend _ (forecast_request city0 key0 units0 lang0) _ _ Hn Hs). auto.
      * destruct (Hf _ _ _ _ _ Hv) as (n & Hn & Hs & Hr). exists n.
        destruct (sent_extend _ (forecast_request city0 key0 units0 lang0) _ _ Hn Hs). auto.
      * destruct (Hf _ _ _ _ _ Hv) as (n & Hn & Hs & Hr). exists n.
        destruct (sent_extend _ (forecast_request city0 key0 units0 lang0) _ _ Hn Hs). auto.
Qed.

(** X16.  The caches only ever hold genuine results.  In a session that
    started empty, whatever calls were made, every cached value is what
    the fetcher returned for those arguments on the network as it was when
    one of the session's requests, the request for those arguments, was
    sent: a hit may be stale, it is never invented. *)
Theorem session_cache_sound (w : Session.world) (cs : list Session.call) :
  cache_sound w (Session.run_calls w cs Session.fresh).
Proof.
  assert (H : ∀ s, cache_sound w s → cache_sound w (Session.run_calls w cs s)).
  { induction cs as [|c cs IH]; intros s Hs; [exact Hs|].
    unfold Session.run_calls in *. simpl. apply IH, cache_sound_run_call, Hs. }
  apply H. split; intros city api_key units lang v Hv; simpl in Hv;
    rewrite lookup_empty in Hv; discriminate.
Qed.

(** A value a cached fetcher returns in a sound session is a value the
    fetcher itself returned on some network. *)
(** Running the page monad. *)
Ltac app_run :=
  cbv beta iota zeta delta
    [mbind mret App.app_bind App.app_ret App.emit App.lift App.lift_result App.of_outcome
     App.fail App.not_modelled App.page App.session outcome_bind outcome_ret];
  rewrite <- ?app_assoc.

Lemma cached_forecast_genuine (w : Session.world) (city api_key units lang : string)
    (s s' : Session.session) (r : option DataFrame * option string) :
  cache_sound w s →
  Session.cached_fetch_forecast w (city, api_key, units, lang) s = (Returned r, s') →
  ∃ net, fetch_forecast net city api_key units lang = Returned r.
Proof.
  intros [_ Hf]. unfold Session.cached_fetch_forecast, Session.cache_data.
  destruct (Session.forecast_cache s !! (city, api_key, units, lang)) as [v|] eqn:Hk.
  - intros H. inversion H; subst. destruct (Hf _ _ _ _ _ Hk) as (n & _ & _ & Hn). eauto.
  - intros H. inversion H as [[Hr Hs]]. eauto.
Qed.

Lemma cached_weather_genuine (w : Session.world) (city api_key units lang : string)
    (s s' : Session.session) (r : pyval * option string) :
  cache_sound w s →
  Session.cached_fetch_current_weather w (city, api_key, units, lang) s = (Returned r, s') →
  ∃ net, fetch_current_weather net city api_key units lang = Returned r.
Proof.
  intros [Hw _]. unfold Session.cached_fetch_current_weather, Session.cache_data.
  destruct (Session.weather_cache s !! (city, api_key, units, lang)) as [v|] eqn:Hk.
  - intros H. inversion H; subst. destruct (Hw _ _ _ _ _ Hk) as (n & _ & _ & Hn). eauto.
  - intros H. inversion H as [[Hr Hs]]. eauto.
Qed.

(* --------------------------------------------------------------------- *)
(** ** The page *)
(* --------------------------------------------------------------------- *)

(** The columns the charts and the table of the forecast panel name are
    columns of every table [fetch_forecast] returns. *)
Lemma table_columns_present (net : network) (city api_key units lang : string)
    (table : DataFrame) (err : option string) :
  fetch_forecast net city api_key units lang = Returned (Some table, err) →
  err = None
  ∧ Forall (fun name => ∃ c, lookup_column (columns table) name = Some c)
      ("dt" :: App.display_cols).
Proof.
  intros H. destruct (fetch_forecast_table _ _ _ _ _ _ _ H)
    as (resp & d & raw & _ & _ & _ & _ & Hf & -> & ->).
  split; [reflexivity|].
  destruct (forecast_frame_nrows _ _ Hf) as (es & Hne & Hlist & Hn).
  rewrite Hlist in Hf.
  destruct (forecast_frame_columns es raw Hf)
    as (_ & _ & main_rs & wind_rs & weather_rs & clouds_rs & dt
        & _ & _ & _ & _ & _ & Ldt & Ltxt & _).
  assert (Hdef : ∀ name default, dict_get DEFAULT_COLUMNS name = Some default →
            ∃ c, lookup_column (columns (fill_defaults raw)) name = Some c).
  { intros name default Hd. pose proof (fill_defaults_has raw name default Hd) as Hh.
    rewrite has_column_lookup in Hh. destruct (lookup_column _ name); [eauto|discriminate]. }
  unfold App.display_cols. repeat constructor.
  - eexists. apply fill_defaults_keeps. exact Ldt.
  - eexists. apply fill_defaults_keeps. exact Ltxt.
  - apply (Hdef _ PNone). reflexivity.
  - apply (Hdef _ PNone). reflexivity.
  - apply (Hdef _ PNone). reflexivity.
  - apply (Hdef _ PNone). reflexivity.
  - apply (Hdef _ (PStr "")). reflexivity.
Qed.

(** What the forecast panel draws for a result of [fetch_forecast]. *)
Lemma render_forecast_returned (net : network) (city api_key units lang : string)
    (units_label : string) (r : option DataFrame * option string) (st : App.state) :
  fetch_forecast net city api_key units lang = Returned r →
  ∃ shown,
    App.render_forecast units_label r st
    = (App.Done tt, {| App.page := App.page st ++ shown; App.session := App.session st |})
    ∧ match r with
      | (Some table, err) =>
          err = None
          ∧ if App.df_empty table
            then shown = [(App.InCol2, App.Error App.FORECAST_FAILED)]
            else ∃ fig_temp fig_hum fig_wind view,
                shown = [(App.InCol2, App.PlotlyChart fig_temp);
                         (App.InCol2, App.PlotlyChart fig_hum);
                         (App.InCol2, App.PlotlyChart fig_wind);
                         (App.InCol2, App.Expander "Таблица прогноза");
                         (App.InExpander, App.Dataframe view)]
                ∧ map App.fig_x [fig_temp; fig_hum; fig_wind] = ["dt"; "dt"; "dt"]
                ∧ map App.fig_y [fig_temp; fig_hum; fig_wind]
                  = ["main.temp"; "main.humidity"; "wind.speed"]
                ∧ nrows view = nrows table
                ∧ column_names view = map snd (App.display_names units_label)
                ∧ map Some (map snd (columns view))
                  = map (lookup_column (columns table)) App.display_cols
      | (None, Some err) =>
          shown = [(App.InCol2, App.Error App.FORECAST_FAILED); (App.InCol2, App.Code err)]
      | (None, None) => False
      end.
Proof.
  intros H. destruct r as [[table|] err].
  - destruct (table_columns_present _ _ _ _ _ _ _ H) as [-> Hcols].
    unfold App.display_cols in Hcols.
    repeat match goal with
           | H : Forall _ (_ :: _) |- _ =>
               let Hx := fresh "Hx" in let Hr := fresh "Hr" in
               inversion H as [|? ? Hx Hr]; subst; clear H; destruct Hx as [? Hx]
           end.
    unfold App.render_forecast. destruct (App.df_empty table) eqn:He.
    { app_run. eexists. split; [reflexivity|]. split; reflexivity. }
    unfold App.px_line, App.getitem_list, App.display_cols. cbn [App.select_columns].
    repeat match goal with
           | Hx : lookup_column _ ?n = Some _ |- context [lookup_column (columns table) ?n] =>
               rewrite Hx
           end.
    app_run. eexists. split; [reflexivity|]. split; [reflexivity|].
    eexists _, _, _, _. split; [reflexivity|].
    repeat split. cbn [map columns App.rename_columns snd].
    repeat match goal with Hx : lookup_column _ _ = Some _ |- _ => rewrite Hx; clear Hx end.
    reflexivity.
  - destruct (fetch_forecast_no_table _ _ _ _ _ _ H) as (e & -> & Hne).
    rename e into err.
    assert (Ht : App.err_truthy (Some err) = true).
    { simpl. destruct (String.eqb err "") eqn:E; [|reflexivity].
      apply String.eqb_eq in E. contradiction. }
    unfold App.render_forecast. rewrite Ht. app_run.
    eexists. split; reflexivity.
Qed.

(** X17.  The forecast panel never fails on what [fetch_forecast]
    returns.  A table that is not empty is drawn as three charts over
    [dt] (temperature, humidity, wind speed) and, in the expander, the six
    display columns under their display names, one row per table row: no
    column the panel names is ever missing.  A table that is empty comes
    without an error, and is drawn as the failure banner alone.  An error
    is drawn as the banner and the diagnostic. *)
Theorem render_forecast_never_fails (net : network) (city api_key units lang : string)
    (units_label : string) (r : option DataFrame * option string) (st : App.state) :
  fetch_forecast net city api_key units lang = Returned r →
  ∃ shown,
    App.render_forecast units_label r st
    = (App.Done tt, {| App.page := App.page st ++ shown; App.session := App.session st |})
    ∧ match r with
      | (Some table, err) =>
          err = None
          ∧ if App.df_empty table
            then shown = [(App.InCol2, App.Error App.FORECAST_FAILED)]
            else ∃ fig_temp fig_hum fig_wind view,
                shown = [(App.InCol2, App.PlotlyChart fig_temp);
                         (App.InCol2, App.PlotlyChart fig_hum);
                         (App.InCol2, App.PlotlyChart fig_wind);
                         (App.InCol2, App.Expander "Таблица прогноза");
                         (App.InExpander, App.Dataframe view)]
                ∧ map App.fig_x [fig_temp; fig_hum; fig_wind] = ["dt"; "dt"; "dt"]
                ∧ map App.fig_y [fig_temp; fig_hum; fig_wind]
                  = ["main.temp"; "main.humidity"; "wind.speed"]
                ∧ nrows view = nrows table
                ∧ column_names view = map snd (App.display_names units_label)
                ∧ map Some (map snd (columns view))
                  = map (lookup_column (columns table)) App.display_cols
      | (None, Some err) =>
          shown = [(App.InCol2, App.Error App.FORECAST_FAILED); (App.InCol2, App.Code err)]
      | (None, None) => False
      end.
Proof. apply render_forecast_returned. Qed.

Lemma render_forecast_never_fails_witness :
  ∃ shown,
    App.render_forecast "metric" (Some bare_table, None) (App.start Session.fresh)
    = (App.Done tt, {| App.page := shown; App.session := Session.fresh |})
    ∧ length shown = 5.
Proof.
  destruct (render_forecast_never_fails
              (always (forecast_200 (PList [PDict bare_entry]))) "Almaty" "k" "metric" "ru"
              "metric" (Some bare_table, None) (App.start Session.fresh) eq_refl)
    as (shown & Hrun & _ & f1 & f2 & f3 & view & -> & _).
  eexists. split; [exact Hrun|reflexivity].
Defined.

(* --------------------------------------------------------------------- *)
(** ** [main] *)
(* --------------------------------------------------------------------- *)

Lemma resolver_empty_consults_all (env : Credentials.sources) :
  py_truthy (Credentials.get_api_key_from_env_or_ui env).1.1 = false →
  (Credentials.get_api_key_from_env_or_ui env).2 = Credentials.precedence.
Proof.
  rewrite resolver_key, resolver_log. unfold Credentials.precedence.
  cbn [Credentials.up_to_first_nonempty].
  destruct (py_truthy (Credentials.offered env Credentials.Secrets)) eqn:E1; [congruence|].
  destruct (py_truthy (Credentials.offered env Credentials.Environment)) eqn:E2; [congruence|].
  destruct (py_truthy (Credentials.offered env Credentials.Sidebar)) eqn:E3; [congruence|].
  reflexivity.
Qed.

(** X18.  Without a key nothing is fetched.  When no source offers a key,
    [main] draws the page head, the sidebar with the masked key field and
    the warning, and stops: neither fetcher is called, no request is sent
    and the session is left as it was. *)
Theorem main_without_key (w : Session.world) (inp : App.inputs)
    (env : Credentials.sources) (st : App.state) :
  py_truthy (Credentials.get_api_key_from_env_or_ui env).1.1 = false →
  App.main w inp env st
  = (App.Failed App.StopException,
     {| App.page := App.page st ++ page_head env ++ [(App.InPage, App.Warning App.NO_KEY)];
        App.session := App.session st |})
  ∧ (App.InSidebar, App.TextInput "API ключ OpenWeather" true) ∈ page_head env.
Proof.
  intros Hk. pose proof (resolver_empty_consults_all env Hk) as Hc.
  unfold page_head. rewrite Hc. cbn [existsb Credentials.precedence orb].
  split; [|set_solver].
  unfold App.main, App.resolve.
  destruct (Credentials.get_api_key_from_env_or_ui env) as [[api_key from_secrets] consulted].
  cbn [fst snd] in Hk, Hc. subst consulted. cbn [existsb Credentials.precedence orb].
  app_run. rewrite Hk. cbn [negb]. app_run. reflexivity.
Qed.

Lemma main_without_key_witness :
  ∃ shown,
    App.main fading_world almaty_inputs no_key_sources (App.start Session.fresh)
    = (App.Failed App.StopException, {| App.page := shown; App.session := Session.fresh |})
    ∧ last shown = Some (App.InPage, App.Warning App.NO_KEY).
Proof.
  destruct (main_without_key fading_world almaty_inputs no_key_sources
              (App.start Session.fresh) eq_refl) as [H _].
  eexists. split; [exact H|reflexivity].
Defined.

(** The rest of [main] once the key is resolved and the current
    conditions are fetched. *)
Lemma main_with_key (w : Session.world) (inp : App.inputs) (env : Credentials.sources)
    (st : App.state) (key : string) (current : pyval * option string)
    (s1 : Session.session) :
  (Credentials.get_api_key_from_env_or_ui env).1.1 = PStr key → key ≠ "" →
  Session.cached_fetch_current_weather w (fetch_key inp key) (App.session st)
  = (Returned current, s1) →
  App.main w inp env st
  = (App.render_current (App.units_label inp) current;;
     App.emit App.InCol2 (App.Subheader "Прогноз (5 дней / 3 часа)");;
     forecast ← App.call_forecast w (fetch_key inp key);
     App.render_forecast (App.units_label inp) forecast;;
     App.emit FOOTER.1 FOOTER.2)
      {| App.page :=
           App.page st ++ page_head env
           ++ [(App.InPage, App.Columns [1; 2]%Z);
               (App.InCol1, App.Subheader "Текущая погода")];
         App.session := s1 |}.
Proof.
  intros Hkey Hne Hcall. destruct st as [pg ss]. cbn [App.page App.session] in *.
  unfold page_head, App.main, App.resolve.
  destruct (Credentials.get_api_key_from_env_or_ui env) as [[api_key from_secrets] consulted].
  cbn [fst snd] in Hkey |- *. subst api_key.
  assert (Ht : py_truthy (PStr key) = true).
  { simpl. destruct (String.eqb key "") eqn:E; [|reflexivity].
    apply String.eqb_eq in E. contradiction. }
  unfold App.api_key_text, App.call_weather, fetch_key in *.
  destruct (existsb _ consulted); app_run; rewrite Ht; cbn [negb]; app_run;
    rewrite Hcall; app_run; reflexivity.
Qed.

Lemma fetch_current_weather_error (net : network) (city api_key units lang : string)
    (payload : pyval) (err : string) :
  fetch_current_weather net city api_key units lang = Returned (payload, Some err) →
  payload = PNone ∧ err ≠ "".
Proof.
  intros H.
  destruct (net (weather_request city api_key units lang)) as [e|resp] eqn:Hnet.
  - unfold fetch_current_weather, requests_get in H. unfold weather_request in Hnet.
    rewrite Hnet in H. destruct e; simpl in H; inversion H.
    split; [reflexivity|apply network_error_nonempty].
  - destruct (decide (status_code resp = 200%Z)) as [Hs|Hs].
    + rewrite (fetch_current_weather_ok _ _ _ _ _ _ Hnet Hs) in H.
      unfold response_json, of_sum in H. run.
      destruct (json resp) as [e|body]; [|discriminate].
      destruct e; simpl in H; inversion H. split; [reflexivity|apply network_error_nonempty].
    + destruct (fetch_current_weather_http_error _ _ _ _ _ _ Hnet Hs) as [m [_ Hm]].
      rewrite Hm in H. inversion H. split; [reflexivity|apply http_error_nonempty].
Qed.

(** What the current panel draws when there is no payload to show. *)
Lemma render_current_falsy (units_label : string) (payload : pyval) (err : option string)
    (st : App.state) :
  py_truthy payload = false →
  App.render_current units_label (payload, err) st
  = (App.Done tt,
     {| App.page :=
          App.page st ++ (App.InCol1, App.Error App.CURRENT_FAILED)
          :: match err with
             | Some e => if App.err_truthy err then [(App.InCol1, App.Code e)] else []
             | None => []
             end;
        App.session := App.session st |}).
Proof.
  intros Hp. unfold App.render_current. rewrite Hp. cbn [negb].
  destruct err as [e|]; [destruct (App.err_truthy (Some e))|]; app_run;
    rewrite ?app_nil_r; reflexivity.
Qed.

(** X19.  How the current panel shows a failure.  An error returned by
    [fetch_current_weather] is drawn as the banner followed by the
    diagnostic text.  An HTTP 200 whose body is an empty or null JSON
    value (null, {}, [], 0, "", false) is returned as a payload without
    error, and is drawn as the banner alone: the fetch succeeded, the page
    says it failed and gives no diagnostic. *)
Theorem render_current_failure (net : network) (city api_key units lang : string)
    (units_label : string) (st : App.state) :
  (∀ payload err,
     fetch_current_weather net city api_key units lang = Returned (payload, Some err) →
     App.render_current units_label (payload, Some err) st
     = (App.Done tt,
        {| App.page := App.page st ++ [(App.InCol1, App.Error App.CURRENT_FAILED);
                                       (App.InCol1, App.Code err)];
           App.session := App.session st |}))
  ∧ (∀ resp body,
       net (weather_request city api_key units lang) = inr resp →
       status_code resp = 200%Z → json resp = inr body → py_truthy body = false →
       fetch_current_weather net city api_key units lang = Returned (body, None)
       ∧ App.render_current units_label (body, None) st
         = (App.Done tt,
            {| App.page := App.page st ++ [(App.InCol1, App.Error App.CURRENT_FAILED)];
               App.session := App.session st |})).
Proof.
  split.
  - intros payload err H. destruct (fetch_current_weather_error _ _ _ _ _ _ _ H) as [-> Hne].
    rewrite render_current_falsy by reflexivity.
    assert (Ht : App.err_truthy (Some err) = true).
    { simpl. destruct (String.eqb err "") eqn:E; [|reflexivity].
      apply String.eqb_eq in E. contradiction. }
    rewrite Ht. reflexivity.
  - intros resp body Hnet Hs Hj Hb. split.
    + rewrite (fetch_current_weather_ok _ _ _ _ _ _ Hnet Hs).
      unfold response_json, of_sum. rewrite Hj. reflexivity.
    + rewrite render_current_falsy by exact Hb. reflexivity.
Qed.

Lemma render_current_failure_witness :
  App.render_current "metric" (PNone, Some "HTTP 404: city not found")
    (App.start Session.fresh)
  = (App.Done tt,
     {| App.page := [(App.InCol1, App.Error App.CURRENT_FAILED);
                     (App.InCol1, App.Code "HTTP 404: city not found")];
        App.session := Session.fresh |})
  ∧ App.render_current "metric" (PNone, None) (App.start Session.fresh)
    = (App.Done tt,
       {| App.page := [(App.InCol1, App.Error App.CURRENT_FAILED)];
          App.session := Session.fresh |}).
Proof.
  split.
  - apply (proj1 (render_current_failure (always not_found_404) "Atlantis" "k" "metric" "ru"
                    "metric" (App.start Session.fresh))).
    reflexivity.
  - apply (proj2 (render_current_failure (always null_200) "Almaty" "k" "metric" "ru"
                    "metric" (App.start Session.fresh)) null_200 PNone);
      reflexivity.
Defined.

(** X20.  The panels are not independent when the payload is malformed.
    When the current-conditions call returns a payload that is not empty
    and not an object (the body of an HTTP 200 was a JSON array, string
    or number), [main] raises AttributeError as soon as the current panel
    reads the payload: nothing of the forecast panel is drawn and the
    forecast is never fetched. *)
Theorem main_malformed_payload (w : Session.world) (inp : App.inputs)
    (env : Credentials.sources) (st : App.state) (key : string)
    (payload : pyval) (err : option string) (s1 : Session.session) :
  (Credentials.get_api_key_from_env_or_ui env).1.1 = PStr key → key ≠ "" →
  Session.cached_fetch_current_weather w (fetch_key inp key) (App.session st)
  = (Returned (payload, err), s1) →
  py_truthy payload = true → is_dict payload = false →
  App.main w inp env st
  = (App.Failed (App.Exn (AttributeError "object has no attribute 'get'")),
     {| App.page :=
          App.page st ++ page_head env
          ++ [(App.InPage, App.Columns [1; 2]%Z);
              (App.InCol1, App.Subheader "Текущая погода")];
        App.session := s1 |}).
Proof.
  intros Hkey Hne Hcall Ht Hd.
  rewrite (main_with_key w inp env st key (payload, err) s1 Hkey Hne Hcall).
  unfold App.render_current. rewrite Ht. cbn [negb].
  destruct payload; try discriminate; reflexivity.
Qed.

Lemma main_malformed_payload_witness :
  ∃ shown s1,
    App.main (fun _ => always array_200) almaty_inputs env_key_sources
      (App.start Session.fresh)
    = (App.Failed (App.Exn (AttributeError "object has no attribute 'get'")),
       {| App.page := shown; App.session := s1 |})
    ∧ length (Session.sent s1) = 1.
Proof.
  eexists _, _. split.
  - apply (main_malformed_payload (fun _ => always array_200) almaty_inputs env_key_sources
             (App.start Session.fresh) "0123456789abcdef" (PList [PInt 1]) None);
      [reflexivity|discriminate|reflexivity|reflexivity|reflexivity].
  - reflexivity.
Defined.

(** Steps of the page monad. *)
Lemma bind_done {A B} (m : App.app A) (k : A → App.app B) (st st' : App.state) (a : A) :
  m st = (App.Done a, st') → (m ≫= k) st = k a st'.
Proof. intros H. unfold mbind, App.app_bind. rewrite H. reflexivity. Qed.

Lemma emit_then {B} (p : App.place) (e : App.element) (k : App.app B) (st : App.state) :
  (App.emit p e;; k) st
  = k {| App.page := App.page st ++ [(p, e)]; App.session := App.session st |}.
Proof. reflexivity. Qed.

Lemma call_forecast_returned (w : Session.world) (k : Session.key) (st : App.state)
    (r : option DataFrame * option string) (s' : Session.session) :
  Session.cached_fetch_forecast w k (App.session st) = (Returned r, s') →
  App.call_forecast w k st = (App.Done r, {| App.page := App.page st; App.session := s' |}).
Proof. intros H. unfold App.call_forecast. rewrite H. reflexivity. Qed.

Lemma cache_sound_fresh (w : Session.world) : cache_sound w Session.fresh.
Proof.
  split; intros city api_key units lang v Hv; simpl in Hv;
    rewrite lookup_empty in Hv; discriminate.
Qed.

(** X21.  A failed current-conditions fetch does not block the forecast.
    In a session whose caches are sound, when the current-conditions call
    returns no payload and the forecast call returns, [main] runs to its
    end: the current panel shows the failure banner and the diagnostic
    if there is one, the forecast panel is drawn after it, and the footer
    closes the page. *)
Theorem main_survives_weather_error (w : Session.world) (inp : App.inputs)
    (env : Credentials.sources) (st : App.state) (key : string)
    (payload : pyval) (err : option string) (s1 s2 : Session.session)
    (forecast : option DataFrame * option string) :
  cache_sound w (App.session st) →
  (Credentials.get_api_key_from_env_or_ui env).1.1 = PStr key → key ≠ "" →
  Session.cached_fetch_current_weather w (fetch_key inp key) (App.session st)
  = (Returned (payload, err), s1) →
  py_truthy payload = false →
  Session.cached_fetch_forecast w (fetch_key inp key) s1 = (Returned forecast, s2) →
  ∃ forecast_shown,
    App.main w inp env st
    = (App.Done tt,
       {| App.page :=
            App.page st ++ page_head env
            ++ [(App.InPage, App.Columns [1; 2]%Z);
                (App.InCol1, App.Subheader "Текущая погода");
                (App.InCol1, App.Error App.CURRENT_FAILED)]
            ++ match err with
               | Some e => if App.err_truthy err then [(App.InCol1, App.Code e)] else []
               | None => []
               end
            ++ [(App.InCol2, App.Subheader "Прогноз (5 дней / 3 часа)")]
            ++ forecast_shown ++ [FOOTER];
          App.session := s2 |})
    ∧ forecast_shown ≠ [].
Proof.
  intros Hsound Hkey Hne Hweather Hp Hforecast.
  rewrite (main_with_key w inp env st key (payload, err) s1 Hkey Hne Hweather).
  assert (Hs1 : cache_sound w s1).
  { pose proof (cache_sound_run_call w (Session.CallWeather (fetch_key inp key))
                  (App.session st) Hsound) as H.
    unfold Session.run_call in H. rewrite Hweather in H. exact H. }
  destruct (cached_forecast_genuine w _ _ _ _ s1 s2 forecast Hs1 Hforecast) as [net Hnet].
  rewrite (bind_done _ _ _ _ _ (render_current_falsy _ payload err _ Hp)).
  rewrite emit_then.
  rewrite (bind_done _ _ _ _ _
             (call_forecast_returned w _ {| App.page := _; App.session := s1 |}
                forecast s2 Hforecast)).
  match goal with
  | |- context [(App.render_forecast ?u forecast;; _) ?stc] =>
      destruct (render_forecast_returned net _ _ _ _ u forecast stc Hnet)
        as (shown2 & Hrun & Hshape)
  end.
  rewrite (bind_done _ _ _ _ _ Hrun).
  exists shown2. split.
  - unfold App.emit, FOOTER. cbn [App.page App.session fst snd].
    rewrite <- !app_assoc. reflexivity.
  - destruct forecast as [[table|] [e|]]; try contradiction.
    + destruct Hshape as [_ Hshape]. destruct (App.df_empty table).
      * subst shown2. discriminate.
      * destruct Hshape as (f1 & f2 & f3 & view & -> & _). discriminate.
    + destruct Hshape as [_ Hshape]. destruct (App.df_empty table).
      * subst shown2. discriminate.
      * destruct Hshape as (f1 & f2 & f3 & view & -> & _). discriminate.
    + subst shown2. discriminate.
Qed.

Lemma main_survives_weather_error_witness :
  ∃ shown s2,
    App.main error_then_forecast_world almaty_inputs env_key_sources (App.start Session.fresh)
    = (App.Done tt, {| App.page := shown; App.session := s2 |})
    ∧ last shown = Some FOOTER.
Proof.
  set (k := fetch_key almaty_inputs "0123456789abcdef").
  set (c1 := Session.cached_fetch_current_weather error_then_forecast_world k Session.fresh).
  set (c2 := Session.cached_fetch_forecast error_then_forecast_world k c1.2).
  assert (H1 : Session.cached_fetch_current_weather error_then_forecast_world k
                 (App.session (App.start Session.fresh))
               = (Returned (PNone, Some "HTTP 404: city not found"), c1.2))
    by (vm_compute; reflexivity).
  assert (H2 : Session.cached_fetch_forecast error_then_forecast_world k c1.2
               = (Returned (Some bare_table, None), c2.2))
    by (vm_compute; reflexivity).
  destruct (main_survives_weather_error error_then_forecast_world almaty_inputs
              env_key_sources (App.start Session.fresh) "0123456789abcdef"
              PNone (Some "HTTP 404: city not found") c1.2 c2.2 (Some bare_table, None)
              (cache_sound_fresh _) eq_refl ltac:(discriminate) H1 eq_refl H2)
    as (shown2 & Hrun & _).
  eexists _, _. split; [exact Hrun|].
  rewrite !app_assoc. apply last_snoc.
Defined.

(** Reading a field of something that is not an object. *)
Lemma py_get_not_dict (v : pyval) (key : string) (default : pyval) :
  is_dict v = false →
  py_get v key default = Raised (AttributeError "object has no attribute 'get'").
Proof. destruct v; try discriminate; reflexivity. Qed.

Lemma field_object (d : pydict) (key : string) :
  if object_or_absent d key
  then ∃ d', match dict_get d key with Some v => v | None => PDict [] end = PDict d'
  else is_dict (match dict_get d key with Some v => v | None => PDict [] end) = false.
Proof.
  unfold object_or_absent. destruct (dict_get d key) as [v|]; [|eexists; reflexivity].
  destruct v; try reflexivity. eexists; reflexivity.
Qed.

(** What [(current.get("weather") or [{}])[0]] and the description read
    from it come to. *)
Lemma first_condition (d : pydict) :
  let first :=
    App.subscript0
      (py_or (match dict_get d "weather" with Some v => v | None => PNone end)
         (PList [PDict []])) in
  if conditions_readable d
  then ∃ entry s,
         first = App.Done (PDict entry)
         ∧ match dict_get entry "description" with Some v => v | None => PStr "—" end
           = PStr s
  else (∃ f, first = App.Failed f)
       ∨ (∃ v, first = App.Done v ∧ is_dict v = false)
       ∨ (∃ entry, first = App.Done (PDict entry)
            ∧ App.capitalize
                (match dict_get entry "description" with Some v => v | None => PStr "—" end)
              = App.Failed (App.Exn (AttributeError "object has no attribute 'capitalize'"))).
Proof.
  unfold conditions_readable, string_or_absent, py_or.
  destruct (dict_get d "weather") as [v|]; [|exists [], "—"; split; reflexivity].
  destruct (py_truthy v) eqn:Ht; cbn [negb orb].
  - destruct v as [ |b|z|r|s|items|fields]; cbn [App.subscript0].
    + discriminate.
    + left. eexists; reflexivity.
    + left. eexists; reflexivity.
    + left. eexists; reflexivity.
    + destruct s as [|c s']; [discriminate|]. right; left. eexists; split; reflexivity.
    + destruct items as [|x items]; [discriminate|].
      destruct x as [ |b|z|r|s|l|entry]; try (right; left; eexists; split; reflexivity).
      destruct (dict_get entry "description") as [[ |b|z|r|s|l|e]|] eqn:Hg;
        try (right; right; exists entry; rewrite Hg; split; reflexivity).
      * exists entry, s. rewrite Hg. split; reflexivity.
      * exists entry, "—". rewrite Hg. split; reflexivity.
    + left. eexists; reflexivity.
  - exists [], "—". split; reflexivity.
Qed.

(** X22.  Which payloads the current panel can draw.  For a non-empty
    object payload, the panel is drawn in full exactly when the payload is
    well shaped: a metric, two columns, the humidity and wind lines, at
    most one icon, and the caption.  On any other object payload
    [render_current] raises, leaving the session as it was. *)
Theorem render_current_returns_iff (units_label : string) (d : pydict)
    (err : option string) (st : App.state) :
  d ≠ [] →
  (well_shaped d = true →
   ∃ label value delta humidity wind image text,
     App.render_current units_label (PDict d, err) st
     = (App.Done tt,
        {| App.page :=
             App.page st
             ++ [(App.InCol1, App.Metric label value delta);
                 (App.InCol1, App.Columns [1; 1]%Z);
                 (App.InCol1Left, App.Write humidity);
                 (App.InCol1Left, App.Write wind)]
             ++ image ++ [(App.InCol1Right, App.Caption text)];
           App.session := App.session st |})
     ∧ (image = [] ∨ ∃ url, image = [(App.InCol1Right, App.Image url 90)]))
  ∧ (well_shaped d = false →
     ∃ f st',
       App.render_current units_label (PDict d, err) st = (App.Failed f, st')
       ∧ App.session st' = App.session st).
Proof.
  intros Hd.
  assert (Ht : py_truthy (PDict d) = true) by (destruct d; [contradiction|reflexivity]).
  unfold App.render_current. rewrite Ht. cbn [negb].
  unfold format_location_block. cbn [py_get].
  pose proof (field_object d "sys") as Hsys.
  pose proof (first_condition d) as Hfirst.
  pose proof (field_object d "main") as Hmain.
  pose proof (field_object d "wind") as Hwind.
  cbv zeta in Hfirst. unfold well_shaped.
  app_run.
  destruct (object_or_absent d "sys"); cbn [andb];
    [destruct Hsys as [sys_info ->]; cbn [py_get]; cbv beta iota
    |split; [discriminate|]; intros _; rewrite (py_get_not_dict _ _ _ Hsys);
     eexists _, _; split; reflexivity].
  destruct (conditions_readable d); cbn [andb].
  - destruct Hfirst as (entry & s & -> & Hdesc). cbn [py_get]. cbv beta iota.
    destruct (object_or_absent d "main"); cbn [andb];
      [destruct Hmain as [main ->]; cbn [py_get]; cbv beta iota
      |split; [discriminate|]; intros _; rewrite (py_get_not_dict _ "temp" _ Hmain);
       eexists _, _; split; reflexivity].
    destruct (object_or_absent d "wind");
      [destruct Hwind as [wind ->]; cbn [py_get]; cbv beta iota
      |split; [discriminate|]; intros _; rewrite (py_get_not_dict _ "speed" _ Hwind);
       eexists _, _; split; reflexivity].
    split; [intros _|discriminate].
    rewrite Hdesc. cbn [App.capitalize].
    destruct (py_truthy match dict_get entry "icon" with Some v => v | None => PNone end);
      cbv beta iota.
    + eexists _, _, _, _, _, [(App.InCol1Right, App.Image _ 90%Z)], _.
      split; [rewrite <- !app_assoc; reflexivity|right; eexists; reflexivity].
    + eexists _, _, _, _, _, [], _.
      split; [rewrite <- !app_assoc; reflexivity|left; reflexivity].
  - split; [discriminate|]; intros _.
    destruct Hfirst as [[f ->]|[(v & -> & Hv)|(entry & -> & Hcap)]].
    + eexists _, _; split; reflexivity.
    + cbv beta iota. rewrite (py_get_not_dict _ "icon" _ Hv).
      eexists _, _; split; reflexivity.
    + cbn [py_get]. cbv beta iota.
      destruct (object_or_absent d "main");
        [destruct Hmain as [main ->]; cbn [py_get]; cbv beta iota
        |rewrite (py_get_not_dict _ "temp" _ Hmain); eexists _, _; split; reflexivity].
      destruct (object_or_absent d "wind");
        [destruct Hwind as [wind ->]; cbn [py_get]; cbv beta iota
        |rewrite (py_get_not_dict _ "speed" _ Hwind); eexists _, _; split; reflexivity].
      rewrite Hcap.
      destruct (py_truthy match dict_get entry "icon" with Some v => v | None => PNone end);
        eexists _, _; split; reflexivity.
Qed.

Lemma render_current_returns_iff_witness :
  ∃ shown,
    App.render_current "metric" (PDict bare_payload, None) (App.start Session.fresh)
    = (App.Done tt, {| App.page := shown; App.session := Session.fresh |})
    ∧ 5 ≤ length shown.
Proof.
  destruct (proj1 (render_current_returns_iff "metric" bare_payload None
                     (App.start Session.fresh) ltac:(discriminate)) eq_refl)
    as (label & value & delta & humidity & wind & image & text & Hrun & _).
  eexists. split; [exact Hrun|].
  cbn [App.page App.start]. rewrite !length_app. simpl. lia.
Defined.
